(** * Hybrid retrieval and orchestration engine (citadel-bing-agent)

  A shallow embedding of
    - [src/plugins/internal_knowledge_plugin.py]
      ([InternalKnowledgePlugin.search_internal_knowledge]) and
    - [src/main_sk.py] ([stream_agent_response])
  together with the properties the specification states about them.

  Conventions.
  - A Python [str] is a [string]: the bytes of its UTF-8 form.
    Equality, [in], [startswith], [split('\n')] and [join] are the same
    on the bytes as on the code points; [len] and [s[:n]] count code
    points ([Py.len], [Py.slice_to]).
  - [lower], [strip] and [split] depend on the Unicode database of the
    interpreter.  Modules [Str], [Plugin] and [Main] are the program
    on ASCII text, where every keyword of the source lives: there the
    three methods are those of [Str].  Modules [Py], [Matcher] and
    [Orchestrator] are the same program on any text: the three methods
    are parameters ([Py.StrMethods]), and what is proved there holds
    whatever they are; [Py.ascii_only] is used to run the program on
    ASCII inputs.
  - A Python [dict] that is iterated is an association list in insertion
    order, as CPython iterates it.
  - [None] is [None]; truthiness of an optional string is [truthy].
  - Calls of [logger] have no effect on the result and are left out. *)

From Stdlib Require Import List Bool Arith ZArith Lia.
From Stdlib Require Import Ascii String DecimalString.
From Equations Require Import Equations.
Import ListNotations.

Open Scope string_scope.
Open Scope nat_scope.

(* ================================================================== *)
(** ** Python string primitives                                        *)
(* ================================================================== *)

Module Str.

(** [c.isspace()] on the ASCII range of a [str]: TAB, LF, VT, FF, CR,
    the separators 0x1c..0x1f and the blank. *)
Definition is_space (c : ascii) : bool :=
  let n := nat_of_ascii c in
  ((9 <=? n) && (n <=? 13)) || ((28 <=? n) && (n <=? 32)).

Definition lower_char (c : ascii) : ascii :=
  let n := nat_of_ascii c in
  if (65 <=? n) && (n <=? 90) then ascii_of_nat (n + 32) else c.

(** [s.lower()] *)
Fixpoint lower (s : string) : string :=
  match s with
  | EmptyString => EmptyString
  | String c s' => String (lower_char c) (lower s')
  end.

(** [s.lstrip()] *)
Fixpoint lstrip (s : string) : string :=
  match s with
  | EmptyString => EmptyString
  | String c s' => if is_space c then lstrip s' else s
  end.

Definition is_empty (s : string) : bool :=
  match s with EmptyString => true | String _ _ => false end.

(** [s.rstrip()] *)
Fixpoint rstrip (s : string) : string :=
  match s with
  | EmptyString => EmptyString
  | String c s' =>
      let r := rstrip s' in
      if is_space c && is_empty r then EmptyString else String c r
  end.

(** [s.strip()] *)
Definition strip (s : string) : string := rstrip (lstrip s).

(** [s.startswith(w)] *)
Definition startswith (w s : string) : bool := String.prefix w s.

(** [w in s] for two strings: [w] occurs in [s] as a substring. *)
Fixpoint str_in (w s : string) : bool :=
  String.prefix w s ||
  match s with
  | EmptyString => false
  | String _ s' => str_in w s'
  end.

(** [s.split()]: the maximal runs of non-whitespace characters. *)
Fixpoint split (s : string) : list string :=
  match s with
  | EmptyString => []
  | String c s' =>
      if is_space c then split s'
      else match s' with
           | EmptyString => [String c EmptyString]
           | String c' _ =>
               if is_space c' then String c EmptyString :: split s'
               else match split s' with
                    | w :: ws => String c w :: ws
                    | [] => [String c EmptyString]
                    end
           end
  end.

(** [s.split(sep)] for a one-character separator: never empty. *)
Fixpoint split_on (sep : ascii) (s : string) : list string :=
  match s with
  | EmptyString => [EmptyString]
  | String c s' =>
      if Ascii.eqb c sep then EmptyString :: split_on sep s'
      else match split_on sep s' with
           | w :: ws => String c w :: ws
           | [] => [String c EmptyString]
           end
  end.

(** [sep.join(l)] *)
Definition join (sep : string) (l : list string) : string :=
  String.concat sep l.

(** [x in l] for a list (or set) of strings. *)
Definition mem (x : string) (l : list string) : bool :=
  existsb (String.eqb x) l.

(** [l.index(x)]: position of the first element equal to [x]. *)
Fixpoint index (x : string) (l : list string) : option nat :=
  match l with
  | [] => None
  | y :: l' => if String.eqb y x then Some 0
               else option_map S (index x l')
  end.

(** [s[:n]] *)
Definition take (n : nat) (s : string) : string := String.substring 0 n s.

(** [str(n)] for a natural number. *)
Definition of_nat (n : nat) : string :=
  NilEmpty.string_of_uint (Nat.to_uint n).

(** Truthiness of an optional string: [None] and the empty string are
    false. *)
Definition truthy (o : option string) : bool :=
  match o with
  | Some s => negb (is_empty s)
  | None => false
  end.

Definition LF : ascii := ascii_of_nat 10.

(** The first character of [w] is not whitespace. *)
Definition starts_solid (w : string) : bool :=
  match w with
  | EmptyString => false
  | String c _ => negb (is_space c)
  end.

(** The last character of [w] is not whitespace. *)
Fixpoint ends_solid (w : string) : bool :=
  match w with
  | EmptyString => false
  | String c EmptyString => negb (is_space c)
  | String _ w' => ends_solid w'
  end.

End Str.

(* ================================================================== *)
(** ** [InternalKnowledgePlugin]                                       *)
(* ================================================================== *)

Module Plugin.

Import Str.

(** The three dictionaries an [InternalKnowledgePlugin] is built with.
    A customer record is kept as its fields with [str(value)] already
    applied, which is all [search_internal_knowledge] looks at. *)
Record InternalKnowledgePlugin := {
  _customer_data : list (string * list (string * string));
  _product_data : list (string * string);
  _policies : list (string * string)
}.

(** [_load_banking_policies] *)
Definition _load_banking_policies : list (string * string) :=
  [ ("account_opening", "New accounts require ID verification, credit check, and minimum deposit of $100.");
    ("loan_approval", "Loans require income verification, credit score above 650, and debt-to-income ratio below 40%.");
    ("wire_transfer", "Wire transfers above $10,000 require manager approval and additional verification.");
    ("fraud_protection", "Suspicious activities trigger automatic account holds and customer notifications.");
    ("customer_service", "All customer inquiries should be handled within 24 hours with full documentation.");
    ("compliance", "All transactions must comply with BSA, AML, and KYC requirements.") ].

Definition greetings : list string :=
  ["hi"; "hello"; "hey"; "good morning"; "good afternoon"; "good evening"].

Definition simple_queries : list string :=
  ["help"; "start"; "begin"; "what can you do"; "how are you"].

Definition common_words : list string :=
  ["tell"; "me"; "about"; "what"; "is"; "are"; "the"; "a"; "an"; "and";
   "or"; "but"; "in"; "on"; "at"; "to"; "for"; "of"; "with"; "by"; "from";
   "up"; "about"; "into"; "through"; "during"; "before"; "after"; "above";
   "below"; "between"; "among"; "i"; "you"; "he"; "she"; "it"; "we";
   "they"; "this"; "that"; "these"; "those"; "can"; "could"; "would";
   "should"; "will"; "shall"; "may"; "might"; "must"; "do"; "does"; "did";
   "have"; "has"; "had"; "be"; "am"; "is"; "are"; "was"; "were"; "been";
   "being"; "show"; "find"; "list"; "get"; "give"; "looking"; "need";
   "want"; "like"; "see"; "view"].

Definition product_categories : list (string * list string) :=
  [ ("tent", ["tent"; "tents"; "shelter"]);
    ("table", ["table"; "tables"; "dining"]);
    ("chair", ["chair"; "chairs"; "seat"]);
    ("backpack", ["backpack"; "backpacks"; "pack"; "daypack"]);
    ("sleeping", ["sleeping"; "sleep"]);
    ("boots", ["boot"; "boots"; "shoe"; "shoes"; "footwear"; "sandal"; "sandals"]);
    ("jacket", ["jacket"; "jackets"]);
    ("stove", ["stove"; "stoves"; "cooking"; "cook"; "burner"]);
    ("pants", ["pant"; "pants"]);
    ("bag", ["bag"; "bags"]) ].

Definition policy_keywords : list string :=
  ["policy"; "rule"; "return"; "warranty"; "service"; "support"].

Definition customer_keywords : list string :=
  ["customer"; "account"; "order"; "purchase"].

(** The fixed replies. *)
Definition no_query_text : string := "Please provide a search query.".

Definition greeting_text : string :=
  "Hello! I'm your outdoor gear assistant. I can help you find information about camping equipment, hiking gear, tents, sleeping bags, backpacks, and more. What specific products are you looking for?".

Definition be_specific_text : string :=
  "Please be more specific about what camping or outdoor gear you're looking for. I can help with tents, sleeping bags, backpacks, hiking gear, camping stoves, and more.".

Definition not_found_text (query : string) : string :=
  "No specific products found for '" ++ query ++
  "'. I can help you find camping gear like tents, sleeping bags, backpacks, hiking boots, camping stoves, and outdoor clothing. What are you looking for?".

(** The test of lines 141-143: [a or b or (c and d)]. *)
Definition is_greeting (query_lower : string) : bool :=
  existsb (fun greeting => String.eqb query_lower greeting) greetings
  || existsb (fun simple => str_in simple query_lower) simple_queries
  || ((List.length (split query_lower) <=? 2)
      && existsb (fun greeting => str_in greeting query_lower) greetings).

(** Line 150. *)
Definition extract_keywords (query_lower : string) : list string :=
  filter (fun word => negb (mem word common_words) && (2 <? String.length word))
         (split query_lower).

(** Lines 171-174: the categories one of whose trigger keywords is a
    keyword of the query, in the order of [product_categories]. *)
Definition relevant_categories_of (keywords : list string) : list string :=
  map fst
    (filter (fun '(_, category_keywords) =>
               existsb (fun cat_keyword => mem cat_keyword keywords)
                       category_keywords)
            product_categories).

(** [product_categories[category]] *)
Definition category_keywords_of (category : string) : list string :=
  match find (fun '(c, _) => String.eqb c category) product_categories with
  | Some (_, kws) => kws
  | None => []
  end.

(** Lines 190-198: the line that follows the first line starting with
    "## category", stripped and lower-cased; [None] when there is no
    such header or it is the last line. *)
Definition category_match_of (content : string) : option string :=
  let lines := split_on LF content in
  match find (fun line => startswith "## category" (lower (strip line))) lines with
  | None => None
  | Some line =>
      match index line lines with
      | Some category_line_idx =>
          if category_line_idx + 1 <? List.length lines
          then Some (lower (strip (nth (category_line_idx + 1) lines EmptyString)))
          else None
      | None => None
      end
  end.

(** Lines 201-208: category mode. *)
Definition category_hit (relevant_categories : list string)
           (category_match : option string) : bool :=
  match category_match with
  | Some cm =>
      negb (is_empty cm) &&
      existsb (fun category =>
                 existsb (fun cat_keyword => str_in cat_keyword cm)
                         (category_keywords_of category))
              relevant_categories
  | None => false
  end.

(** Lines 210-222: free-text mode. *)
Definition free_text_hit (keywords : list string) (content : string)
           (category_match : option string) : bool :=
  let lines := split_on LF content in
  let product_name :=
    if 1 <? List.length lines then nth 1 lines EmptyString else EmptyString in
  let product_name_lower := lower product_name in
  let strong_keywords := filter (fun kw => 3 <? String.length kw) keywords in
  match strong_keywords with
  | [] => false
  | _ =>
      let name_matches :=
        List.length (filter (fun kw => str_in kw product_name_lower) strong_keywords) in
      let category_matches :=
        List.length
          (filter (fun kw =>
                     match category_match with
                     | Some cm => negb (is_empty cm) && str_in kw cm
                     | None => false
                     end) strong_keywords) in
      (1 <=? name_matches) || (1 <=? category_matches)
  end.

(** [should_include] at line 224 for one product document. *)
Definition should_include (keywords relevant_categories : list string)
           (content : string) : bool :=
  let category_match := category_match_of content in
  match relevant_categories with
  | _ :: _ => category_hit relevant_categories category_match
  | [] => free_text_hit keywords content category_match
  end.

(** What [results] holds, before it is rendered as text. *)
Inductive Entry :=
| PolicyEntry (policy_key policy_content : string)
| ProductEntry (product_id content : string)
| CustomerCount (customer_matches : nat).

Definition render (e : Entry) : string :=
  match e with
  | PolicyEntry policy_key policy_content =>
      "Policy - " ++ policy_key ++ ": " ++ policy_content
  | ProductEntry product_id content =>
      "Product - " ++ product_id ++ ": " ++ take 300 content ++ "..."
  | CustomerCount customer_matches =>
      "Found " ++ of_nat customer_matches ++
      " matching customer records (details require specific customer ID)"
  end.

(** A knowledge record the search has looked at. *)
Inductive Visit :=
| VisitPolicy (policy_key : string)
| VisitProduct (product_id : string)
| VisitCustomer (customer_id : string).

(** Lines 178-181. *)
Definition scan_policies (keywords : list string)
           (policies : list (string * string)) : list Entry * list Visit :=
  if existsb (fun policy_kw => mem policy_kw keywords) policy_keywords then
    (flat_map (fun '(policy_key, policy_content) =>
                 if existsb (fun keyword =>
                               str_in keyword (lower policy_key)
                               || str_in keyword (lower policy_content))
                            keywords
                 then [PolicyEntry policy_key policy_content] else [])
              policies,
     map (fun '(policy_key, _) => VisitPolicy policy_key) policies)
  else ([], []).

(** Lines 184-228: the product loop with its early exit;
    [product_matches] is the count on entry. *)
Fixpoint scan_products (keywords relevant_categories : list string)
         (product_matches : nat) (products : list (string * string))
  : list Entry * list Visit :=
  match products with
  | [] => ([], [])
  | (product_id, content) :: rest =>
      if should_include keywords relevant_categories content then
        if 8 <=? product_matches + 1
        then ([ProductEntry product_id content], [VisitProduct product_id])
        else
          let '(es, vs) :=
            scan_products keywords relevant_categories (product_matches + 1) rest in
          (ProductEntry product_id content :: es, VisitProduct product_id :: vs)
      else
        let '(es, vs) :=
          scan_products keywords relevant_categories product_matches rest in
        (es, VisitProduct product_id :: vs)
  end.

(** Lines 231-239. *)
Definition scan_customers (keywords : list string)
           (customers : list (string * list (string * string)))
  : list Entry * list Visit :=
  if existsb (fun cust_kw => mem cust_kw keywords) customer_keywords then
    let customer_matches :=
      List.length
        (filter (fun '(_, data) =>
                   existsb (fun '(_, value) =>
                              existsb (fun keyword => str_in keyword (lower value))
                                      keywords)
                           data)
                customers) in
    ((if 0 <? customer_matches then [CustomerCount customer_matches] else []),
     map (fun '(customer_id, _) => VisitCustomer customer_id) customers)
  else ([], []).

(** The ways [search_internal_knowledge] returns. *)
Inductive Outcome :=
| NoQuery
| Greeting
| BeSpecific
| Results (results : list Entry).

(** The body of [search_internal_knowledge], with the records it
    visited next to what it found. *)
Definition search (self : InternalKnowledgePlugin) (query : string)
  : Outcome * list Visit :=
  if is_empty query then (NoQuery, [])
  else
    let query_lower := strip (lower query) in
    if is_greeting query_lower then (Greeting, [])
    else
      let keywords := extract_keywords query_lower in
      match keywords with
      | [] => (BeSpecific, [])
      | _ =>
          let relevant_categories := relevant_categories_of keywords in
          let '(r1, v1) := scan_policies keywords (_policies self) in
          let '(r2, v2) :=
            scan_products keywords relevant_categories 0 (_product_data self) in
          let '(r3, v3) := scan_customers keywords (_customer_data self) in
          (Results (r1 ++ r2 ++ r3)%list, (v1 ++ v2 ++ v3)%list)
      end.

(** The text returned (lines 133, 144, 154, 241-244). *)
Definition reply_of (query : string) (o : Outcome) : string :=
  match o with
  | NoQuery => no_query_text
  | Greeting => greeting_text
  | BeSpecific => be_specific_text
  | Results [] => not_found_text query
  | Results results => join (String LF (String LF EmptyString)) (map render results)
  end.

Definition search_internal_knowledge (self : InternalKnowledgePlugin)
           (query : string) : string :=
  reply_of query (fst (search self query)).

(** The knowledge records a search looks at. *)
Definition scanned (self : InternalKnowledgePlugin) (query : string)
  : list Visit :=
  snd (search self query).

(** The product documents among the entries of a result. *)
Definition product_docs (o : Outcome) : list (string * string) :=
  match o with
  | Results results =>
      flat_map (fun e => match e with
                         | ProductEntry product_id content => [(product_id, content)]
                         | _ => []
                         end) results
  | _ => []
  end.

(** The product documents among the records visited. *)
Definition visited_products (vs : list Visit) : list string :=
  flat_map (fun v => match v with VisitProduct p => [p] | _ => [] end) vs.

Definition is_product (e : Entry) : bool :=
  match e with ProductEntry _ _ => true | _ => false end.

Definition is_product_visit (v : Visit) : bool :=
  match v with VisitProduct _ => true | _ => false end.

Definition docs_of (results : list Entry) : list (string * string) :=
  product_docs (Results results).

(** The keywords and categories of a query. *)
Definition keywords_of (query : string) : list string :=
  extract_keywords (strip (lower query)).

Definition requested_categories (query : string) : list string :=
  relevant_categories_of (keywords_of query).

(** Every trigger keyword of the taxonomy. *)
Definition trigger_keywords : list string :=
  flat_map snd product_categories.

End Plugin.

Module PluginTests.
Import Str Plugin.

Definition tent_doc : string :=
  "# Information about product item_number: 1
TrailMaster X4 Tent, price $250,

## Brand
OutdoorLiving

## Category
Tents

## Features
- Polyester material".

Definition stove_doc : string :=
  "# Information about product item_number: 2
CompactCook Camping Stove, price $60,

## Category
Camping Stoves

A stove that fits in any tent.".

Definition demo : InternalKnowledgePlugin :=
  {| _customer_data := [("c1", [("name", "Jane Doe"); ("order", "tent")])];
     _product_data := [("1", tent_doc); ("2", stove_doc)];
     _policies := _load_banking_policies |}.

(** Ten tent documents and a stove, to exercise the cap. *)
Definition crowded : InternalKnowledgePlugin :=
  {| _customer_data := [];
     _product_data :=
       map (fun n => (of_nat n, tent_doc)) (seq 1 10) ++ [("11", stove_doc)];
     _policies := _load_banking_policies |}.

End PluginTests.

(* ================================================================== *)
(** ** [main_sk.py]: collaborators, effects, [stream_agent_response]   *)
(* ================================================================== *)

Module Main.

Import Str.

(** What a call of a collaborator gives back: a value, or an exception
    with its message. *)
Inductive Res (A : Type) : Type :=
| Ok (a : A)
| Raise (e : string).
Arguments Ok {A} a.
Arguments Raise {A} e.

(** *** The collaborators *)

(** What [create_thread_and_run] returns. *)
Record RunResult := { id : string; thread_id : string }.

(** One item of [message.content]: [text] is [None] when the item has
    no (or a false) [text] attribute, else it carries [text.value]. *)
Record ContentItem := { text : option string }.

Record ThreadMessage := { role : string; content : list ContentItem }.

(** [ai_project_client.agents], as seen by one request: an answer for
    the submission, for the k-th status check (k = 0, 1, ...) and for
    the message listing made after a number of status checks. *)
Record AgentsClient := {
  create_thread_and_run : string -> string -> Res RunResult;
  runs_get : RunResult -> nat -> Res string;
  messages_list : string -> nat -> Res (list ThreadMessage)
}.

Record Agent := { agent_id : string }.

(** The module globals read by [stream_agent_response]; [kernel] and
    [chat_service] are only tested for being set.  [loop_time] is what
    [asyncio.get_event_loop().time()] gives. *)
Record Globals := {
  kernel : bool;
  internal_plugin : option (string -> Res string);
  chat_service : bool;
  ai_project_client : option AgentsClient;
  agent : option Agent;
  loop_time : Res Z
}.

(** *** Effects: the calls made and the events yielded *)

Inductive Call :=
| LoopTime
| SearchInternal (query : string)
| CreateThreadAndRun (enhanced_message : string)
| RunsGet (k : nat)
| Sleep (seconds : Z)
| MessagesList.

(** The dictionaries given to [serialize_sse_event]; [annotations] is
    always the empty list. *)
Inductive StreamEvent :=
| CompletedMessage (content : string)
| StreamEnd.

(** The [type] field of an event. *)
Definition event_type (e : StreamEvent) : string :=
  match e with
  | CompletedMessage _ => "completed_message"
  | StreamEnd => "stream_end"
  end.

Record World := { calls : list Call; yielded : list StreamEvent }.

Definition M (A : Type) : Type := World -> World * Res A.

Definition ret {A} (a : A) : M A := fun w => (w, Ok a).

Definition bind {A B} (m : M A) (k : A -> M B) : M B :=
  fun w => match m w with
           | (w', Ok a) => k a w'
           | (w', Raise e) => (w', Raise e)
           end.

(** [try: m  except Exception as e: h e] *)
Definition try_except {A} (m : M A) (h : string -> M A) : M A :=
  fun w => match m w with
           | (w', Ok a) => (w', Ok a)
           | (w', Raise e) => h e w'
           end.

Definition log (cs : list Call) : M unit :=
  fun w => ({| calls := (calls w ++ cs)%list; yielded := yielded w |}, Ok tt).

(** A call of a collaborator: recorded, then its answer. *)
Definition call {A} (c : Call) (r : Res A) : M A :=
  fun w => ({| calls := (calls w ++ [c])%list; yielded := yielded w |}, r).

(** [yield serialize_sse_event(e)] *)
Definition yield (e : StreamEvent) : M unit :=
  fun w => ({| calls := calls w; yielded := (yielded w ++ [e])%list |}, Ok tt).

Declare Scope py_scope.
Delimit Scope py_scope with py.
Notation "x <- m ;; k" := (bind m (fun x => k))
  (at level 100, m at next level, right associativity) : py_scope.
Notation "m ;;; k" := (bind m (fun _ => k))
  (at level 100, right associativity) : py_scope.

(** *** The external run: submit, poll, extract *)

Definition max_wait_time : Z := 30.
Definition wait_interval : Z := 2.

Definition finished_statuses : list string :=
  ["completed"; "failed"; "expired"; "cancelled"].

Definition is_finished (status : string) : bool := mem status finished_statuses.

(** The variables of the polling loop: [elapsed_time], the number of
    status checks made, the statuses read so far (the last one is
    [current_run.status]) and the calls made. *)
Record PollState := {
  elapsed_time : Z;
  checks : nat;
  observed : list string;
  poll_calls : list Call
}.

Definition poll_init : PollState :=
  {| elapsed_time := 0; checks := 0; observed := []; poll_calls := [] |}.

(** [runs.get] answered with [status]. *)
Definition got (status : string) (s : PollState) : PollState :=
  {| elapsed_time := elapsed_time s;
     checks := S (checks s);
     observed := (observed s ++ [status])%list;
     poll_calls := (poll_calls s ++ [RunsGet (checks s)])%list |}.

(** [runs.get] raised. *)
Definition failed (s : PollState) : PollState :=
  {| elapsed_time := elapsed_time s;
     checks := S (checks s);
     observed := observed s;
     poll_calls := (poll_calls s ++ [RunsGet (checks s)])%list |}.

(** [time.sleep(wait_interval); elapsed_time += wait_interval] *)
Definition slept (s : PollState) : PollState :=
  {| elapsed_time := (elapsed_time s + wait_interval)%Z;
     checks := checks s;
     observed := observed s;
     poll_calls := (poll_calls s ++ [Sleep wait_interval])%list |}.

(** Lines 241-262: [while elapsed_time < max_wait_time], with the
    [try]/[except] around the status check and both [break]s. *)
Equations poll_loop (client : AgentsClient) (run_result : RunResult)
          (s : PollState) : PollState
  by wf (Z.to_nat (max_wait_time - elapsed_time s)) lt :=
  poll_loop client run_result s with Z_lt_dec (elapsed_time s) max_wait_time := {
    | right _ => s
    | left _ with runs_get client run_result (checks s) := {
        | Raise _ => slept (failed s)
        | Ok status with is_finished status := {
            | true => got status s
            | false => poll_loop client run_result (slept (got status s)) } } }.
Next Obligation.
  change (Z.to_nat (max_wait_time - (elapsed_time s + wait_interval))
          < Z.to_nat (max_wait_time - elapsed_time s)).
  unfold max_wait_time, wait_interval in *. lia.
Qed.

(** [current_run.status] after the loop, if a check ever succeeded. *)
Definition current_run (s : PollState) : option string :=
  match rev (observed s) with
  | status :: _ => Some status
  | [] => None
  end.

(** Lines 283-288: the first content item with a text. *)
Fixpoint first_text (items : list ContentItem) : option string :=
  match items with
  | [] => None
  | content_item :: rest =>
      match text content_item with
      | Some value => Some value
      | None => first_text rest
      end
  end.

Definition is_nil {A} (l : list A) : bool :=
  match l with [] => true | _ :: _ => false end.

(** [l.append(x)] *)
Definition append {A} (l : list A) (x : A) : list A := (l ++ [x])%list.

(** Lines 279-290: the loop over the messages, [agent_response] being
    the variable it assigns. *)
Fixpoint extract (messages_list : list ThreadMessage)
         (agent_response : option string) : option string :=
  match messages_list with
  | [] => agent_response
  | message :: rest =>
      if String.eqb (role message) "assistant" && negb (is_nil (content message))
      then
        let agent_response' :=
          match first_text (content message) with
          | Some value => Some value
          | None => agent_response
          end in
        if truthy agent_response' then agent_response'
        else extract rest agent_response'
      else extract rest agent_response
  end.


(** *** Routing and composition *)

(** Line 175. *)
Definition external_info_keywords : list string :=
  ["weather"; "temperature"; "forecast"; "news"; "current"; "today"; "now";
   "latest"; "recent"; "stock"; "price"; "market"].

(** Line 195. *)
Definition web_search_keywords : list string :=
  ["weather"; "current"; "today"; "now"; "latest"; "recent"; "news";
   "stock"; "price"; "forecast"; "temperature"].

(** [any(keyword in text for keyword in keywords)] *)
Definition any_in (keywords : list string) (text : string) : bool :=
  existsb (fun keyword => str_in keyword text) keywords.

Definition is_external_query (user_message : string) : bool :=
  any_in external_info_keywords (lower user_message).

Definition needs_web_search (user_message : string) : bool :=
  any_in web_search_keywords (lower user_message).

(** [text and "not found" not in text.lower()] of lines 185 and 203. *)
Definition usable (text : option string) : bool :=
  match text with
  | Some t => truthy text && negb (str_in "not found" (lower t))
  | None => false
  end.

(** Step 1, lines 172-191: the value left in [internal_response]. *)
Definition step1 (g : Globals) (user_message : string) : M (option string) :=
  match internal_plugin g with
  | Some plugin =>
      if kernel g then
        try_except
          (if negb (is_external_query user_message) then
             (internal_context <- call (SearchInternal user_message)
                                       (plugin user_message) ;;
              if usable (Some internal_context)
              then ret (Some internal_context)
              else ret None)%py
           else ret None)
          (fun _ => ret None)
      else ret None
  | None => ret None
  end.

(** Lines 202-216. *)
Definition enhanced_message_of (user_message : string)
           (internal_response : option string) : string :=
  match internal_response with
  | Some r =>
      if usable internal_response then
        "User question: " ++ user_message ++ "

I have relevant internal outdoor gear information:
" ++ r ++ "

Please provide a comprehensive answer. If you need current web information, use your Bing search capability and include citations. Combine both internal and web information appropriately."
      else
        "User question: " ++ user_message ++ "

You have access to a Bing search tool. Please use it to search for current information to answer this question. Do not say you cannot provide real-time information - instead, use your Bing search capability to find the most up-to-date information and provide it to the user with proper citations.

IMPORTANT: Use the Bing search tool to get current, real-time information for this query."
  | None =>
        "User question: " ++ user_message ++ "

You have access to a Bing search tool. Please use it to search for current information to answer this question. Do not say you cannot provide real-time information - instead, use your Bing search capability to find the most up-to-date information and provide it to the user with proper citations.

IMPORTANT: Use the Bing search tool to get current, real-time information for this query."
  end.

(** Lines 298-302: what the external run adds to [responses]. *)
Definition agent_fragment (agent_response : option string) : list string :=
  match agent_response with
  | Some r => if truthy agent_response
              then ["**AI Assistant with Bing:** " ++ r] else []
  | None => []
  end.

(** The guard of line 197. *)
Definition use_external (g : Globals) (user_message : string)
           (internal_response : option string) : bool :=
  match agent g, ai_project_client g with
  | Some _, Some _ =>
      needs_web_search user_message || negb (truthy internal_response)
  | _, _ => false
  end.

(** Lines 198-305, the body of the [try] of step 2: submit, poll, list
    the messages, extract. *)
Definition delegate (a : Agent) (client : AgentsClient)
           (user_message : string) (internal_response : option string)
  : M (list string) :=
  (let enhanced_message := enhanced_message_of user_message internal_response in
   run_result <- call (CreateThreadAndRun enhanced_message)
                      (create_thread_and_run client (agent_id a) enhanced_message) ;;
   let s := poll_loop client run_result poll_init in
   log (poll_calls s) ;;;
   agent_response <-
     try_except
       (messages <- call MessagesList
                         (messages_list client (thread_id run_result) (checks s)) ;;
        ret (extract messages None))
       (fun _ => ret None) ;;
   ret (agent_fragment agent_response))%py.

(** Step 2, lines 194-306: the value left in [responses]. *)
Definition step2 (g : Globals) (user_message : string)
           (internal_response : option string) : M (list string) :=
  match agent g, ai_project_client g with
  | Some a, Some client =>
      if needs_web_search user_message || negb (truthy internal_response)
      then try_except (delegate a client user_message internal_response)
                      (fun _ => ret [])
      else ret []
  | _, _ => ret []
  end.

(** Step 3, lines 309-311. *)
Definition step3 (internal_response : option string)
           (responses : list string) : list string :=
  match internal_response with
  | Some r =>
      if truthy internal_response && is_nil responses
      then append responses ("**Internal Knowledge:** " ++ r)
      else responses
  | None => responses
  end.

Definition fallback_response : string :=
  "Hello! I'm your outdoor gear assistant. I'm currently operating with limited capabilities, but I can still help you with:

• Information about camping equipment and outdoor gear
• Product details about tents, backpacks, hiking boots, and camping supplies
• General outdoor activity guidance and tips
• Equipment recommendations based on your needs

For weather information, current news, or other external information, I may need my web search capabilities to be working properly.

What outdoor gear or camping questions can I help you with?".

(** Step 5, lines 325-337.  (Step 4, lines 314-322, does nothing.) *)
Definition step5 (responses : list string) : list string :=
  if is_nil responses then append responses fallback_response
  else responses.

Definition blank_line : string := String LF (String LF EmptyString).

(** Line 340. *)
Definition combine (responses : list string) : string :=
  if is_nil responses
  then "I apologize, but I'm unable to process your request at the moment."
  else join blank_line responses.

(** Lines 298-340 together: from the two optional fragments to the
    reply. *)
Definition compose (internal_response agent_response : option string)
  : string :=
  combine (step5 (step3 internal_response (agent_fragment agent_response))).

Definition error_message : string :=
  "I'm sorry, I couldn't generate a response. Please try again.".

(** Lines 161-162: without a thread identifier one is made from the
    clock of the event loop. *)
Definition ensure_thread (g : Globals) (thread_id : option string) : M unit :=
  if truthy thread_id then ret tt
  else (_ <- call LoopTime (loop_time g) ;; ret tt)%py.

(** Lines 160-340, the part of the [try] body before the first
    [yield]: the thread identifier, steps 1 to 5 and the combination,
    giving [final_response]. *)
Definition answer (g : Globals) (user_message : string)
           (thread_id : option string) : M string :=
  (ensure_thread g thread_id ;;;
   internal_response <- step1 g user_message ;;
   responses <- step2 g user_message internal_response ;;
   ret (combine (step5 (step3 internal_response responses))))%py.

(** [stream_agent_response], lines 155-353. *)
Definition stream_agent_response (g : Globals) (user_message : string)
           (thread_id : option string) : M unit :=
  try_except
    (final_response <- answer g user_message thread_id ;;
     yield (CompletedMessage final_response) ;;;
     yield StreamEnd)%py
    (fun _ =>
       (yield (CompletedMessage error_message) ;;;
        yield StreamEnd)%py).

Definition new_world : World := {| calls := []; yielded := [] |}.

(** One request, from a fresh generator to its exhaustion. *)
Definition handle (g : Globals) (user_message : string)
           (thread_id : option string) : World * Res unit :=
  stream_agent_response g user_message thread_id new_world.

(** The events the caller receives and the calls made for them. *)
Definition events (g : Globals) (user_message : string)
           (thread_id : option string) : list StreamEvent :=
  yielded (fst (handle g user_message thread_id)).

Definition trace (g : Globals) (user_message : string)
           (thread_id : option string) : list Call :=
  calls (fst (handle g user_message thread_id)).

(** *** Derived views of one request *)

(** The request got past the thread identifier of lines 161-162. *)
Definition started (g : Globals) (thread_id : option string) : bool :=
  truthy thread_id ||
  match loop_time g with Ok _ => true | Raise _ => false end.

(** Step 1 calls the plugin. *)
Definition searches (g : Globals) (user_message : string) : bool :=
  match internal_plugin g with
  | Some _ => kernel g && negb (is_external_query user_message)
  | None => false
  end.

(** The value step 1 leaves in [internal_response]. *)
Definition internal_response_of (g : Globals) (user_message : string)
  : option string :=
  match internal_plugin g with
  | Some plugin =>
      if kernel g && negb (is_external_query user_message) then
        match plugin user_message with
        | Ok internal_context =>
            if usable (Some internal_context) then Some internal_context
            else None
        | Raise _ => None
        end
      else None
  | None => None
  end.

Definition is_sleep (c : Call) : bool :=
  match c with Sleep _ => true | _ => false end.

Definition is_runs_get (c : Call) : bool :=
  match c with RunsGet _ => true | _ => false end.

Definition is_search (c : Call) : bool :=
  match c with SearchInternal _ => true | _ => false end.

Definition is_submit (c : Call) : bool :=
  match c with CreateThreadAndRun _ => true | _ => false end.

(** The number of [time.sleep] calls and of status checks in a trace. *)
Definition sleeps (cs : list Call) : nat := List.length (filter is_sleep cs).

Definition status_checks (cs : list Call) : nat :=
  List.length (filter is_runs_get cs).

(** The calls of lines 161-162 and of step 1. *)
Definition time_calls (thread_id : option string) : list Call :=
  if truthy thread_id then [] else [LoopTime].

Definition search_calls (g : Globals) (user_message : string) : list Call :=
  if searches g user_message then [SearchInternal user_message] else [].

(** A call that is neither the internal lookup nor a submission. *)
Definition is_plain (c : Call) : bool := negb (is_search c) && negb (is_submit c).

Definition add_calls (cs : list Call) (w : World) : World :=
  {| calls := (calls w ++ cs)%list; yielded := yielded w |}.

Definition text_of (o : option string) : string :=
  match o with Some t => t | None => EmptyString end.

(** [n] rounds of the loop that ran to their end: a status check, then
    one sleep of [wait_interval]. *)
Definition rounds (n : nat) : list Call :=
  flat_map (fun k => [RunsGet k; Sleep wait_interval]) (seq 0 n).

(** What holds each time the loop tests its condition: no check has
    failed or read a finished status, and every check was followed by
    one sleep of [wait_interval]. *)
Record Polling (s : PollState) : Prop := {
  polling_elapsed : elapsed_time s = (wait_interval * Z.of_nat (checks s))%Z;
  polling_budget : (elapsed_time s <= max_wait_time)%Z;
  polling_observed : List.length (observed s) = checks s;
  polling_unfinished : Forall (fun st => is_finished st = false) (observed s);
  polling_sleeps : sleeps (poll_calls s) = checks s;
  polling_checks : status_checks (poll_calls s) = checks s;
  polling_calls : poll_calls s = rounds (checks s)
}.

(** What holds when the loop is left. *)
Record Left (s : PollState) : Prop := {
  left_checks : checks s <= 15;
  left_elapsed : (0 <= elapsed_time s <= max_wait_time)%Z;
  left_sleeps : elapsed_time s = (wait_interval * Z.of_nat (sleeps (poll_calls s)))%Z;
  left_status_checks : status_checks (poll_calls s) = checks s;
  left_calls : poll_calls s = rounds (checks s)
               \/ exists k, checks s = S k
                            /\ poll_calls s = (rounds k ++ [RunsGet k])%list;
  left_finished : forall i status,
    nth_error (observed s) i = Some status ->
    is_finished status = true ->
    List.length (observed s) = i + 1
    /\ checks s = i + 1
    /\ elapsed_time s = (wait_interval * Z.of_nat i)%Z
    /\ exists before, poll_calls s = (before ++ [RunsGet i])%list
}.

End Main.


Module MainTests.

Import Str Plugin PluginTests Main.

Definition run_1 : RunResult := {| id := "run_1"; thread_id := "thread_1" |}.

Definition sunny : list ThreadMessage :=
  [ {| role := "assistant"; content := [ {| text := Some "Sunny, 21 C." |} ] |};
    {| role := "user"; content := [ {| text := Some "what's the weather today" |} ] |} ].

(** A service whose run is finished at the third status check. *)
Definition quick : AgentsClient :=
  {| create_thread_and_run := fun _ _ => Ok run_1;
     runs_get := fun _ k =>
       match k with
       | 0 => Ok "queued"
       | 1 => Ok "in_progress"
       | _ => Ok "completed"
       end;
     messages_list := fun _ _ => Ok sunny |}.

(** A service whose first status check fails and whose later ones
    would report the run as completed. *)
Definition flaky : AgentsClient :=
  {| create_thread_and_run := fun _ _ => Ok run_1;
     runs_get := fun _ k =>
       match k with
       | 0 => Raise "connection reset"
       | _ => Ok "completed"
       end;
     messages_list := fun _ _ => Ok sunny |}.

(** A service whose run never leaves the queue. *)
Definition stuck : AgentsClient :=
  {| create_thread_and_run := fun _ _ => Ok run_1;
     runs_get := fun _ _ => Ok "queued";
     messages_list := fun _ _ => Ok [] |}.

(** Everything wired up, with the plugin of [PluginTests]. *)
Definition wired (client : AgentsClient) : Globals :=
  {| kernel := true;
     internal_plugin := Some (fun query => Ok (search_internal_knowledge demo query));
     chat_service := false;
     ai_project_client := Some client;
     agent := Some {| agent_id := "asst_1" |};
     loop_time := Ok 1700%Z |}.

(** Nothing wired up. *)
Definition bare : Globals :=
  {| kernel := false;
     internal_plugin := None;
     chat_service := false;
     ai_project_client := None;
     agent := None;
     loop_time := Ok 1700%Z |}.

(** The event loop fails before anything else is done. *)
Definition broken : Globals :=
  {| kernel := true;
     internal_plugin := Some (fun query => Ok (search_internal_knowledge demo query));
     chat_service := false;
     ai_project_client := Some quick;
     agent := Some {| agent_id := "asst_1" |};
     loop_time := Raise "no running event loop" |}.

End MainTests.

(* ================================================================== *)
(** ** The keyed lookups of [InternalKnowledgePlugin]                  *)
(* ================================================================== *)

Module Lookups.

Import Str Plugin.

(** [d[k]] for a dictionary kept as an association list; [None] when
    [k in d] is false. *)
Fixpoint lookup {V : Type} (k : string) (d : list (string * V)) : option V :=
  match d with
  | [] => None
  | (k', v) :: d' => if String.eqb k' k then Some v else lookup k d'
  end.

(** [data.get(key, default)] *)
Definition dict_get (data : list (string * string)) (key default : string)
  : string :=
  match lookup key data with
  | Some value => value
  | None => default
  end.

Definition comma : string := ", ".

(** Lines 82-88. *)
Definition customer_text (data : list (string * string)) : string :=
  "Customer Information:
Name: " ++ dict_get data "name" "N/A" ++ "
Account Type: " ++ dict_get data "account_type" "N/A" ++ "
Balance: " ++ dict_get data "balance" "N/A" ++ "
Status: " ++ dict_get data "status" "N/A" ++ "
Last Transaction: " ++ dict_get data "last_transaction" "N/A" ++ "
Contact: " ++ dict_get data "contact" "N/A".

Definition customer_missing (customer_id : string) : string :=
  "Customer ID " ++ customer_id ++ " not found in our records.".

(** [get_customer_info], lines 75-90. *)
Definition get_customer_info (self : InternalKnowledgePlugin)
           (customer_id : string) : string :=
  if is_empty customer_id
  then "Please provide a customer ID to retrieve specific account information."
  else match lookup customer_id (_customer_data self) with
       | Some data => customer_text data
       | None => customer_missing customer_id
       end.

Definition product_missing (self : InternalKnowledgePlugin)
           (product_type : string) : string :=
  "Product information for '" ++ product_type ++
  "' not found. Available products: " ++
  join comma (map fst (_product_data self)).

(** The test of line 121 on one policy. *)
Definition policy_matches (policy_type : string) (p : string * string)
  : bool :=
  str_in (lower policy_type) (lower (fst p)).

Definition policy_text (p : string * string) : string :=
  "Policy for " ++ fst p ++ ": " ++ snd p.

Definition policy_missing (self : InternalKnowledgePlugin)
           (policy_type : string) : string :=
  "Policy for '" ++ policy_type ++ "' not found. Available policies: " ++
  join comma (map fst (_policies self)).

(** [get_banking_policy], lines 113-124. *)
Definition get_banking_policy (self : InternalKnowledgePlugin)
           (policy_type : string) : string :=
  if is_empty policy_type
  then "Available policies: " ++ join comma (map fst (_policies self))
       ++ ". Please specify a policy type."
  else match find (policy_matches policy_type) (_policies self) with
       | Some p => policy_text p
       | None => policy_missing self policy_type
       end.

End Lookups.

(* ================================================================== *)
(** ** Views of a search used to state its properties                  *)
(* ================================================================== *)

Module SearchViews.

Import Str Plugin.

Definition is_policy (e : Entry) : bool :=
  match e with PolicyEntry _ _ => true | _ => false end.

(** The policies among the entries of a result. *)
Definition policy_docs (o : Outcome) : list (string * string) :=
  match o with
  | Results results =>
      flat_map (fun e => match e with
                         | PolicyEntry policy_key policy_content =>
                             [(policy_key, policy_content)]
                         | _ => []
                         end) results
  | _ => []
  end.

(** Line 178: the query holds a policy keyword. *)
Definition asks_policy (keywords : list string) : bool :=
  existsb (fun policy_kw => mem policy_kw keywords) policy_keywords.

(** Line 180 on one policy. *)
Definition policy_hit (keywords : list string) (p : string * string) : bool :=
  existsb (fun keyword => str_in keyword (lower (fst p))
                          || str_in keyword (lower (snd p))) keywords.

(** Line 232: the query holds a customer keyword. *)
Definition asks_customer (keywords : list string) : bool :=
  existsb (fun cust_kw => mem cust_kw keywords) customer_keywords.

(** Lines 233-236: the number of customer records one of whose values
    contains a keyword. *)
Definition customer_match_count (keywords : list string)
           (customers : list (string * list (string * string))) : nat :=
  List.length
    (filter (fun '(_, data) =>
               existsb (fun '(_, value) =>
                          existsb (fun keyword => str_in keyword (lower value))
                                  keywords)
                       data)
            customers).

(** Line 212: the second line of a document, its title line. *)
Definition title_line (content : string) : string :=
  let lines := split_on LF content in
  if 1 <? List.length lines then nth 1 lines EmptyString else EmptyString.

(** The same plugin over other customer records. *)
Definition with_customers (self : InternalKnowledgePlugin)
           (customers : list (string * list (string * string)))
  : InternalKnowledgePlugin :=
  {| _customer_data := customers;
     _product_data := _product_data self;
     _policies := _policies self |}.

(** [c in w] for a character. *)
Fixpoint has_char (c : ascii) (w : string) : bool :=
  match w with
  | EmptyString => false
  | String x w' => Ascii.eqb x c || has_char c w'
  end.

Definition apostrophe : ascii := ascii_of_nat 39.

End SearchViews.

(* ================================================================== *)
(** ** Views of a request used to state its properties                 *)
(* ================================================================== *)

Module HandlerViews.

Import Str Plugin PluginTests Main MainTests.

Definition is_messages_list (c : Call) : bool :=
  match c with MessagesList => true | _ => false end.

Definition is_loop_time (c : Call) : bool :=
  match c with LoopTime => true | _ => false end.

(** The number of calls of one kind in a trace. *)
Definition count (kind : Call -> bool) (cs : list Call) : nat :=
  List.length (filter kind cs).

(** The time spent in [time.sleep] along a trace. *)
Fixpoint slept_seconds (cs : list Call) : Z :=
  match cs with
  | [] => 0%Z
  | Sleep seconds :: cs' => (seconds + slept_seconds cs')%Z
  | _ :: cs' => slept_seconds cs'
  end.

(** Lines 281-285: an assistant message whose first text item is not
    empty. *)
Definition speaks (message : ThreadMessage) : bool :=
  String.eqb (role message) "assistant"
  && negb (is_nil (content message))
  && truthy (first_text (content message)).

(** The calls of step 2 and the text it extracts, read off the answers
    of the service. *)
Definition external_calls (g : Globals) (user_message : string) : list Call :=
  let internal_response := internal_response_of g user_message in
  match agent g, ai_project_client g with
  | Some a, Some client =>
      if use_external g user_message internal_response then
        let enhanced_message :=
          enhanced_message_of user_message internal_response in
        match create_thread_and_run client (agent_id a) enhanced_message with
        | Ok run_result =>
            CreateThreadAndRun enhanced_message
            :: (poll_calls (poll_loop client run_result poll_init)
                ++ [MessagesList])%list
        | Raise _ => [CreateThreadAndRun enhanced_message]
        end
      else []
  | _, _ => []
  end.

Definition external_response (g : Globals) (user_message : string)
  : option string :=
  let internal_response := internal_response_of g user_message in
  match agent g, ai_project_client g with
  | Some a, Some client =>
      if use_external g user_message internal_response then
        match create_thread_and_run client (agent_id a)
                (enhanced_message_of user_message internal_response) with
        | Ok run_result =>
            match messages_list client (thread_id run_result)
                    (checks (poll_loop client run_result poll_init)) with
            | Ok messages => extract messages None
            | Raise _ => None
            end
        | Raise _ => None
        end
      else None
  | _, _ => None
  end.

(** The same globals with another plugin. *)
Definition with_plugin (g : Globals) (plugin : option (string -> Res string))
  : Globals :=
  {| kernel := kernel g;
     internal_plugin := plugin;
     chat_service := chat_service g;
     ai_project_client := ai_project_client g;
     agent := agent g;
     loop_time := loop_time g |}.

(** The plugin of the source as the collaborator of [main_sk.py]. *)
Definition plugin_of (self : InternalKnowledgePlugin) : string -> Res string :=
  fun query => Ok (search_internal_knowledge self query).

(** A service whose run fails at once but whose thread holds an
    answer. *)
Definition failing : AgentsClient :=
  {| create_thread_and_run := fun _ _ => Ok run_1;
     runs_get := fun _ _ => Ok "failed";
     messages_list := fun _ _ => Ok sunny |}.

(** A service that refuses the submission. *)
Definition refusing : AgentsClient :=
  {| create_thread_and_run := fun _ _ => Raise "503 service unavailable";
     runs_get := fun _ _ => Ok "completed";
     messages_list := fun _ _ => Ok sunny |}.

(** A plugin that raises. *)
Definition crashing : string -> Res string :=
  fun _ => Raise "KeyError".

(** A thread where the assistant first says nothing. *)
Definition hesitant : list ThreadMessage :=
  [ {| role := "user"; content := [ {| text := Some "any news?" |} ] |};
    {| role := "assistant"; content := [] |};
    {| role := "assistant";
       content := [ {| text := None |}; {| text := Some EmptyString |};
                    {| text := Some "ignored" |} ] |};
    {| role := "assistant";
       content := [ {| text := None |}; {| text := Some "Nothing new." |} ] |};
    {| role := "assistant"; content := [ {| text := Some "older answer" |} ] |} ].

End HandlerViews.

(* ================================================================== *)
(** ** [serialize_sse_event]                                           *)
(* ================================================================== *)

Module Sse.

Import Str Main.

Open Scope N_scope.

(** A [str] is kept as the bytes of its UTF-8 form; [json.dumps] works
    on its code points.  [None] when the bytes are not of that form. *)
Definition is_continuation (c : ascii) : bool :=
  (128 <=? N_of_ascii c) && (N_of_ascii c <? 192).

Definition low6 (c : ascii) : N := N_of_ascii c - 128.

Fixpoint code_points (s : string) : option (list N) :=
  match s with
  | EmptyString => Some []
  | String b0 s1 =>
      let n0 := N_of_ascii b0 in
      if n0 <? 128 then option_map (cons n0) (code_points s1)
      else if (192 <=? n0) && (n0 <? 224) then
        match s1 with
        | String b1 s2 =>
            if is_continuation b1
            then option_map (cons ((n0 - 192) * 64 + low6 b1)) (code_points s2)
            else None
        | _ => None
        end
      else if (224 <=? n0) && (n0 <? 240) then
        match s1 with
        | String b1 (String b2 s3) =>
            if is_continuation b1 && is_continuation b2
            then option_map
                   (cons (((n0 - 224) * 64 + low6 b1) * 64 + low6 b2))
                   (code_points s3)
            else None
        | _ => None
        end
      else if (240 <=? n0) && (n0 <? 245) then
        match s1 with
        | String b1 (String b2 (String b3 s4)) =>
            if is_continuation b1 && is_continuation b2 && is_continuation b3
            then option_map
                   (cons ((((n0 - 240) * 64 + low6 b1) * 64 + low6 b2) * 64
                          + low6 b3))
                   (code_points s4)
            else None
        | _ => None
        end
      else None
  end.

Definition hex_digit (d : N) : ascii :=
  if d <? 10 then ascii_of_N (48 + d) else ascii_of_N (87 + d).

(** ['{0:04x}'.format(n)] for [n] below 0x10000. *)
Definition hex4 (n : N) : string :=
  String (hex_digit ((n / 4096) mod 16))
    (String (hex_digit ((n / 256) mod 16))
       (String (hex_digit ((n / 16) mod 16))
          (String (hex_digit (n mod 16)) EmptyString))).

Definition quote : string := String (ascii_of_N 34) EmptyString.

(** What [json.dumps] (with its default [ensure_ascii]) writes for one
    character of a string. *)
Definition json_char (cp : N) : string :=
  if cp =? 34 then "\" ++ quote
  else if cp =? 92 then "\\"
  else if cp =? 10 then "\n"
  else if cp =? 13 then "\r"
  else if cp =? 9 then "\t"
  else if cp =? 8 then "\b"
  else if cp =? 12 then "\f"
  else if (32 <=? cp) && (cp <=? 126) then String (ascii_of_N cp) EmptyString
  else if cp <? 65536 then "\u" ++ hex4 cp
  else
    let n := cp - 65536 in
    "\u" ++ hex4 (N.lor 55296 (N.land (N.shiftr n 10) 1023))
    ++ "\u" ++ hex4 (N.lor 56320 (N.land n 1023)).

(** [json.dumps(s)] for a string. *)
Definition json_string (s : string) : option string :=
  match code_points s with
  | Some cps => Some (quote ++ String.concat EmptyString (map json_char cps) ++ quote)
  | None => None
  end.

Definition newline : string := String LF EmptyString.

(** [json.dumps(data)] for the two dictionaries of lines 344 and 346. *)
Definition json_dumps (e : StreamEvent) : option string :=
  match e with
  | CompletedMessage content =>
      match json_string content with
      | Some js =>
          Some ("{" ++ quote ++ "content" ++ quote ++ ": " ++ js
                ++ ", " ++ quote ++ "annotations" ++ quote ++ ": []"
                ++ ", " ++ quote ++ "type" ++ quote ++ ": "
                ++ quote ++ "completed_message" ++ quote ++ "}")
      | None => None
      end
  | StreamEnd =>
      Some ("{" ++ quote ++ "type" ++ quote ++ ": "
            ++ quote ++ "stream_end" ++ quote ++ "}")
  end.

(** [serialize_sse_event], lines 32-35. *)
Definition serialize_sse_event (e : StreamEvent) : option string :=
  match json_dumps e with
  | Some payload => Some ("data: " ++ payload ++ newline ++ newline)
  | None => None
  end.

(** A character between the blank and the tilde. *)
Definition printable (c : ascii) : bool :=
  (32 <=? N_of_ascii c) && (N_of_ascii c <=? 126).

Fixpoint all_printable (s : string) : bool :=
  match s with
  | EmptyString => true
  | String c s' => printable c && all_printable s'
  end.

Fixpoint is_ascii (s : string) : bool :=
  match s with
  | EmptyString => true
  | String c s' => (N_of_ascii c <? 128) && is_ascii s'
  end.

End Sse.

(* ================================================================== *)
(** ** [_load_product_data]                                            *)
(* ================================================================== *)

Module Loader.

Import Str Main Lookups.

(** [s.endswith(w)] *)
Fixpoint endswith (w s : string) : bool :=
  String.eqb w s ||
  match s with
  | EmptyString => false
  | String _ s' => endswith w s'
  end.

(** [s.replace(old, new)] for a non-empty [old]: the occurrences of
    [old] are replaced from left to right, [skip] counting the
    characters of an occurrence still to be passed over. *)
Fixpoint replace_from (old new : string) (skip : nat) (s : string) : string :=
  match s with
  | EmptyString => EmptyString
  | String c s' =>
      match skip with
      | S k => replace_from old new k s'
      | O =>
          if String.prefix old s
          then new ++ replace_from old new (String.length old - 1) s'
          else String c (replace_from old new 0 s')
      end
  end.

Definition replace (old new s : string) : string := replace_from old new 0 s.

(** [d[k] = v]: the value of an existing key is replaced in place, a new
    key goes to the end. *)
Fixpoint dict_set {V : Type} (k : string) (v : V) (d : list (string * V))
  : list (string * V) :=
  match d with
  | [] => [(k, v)]
  | (k', v') :: d' =>
      if String.eqb k' k then (k, v) :: d' else (k', v') :: dict_set k v d'
  end.

(** Line 48. *)
Definition is_product_file (filename : string) : bool :=
  startswith "product_info_" filename && endswith ".md" filename.

(** Line 52. *)
Definition product_id_of (filename : string) : string :=
  replace ".md" EmptyString (replace "product_info_" EmptyString filename).

(** The loop of lines 47-53 over the names [os.listdir] gave, each with
    what opening and reading that file gives; an exception leaves the
    loop with [product_data] as it is. *)
Fixpoint load_products (files : list (string * Res string))
         (product_data : list (string * string)) : list (string * string) :=
  match files with
  | [] => product_data
  | (filename, read) :: rest =>
      if is_product_file filename then
        match read with
        | Ok content =>
            load_products rest
              (dict_set (product_id_of filename) content product_data)
        | Raise _ => product_data
        end
      else load_products rest product_data
  end.

(** [_load_product_data], lines 41-58; [listing] is what [os.listdir]
    gives for the files directory. *)
Definition _load_product_data (listing : Res (list (string * Res string)))
  : list (string * string) :=
  match listing with
  | Ok files => load_products files []
  | Raise _ => []
  end.

(** A file that line 48 accepts and that can be read. *)
Definition readable (file : string * Res string) : bool :=
  is_product_file (fst file) &&
  match snd file with Ok _ => true | Raise _ => false end.

(** A file that line 48 accepts and whose reading raises. *)
Definition unreadable (file : string * Res string) : bool :=
  is_product_file (fst file) &&
  match snd file with Ok _ => false | Raise _ => true end.

Definition shelf : list (string * Res string) :=
  [ ("README.txt", Ok "not a product");
    ("product_info_1.md", Ok "# one");
    ("customer_info_1.json", Ok "{}");
    ("product_info_2.md", Ok "# two");
    ("product_info_3.md", Raise "PermissionError");
    ("product_info_4.md", Ok "# four") ].

End Loader.

(* ================================================================== *)
(** ** The [str] methods on any text                                   *)
(* ================================================================== *)

Module Py.

Import Str.

(** [str.lower], [str.strip] and [str.split] read the Unicode database
    of the interpreter: U+212A is lower-cased to "k", U+00A0 separates
    words and is stripped.  They are taken as they are, as three
    functions on texts; what is proved for every [py] holds for the
    interpreter's own. *)
Record StrMethods := {
  lower : string -> string;
  strip : string -> string;
  split : string -> list string
}.

(** The three methods on ASCII text, where they are those of [Str]. *)
Definition ascii_only : StrMethods :=
  {| lower := Str.lower; strip := Str.strip; split := Str.split |}.

(** A byte 10xxxxxx goes on with the code point of the byte before. *)
Definition is_continuation (c : ascii) : bool :=
  let n := nat_of_ascii c in (128 <=? n) && (n <=? 191).

(** [len(s)]: the number of code points of [s]. *)
Fixpoint len (s : string) : nat :=
  match s with
  | EmptyString => 0
  | String c s' => if is_continuation c then len s' else S (len s')
  end.

(** [s[:n]]: the first [n] code points of [s]. *)
Fixpoint slice_to (n : nat) (s : string) : string :=
  match s with
  | EmptyString => EmptyString
  | String c s' =>
      if is_continuation c then String c (slice_to n s')
      else match n with
           | 0 => EmptyString
           | S n' => String c (slice_to n' s')
           end
  end.

(** An ASCII character that is no upper-case letter: [lower] leaves it
    as it is. *)
Definition plain_char (c : ascii) : bool :=
  let n := nat_of_ascii c in (n <? 128) && negb ((65 <=? n) && (n <=? 90)).

Fixpoint plain (w : string) : bool :=
  match w with
  | EmptyString => true
  | String c w' => plain_char c && plain w'
  end.

(** A visible ASCII character: no method takes it for whitespace. *)
Definition graphic (c : ascii) : bool :=
  let n := nat_of_ascii c in (33 <=? n) && (n <=? 126).

Definition starts_graphic (w : string) : bool :=
  match w with
  | EmptyString => false
  | String c _ => graphic c
  end.

Fixpoint ends_graphic (w : string) : bool :=
  match w with
  | EmptyString => false
  | String c EmptyString => graphic c
  | String _ w' => ends_graphic w'
  end.

(** [lower] maps code point by code point and leaves a plain character
    as it is, whatever stands around it: a plain text that occurs in
    [s] occurs in [s.lower()]. *)
Definition lower_keeps_plain_text (py : StrMethods) : Prop :=
  forall w s, plain w = true -> str_in w s = true ->
              str_in w (lower py s) = true.

(** [strip] removes whitespace from both ends and nothing else: a text
    that starts and ends with a visible ASCII character and occurs in
    [s] occurs in [s.strip()]. *)
Definition strip_keeps_words (py : StrMethods) : Prop :=
  forall w s, starts_graphic w = true -> ends_graphic w = true ->
              str_in w s = true -> str_in w (strip py s) = true.

End Py.

(* ================================================================== *)
(** ** [InternalKnowledgePlugin] on any text                           *)
(* ================================================================== *)

Module Matcher.

Import Str Plugin Lookups Py.

(** Line 225, with [content[:300]] counted in code points. *)
Definition render (e : Entry) : string :=
  match e with
  | PolicyEntry policy_key policy_content =>
      "Policy - " ++ policy_key ++ ": " ++ policy_content
  | ProductEntry product_id content =>
      "Product - " ++ product_id ++ ": " ++ slice_to 300 content ++ "..."
  | CustomerCount customer_matches =>
      "Found " ++ of_nat customer_matches ++
      " matching customer records (details require specific customer ID)"
  end.

(** The text returned (lines 133, 144, 154, 241-244). *)
Definition reply_of (query : string) (o : Outcome) : string :=
  match o with
  | NoQuery => no_query_text
  | Greeting => greeting_text
  | BeSpecific => be_specific_text
  | Results [] => not_found_text query
  | Results results => join (String LF (String LF EmptyString)) (map render results)
  end.

Section Methods.

Variable py : StrMethods.

(** The test of lines 141-143: [a or b or (c and d)]. *)
Definition is_greeting (query_lower : string) : bool :=
  existsb (fun greeting => String.eqb query_lower greeting) greetings
  || existsb (fun simple => str_in simple query_lower) simple_queries
  || ((List.length (split py query_lower) <=? 2)
      && existsb (fun greeting => str_in greeting query_lower) greetings).

(** Line 150. *)
Definition extract_keywords (query_lower : string) : list string :=
  filter (fun word => negb (mem word common_words) && (2 <? len word))
         (split py query_lower).

(** Lines 190-198: the line that follows the first line starting with
    "## category", stripped and lower-cased; [None] when there is no
    such header or it is the last line. *)
Definition category_match_of (content : string) : option string :=
  let lines := split_on LF content in
  match find (fun line => startswith "## category" (lower py (strip py line)))
             lines with
  | None => None
  | Some line =>
      match index line lines with
      | Some category_line_idx =>
          if category_line_idx + 1 <? List.length lines
          then Some (lower py (strip py (nth (category_line_idx + 1) lines
                                             EmptyString)))
          else None
      | None => None
      end
  end.

(** Lines 210-222: free-text mode. *)
Definition free_text_hit (keywords : list string) (content : string)
           (category_match : option string) : bool :=
  let lines := split_on LF content in
  let product_name :=
    if 1 <? List.length lines then nth 1 lines EmptyString else EmptyString in
  let product_name_lower := lower py product_name in
  let strong_keywords := filter (fun kw => 3 <? len kw) keywords in
  match strong_keywords with
  | [] => false
  | _ =>
      let name_matches :=
        List.length (filter (fun kw => str_in kw product_name_lower) strong_keywords) in
      let category_matches :=
        List.length
          (filter (fun kw =>
                     match category_match with
                     | Some cm => negb (is_empty cm) && str_in kw cm
                     | None => false
                     end) strong_keywords) in
      (1 <=? name_matches) || (1 <=? category_matches)
  end.

(** [should_include] at line 224 for one product document. *)
Definition should_include (keywords relevant_categories : list string)
           (content : string) : bool :=
  let category_match := category_match_of content in
  match relevant_categories with
  | _ :: _ => category_hit relevant_categories category_match
  | [] => free_text_hit keywords content category_match
  end.

(** Lines 178-181. *)
Definition scan_policies (keywords : list string)
           (policies : list (string * string)) : list Entry * list Visit :=
  if existsb (fun policy_kw => mem policy_kw keywords) policy_keywords then
    (flat_map (fun '(policy_key, policy_content) =>
                 if existsb (fun keyword =>
                               str_in keyword (lower py policy_key)
                               || str_in keyword (lower py policy_content))
                            keywords
                 then [PolicyEntry policy_key policy_content] else [])
              policies,
     map (fun '(policy_key, _) => VisitPolicy policy_key) policies)
  else ([], []).

(** Lines 184-228: the product loop with its early exit;
    [product_matches] is the count on entry. *)
Fixpoint scan_products (keywords relevant_categories : list string)
         (product_matches : nat) (products : list (string * string))
  : list Entry * list Visit :=
  match products with
  | [] => ([], [])
  | (product_id, content) :: rest =>
      if should_include keywords relevant_categories content then
        if 8 <=? product_matches + 1
        then ([ProductEntry product_id content], [VisitProduct product_id])
        else
          let '(es, vs) :=
            scan_products keywords relevant_categories (product_matches + 1) rest in
          (ProductEntry product_id content :: es, VisitProduct product_id :: vs)
      else
        let '(es, vs) :=
          scan_products keywords relevant_categories product_matches rest in
        (es, VisitProduct product_id :: vs)
  end.

(** Lines 231-239. *)
Definition scan_customers (keywords : list string)
           (customers : list (string * list (string * string)))
  : list Entry * list Visit :=
  if existsb (fun cust_kw => mem cust_kw keywords) customer_keywords then
    let customer_matches :=
      List.length
        (filter (fun '(_, data) =>
                   existsb (fun '(_, value) =>
                              existsb (fun keyword => str_in keyword (lower py value))
                                      keywords)
                           data)
                customers) in
    ((if 0 <? customer_matches then [CustomerCount customer_matches] else []),
     map (fun '(customer_id, _) => VisitCustomer customer_id) customers)
  else ([], []).

(** The body of [search_internal_knowledge], with the records it
    visited next to what it found. *)
Definition search (self : InternalKnowledgePlugin) (query : string)
  : Outcome * list Visit :=
  if is_empty query then (NoQuery, [])
  else
    let query_lower := strip py (lower py query) in
    if is_greeting query_lower then (Greeting, [])
    else
      let keywords := extract_keywords query_lower in
      match keywords with
      | [] => (BeSpecific, [])
      | _ =>
          let relevant_categories := relevant_categories_of keywords in
          let '(r1, v1) := scan_policies keywords (_policies self) in
          let '(r2, v2) :=
            scan_products keywords relevant_categories 0 (_product_data self) in
          let '(r3, v3) := scan_customers keywords (_customer_data self) in
          (Results (r1 ++ r2 ++ r3)%list, (v1 ++ v2 ++ v3)%list)
      end.

(** [search_internal_knowledge], lines 130-244. *)
Definition search_internal_knowledge (self : InternalKnowledgePlugin)
           (query : string) : string :=
  reply_of query (fst (search self query)).

(** The knowledge records a search looks at. *)
Definition scanned (self : InternalKnowledgePlugin) (query : string)
  : list Visit :=
  snd (search self query).

(** Line 135: [query_lower]. *)
Definition query_lower_of (query : string) : string :=
  strip py (lower py query).

(** [query_lower.split()] and the keywords and categories of a query. *)
Definition tokens (query : string) : list string :=
  split py (query_lower_of query).

Definition keywords_of (query : string) : list string :=
  extract_keywords (query_lower_of query).

Definition requested_categories (query : string) : list string :=
  relevant_categories_of (keywords_of query).

(** Category mode on a product document (identifier, content). *)
Definition doc_hit (relevant_categories : list string)
           (doc : string * string) : bool :=
  category_hit relevant_categories (category_match_of (snd doc)).

(** Free-text mode on a product document (identifier, content). *)
Definition free_doc_hit (keywords : list string) (doc : string * string)
  : bool :=
  free_text_hit keywords (snd doc) (category_match_of (snd doc)).

(** Line 180 on one policy. *)
Definition policy_hit (keywords : list string) (p : string * string) : bool :=
  existsb (fun keyword => str_in keyword (lower py (fst p))
                          || str_in keyword (lower py (snd p))) keywords.

(** Lines 233-236: the number of customer records one of whose values
    contains a keyword. *)
Definition customer_match_count (keywords : list string)
           (customers : list (string * list (string * string))) : nat :=
  List.length
    (filter (fun '(_, data) =>
               existsb (fun '(_, value) =>
                          existsb (fun keyword => str_in keyword (lower py value))
                                  keywords)
                       data)
            customers).

(** The test of line 104 on one product. *)
Definition product_matches (product_type : string) (p : string * string)
  : bool :=
  str_in (lower py product_type) (lower py (fst p))
  || str_in (lower py product_type) (lower py (snd p)).

(** [get_product_info], lines 96-107. *)
Definition get_product_info (self : InternalKnowledgePlugin)
           (product_type : string) : string :=
  if is_empty product_type
  then "Available products: " ++ join comma (map fst (_product_data self))
       ++ ". Please specify a product type."
  else match find (product_matches product_type) (_product_data self) with
       | Some (_, content) => content
       | None => product_missing self product_type
       end.

(** The test of line 121 on one policy. *)
Definition policy_matches (policy_type : string) (p : string * string)
  : bool :=
  str_in (lower py policy_type) (lower py (fst p)).

(** [get_banking_policy], lines 113-124. *)
Definition get_banking_policy (self : InternalKnowledgePlugin)
           (policy_type : string) : string :=
  if is_empty policy_type
  then "Available policies: " ++ join comma (map fst (_policies self))
       ++ ". Please specify a policy type."
  else match find (policy_matches policy_type) (_policies self) with
       | Some p => policy_text p
       | None => policy_missing self policy_type
       end.

End Methods.

(** A token that is dropped by line 150: a common word, or one of
    fewer than three characters. *)
Definition is_stopword (word : string) : bool :=
  mem word common_words || (len word <=? 2).

End Matcher.

(* ================================================================== *)
(** ** [stream_agent_response] on any text                             *)
(* ================================================================== *)

Module Orchestrator.

Import Str Main Py.

Section Methods.

Variable py : StrMethods.

(** Lines 175-176. *)
Definition is_external_query (user_message : string) : bool :=
  any_in external_info_keywords (lower py user_message).

(** Lines 195-196. *)
Definition needs_web_search (user_message : string) : bool :=
  any_in web_search_keywords (lower py user_message).

(** [text and "not found" not in text.lower()] of lines 185 and 203. *)
Definition usable (text : option string) : bool :=
  match text with
  | Some t => truthy text && negb (str_in "not found" (lower py t))
  | None => false
  end.

(** Step 1, lines 172-191: the value left in [internal_response]. *)
Definition step1 (g : Globals) (user_message : string) : M (option string) :=
  match internal_plugin g with
  | Some plugin =>
      if kernel g then
        try_except
          (if negb (is_external_query user_message) then
             (internal_context <- call (SearchInternal user_message)
                                       (plugin user_message) ;;
              if usable (Some internal_context)
              then ret (Some internal_context)
              else ret None)%py
           else ret None)
          (fun _ => ret None)
      else ret None
  | None => ret None
  end.

(** Lines 202-216. *)
Definition enhanced_message_of (user_message : string)
           (internal_response : option string) : string :=
  match internal_response with
  | Some r =>
      if usable internal_response then
        "User question: " ++ user_message ++ "

I have relevant internal outdoor gear information:
" ++ r ++ "

Please provide a comprehensive answer. If you need current web information, use your Bing search capability and include citations. Combine both internal and web information appropriately."
      else
        "User question: " ++ user_message ++ "

You have access to a Bing search tool. Please use it to search for current information to answer this question. Do not say you cannot provide real-time information - instead, use your Bing search capability to find the most up-to-date information and provide it to the user with proper citations.

IMPORTANT: Use the Bing search tool to get current, real-time information for this query."
  | None =>
        "User question: " ++ user_message ++ "

You have access to a Bing search tool. Please use it to search for current information to answer this question. Do not say you cannot provide real-time information - instead, use your Bing search capability to find the most up-to-date information and provide it to the user with proper citations.

IMPORTANT: Use the Bing search tool to get current, real-time information for this query."
  end.

(** The guard of line 197. *)
Definition use_external (g : Globals) (user_message : string)
           (internal_response : option string) : bool :=
  match agent g, ai_project_client g with
  | Some _, Some _ =>
      needs_web_search user_message || negb (truthy internal_response)
  | _, _ => false
  end.

(** Lines 198-305, the body of the [try] of step 2: submit, poll, list
    the messages, extract. *)
Definition delegate (a : Agent) (client : AgentsClient)
           (user_message : string) (internal_response : option string)
  : M (list string) :=
  (let enhanced_message := enhanced_message_of user_message internal_response in
   run_result <- call (CreateThreadAndRun enhanced_message)
                      (create_thread_and_run client (agent_id a) enhanced_message) ;;
   let s := poll_loop client run_result poll_init in
   log (poll_calls s) ;;;
   agent_response <-
     try_except
       (messages <- call MessagesList
                         (messages_list client (thread_id run_result) (checks s)) ;;
        ret (extract messages None))
       (fun _ => ret None) ;;
   ret (agent_fragment agent_response))%py.

(** Step 2, lines 194-306: the value left in [responses]. *)
Definition step2 (g : Globals) (user_message : string)
           (internal_response : option string) : M (list string) :=
  match agent g, ai_project_client g with
  | Some a, Some client =>
      if needs_web_search user_message || negb (truthy internal_response)
      then try_except (delegate a client user_message internal_response)
                      (fun _ => ret [])
      else ret []
  | _, _ => ret []
  end.

(** Lines 160-340, the part of the [try] body before the first
    [yield]: the thread identifier, steps 1 to 5 and the combination,
    giving [final_response]. *)
Definition answer (g : Globals) (user_message : string)
           (thread_id : option string) : M string :=
  (ensure_thread g thread_id ;;;
   internal_response <- step1 g user_message ;;
   responses <- step2 g user_message internal_response ;;
   ret (combine (step5 (step3 internal_response responses))))%py.

(** [stream_agent_response], lines 155-353. *)
Definition stream_agent_response (g : Globals) (user_message : string)
           (thread_id : option string) : M unit :=
  try_except
    (final_response <- answer g user_message thread_id ;;
     yield (CompletedMessage final_response) ;;;
     yield StreamEnd)%py
    (fun _ =>
       (yield (CompletedMessage error_message) ;;;
        yield StreamEnd)%py).

(** One request, from a fresh generator to its exhaustion. *)
Definition handle (g : Globals) (user_message : string)
           (thread_id : option string) : World * Res unit :=
  stream_agent_response g user_message thread_id new_world.

(** The events the caller receives and the calls made for them. *)
Definition events (g : Globals) (user_message : string)
           (thread_id : option string) : list StreamEvent :=
  yielded (fst (handle g user_message thread_id)).

Definition trace (g : Globals) (user_message : string)
           (thread_id : option string) : list Call :=
  calls (fst (handle g user_message thread_id)).

(** Step 1 calls the plugin. *)
Definition searches (g : Globals) (user_message : string) : bool :=
  match internal_plugin g with
  | Some _ => kernel g && negb (is_external_query user_message)
  | None => false
  end.

(** The value step 1 leaves in [internal_response]. *)
Definition internal_response_of (g : Globals) (user_message : string)
  : option string :=
  match internal_plugin g with
  | Some plugin =>
      if kernel g && negb (is_external_query user_message) then
        match plugin user_message with
        | Ok internal_context =>
            if usable (Some internal_context) then Some internal_context
            else None
        | Raise _ => None
        end
      else None
  | None => None
  end.

(** The calls of step 1. *)
Definition search_calls (g : Globals) (user_message : string) : list Call :=
  if searches g user_message then [SearchInternal user_message] else [].

(** The calls of step 2 and the text it extracts, read off the answers
    of the service. *)
Definition external_calls (g : Globals) (user_message : string) : list Call :=
  let internal_response := internal_response_of g user_message in
  match agent g, ai_project_client g with
  | Some a, Some client =>
      if use_external g user_message internal_response then
        let enhanced_message :=
          enhanced_message_of user_message internal_response in
        match create_thread_and_run client (agent_id a) enhanced_message with
        | Ok run_result =>
            CreateThreadAndRun enhanced_message
            :: (poll_calls (poll_loop client run_result poll_init)
                ++ [MessagesList])%list
        | Raise _ => [CreateThreadAndRun enhanced_message]
        end
      else []
  | _, _ => []
  end.

Definition external_response (g : Globals) (user_message : string)
  : option string :=
  let internal_response := internal_response_of g user_message in
  match agent g, ai_project_client g with
  | Some a, Some client =>
      if use_external g user_message internal_response then
        match create_thread_and_run client (agent_id a)
                (enhanced_message_of user_message internal_response) with
        | Ok run_result =>
            match messages_list client (thread_id run_result)
                    (checks (poll_loop client run_result poll_init)) with
            | Ok messages => extract messages None
            | Raise _ => None
            end
        | Raise _ => None
        end
      else None
  | _, _ => None
  end.

End Methods.

(** Everything wired up: the plugin over [PluginTests.demo], reading
    ASCII text. *)
Definition wired (client : AgentsClient) : Globals :=
  {| kernel := true;
     internal_plugin :=
       Some (fun query =>
               Ok (Matcher.search_internal_knowledge ascii_only
                     PluginTests.demo query));
     chat_service := false;
     ai_project_client := Some client;
     agent := Some {| agent_id := "asst_1" |};
     loop_time := Ok 1700%Z |}.

End Orchestrator.

(* ================================================================== *)
(** ** Facts about the string primitives                               *)
(* ================================================================== *)

Module StrFacts.

Import Str.

Example split_runs :
  split "  what  tents do you have " = ["what"; "tents"; "do"; "you"; "have"]
  /\ split "   " = [] /\ split "tent" = ["tent"].
Proof. repeat split. Qed.

Example split_on_keeps_empty_parts :
  split_on "/" "a//b/" = ["a"; EmptyString; "b"; EmptyString]
  /\ split_on "/" EmptyString = [EmptyString].
Proof. repeat split. Qed.

Example strip_both_ends :
  strip "  Good  Morning  " = "Good  Morning"
  /\ lower "What Can YOU do?" = "what can you do?"
  /\ str_in "now" "snow boots" = true
  /\ str_in "not found" "no specific products found" = false.
Proof. repeat split. Qed.

Lemma is_empty_true s : is_empty s = true -> s = EmptyString.
Proof. destruct s; simpl; congruence. Qed.

Lemma lower_is_empty s : is_empty (lower s) = is_empty s.
Proof. destruct s; reflexivity. Qed.

Lemma prefix_of_empty w : is_empty w = false -> String.prefix w EmptyString = false.
Proof. destruct w; simpl; congruence. Qed.

Lemma str_in_of_empty w : is_empty w = false -> str_in w EmptyString = false.
Proof. destruct w; simpl; congruence. Qed.

Lemma str_in_unfold w c s :
  str_in w (String c s) = String.prefix w (String c s) || str_in w s.
Proof. reflexivity. Qed.

Lemma str_in_cons w c s : str_in w s = true -> str_in w (String c s) = true.
Proof. intros H. simpl. rewrite H. apply orb_true_r. Qed.

Lemma str_in_nonempty w s :
  is_empty w = false -> str_in w s = true -> is_empty s = false.
Proof.
  intros Hw H. destruct s; [|reflexivity].
  rewrite (str_in_of_empty _ Hw) in H. discriminate.
Qed.

Lemma prefix_head a w c s :
  String.prefix (String a w) (String c s) = true -> a = c /\ String.prefix w s = true.
Proof.
  simpl. destruct (ascii_dec a c); [auto | discriminate].
Qed.

Lemma prefix_cons a w s :
  String.prefix w s = true -> String.prefix (String a w) (String a s) = true.
Proof.
  intros H. simpl. destruct (ascii_dec a a); [assumption | congruence].
Qed.

(** A word that starts with a non-blank survives [lstrip]. *)
Lemma str_in_lstrip w s :
  starts_solid w = true -> str_in w s = true -> str_in w (lstrip s) = true.
Proof.
  intros Hw. induction s as [|c s IH]; intros H; [exact H|].
  simpl lstrip. destruct (is_space c) eqn:Hc; [|exact H].
  apply IH. simpl in H. apply orb_true_iff in H. destruct H as [H|H]; [|exact H].
  destruct w as [|a w]; [discriminate|].
  destruct (ascii_dec a c) as [->|Hne].
  - simpl in Hw. rewrite Hc in Hw. discriminate.
  - destruct (ascii_dec a c); [contradiction | discriminate].
Qed.

Lemma prefix_rstrip w : forall s,
  ends_solid w = true -> String.prefix w s = true ->
  String.prefix w (rstrip s) = true.
Proof.
  induction w as [|a w IH]; intros s Hw H; [discriminate|].
  destruct s as [|c s]; [discriminate|].
  apply prefix_head in H. destruct H as [<- H].
  simpl rstrip. destruct w as [|b w].
  - simpl in Hw. apply negb_true_iff in Hw. rewrite Hw. simpl.
    destruct (ascii_dec a a); [destruct (rstrip s); reflexivity | congruence].
  - assert (Hw' : ends_solid (String b w) = true) by exact Hw.
    specialize (IH s Hw' H).
    destruct (rstrip s) as [|d r] eqn:Hr; [discriminate|].
    simpl is_empty. rewrite andb_false_r.
    apply prefix_cons. exact IH.
Qed.

Lemma ends_solid_nonempty w : ends_solid w = true -> is_empty w = false.
Proof. destruct w; simpl; congruence. Qed.

(** A word that ends with a non-blank survives [rstrip]. *)
Lemma str_in_rstrip w s :
  ends_solid w = true -> str_in w s = true -> str_in w (rstrip s) = true.
Proof.
  intros Hw. induction s as [|c s IH]; intros H; [exact H|].
  rewrite str_in_unfold in H. apply orb_true_iff in H. destruct H as [H|H].
  - apply (prefix_rstrip _ _ Hw) in H.
    destruct (rstrip (String c s)) as [|d r].
    + rewrite (prefix_of_empty _ (ends_solid_nonempty _ Hw)) in H. discriminate.
    + rewrite str_in_unfold, H. reflexivity.
  - specialize (IH H). simpl rstrip.
    pose proof (str_in_nonempty _ _ (ends_solid_nonempty _ Hw) IH) as Hne.
    rewrite Hne, andb_false_r. apply str_in_cons. exact IH.
Qed.

Lemma str_in_strip w s :
  starts_solid w = true -> ends_solid w = true ->
  str_in w s = true -> str_in w (strip s) = true.
Proof.
  intros H1 H2 H. unfold strip.
  apply str_in_rstrip; [assumption|]. apply str_in_lstrip; assumption.
Qed.

Lemma mem_In x l : mem x l = true <-> In x l.
Proof.
  unfold mem. rewrite existsb_exists. split.
  - intros [y [Hy He]]. apply String.eqb_eq in He. congruence.
  - intros H. exists x. split; [assumption | apply String.eqb_refl].
Qed.

Lemma split_empty : split EmptyString = [].
Proof. reflexivity. Qed.

Lemma rstrip_empty s : is_empty s = true -> rstrip s = EmptyString.
Proof. intros H. apply is_empty_true in H. subst. reflexivity. Qed.

Lemma filter_none {A} (f : A -> bool) l :
  (forall x, In x l -> f x = false) -> filter f l = [].
Proof.
  induction l as [|a l IH]; intros H; [reflexivity|].
  simpl. rewrite (H a (or_introl eq_refl)). apply IH.
  intros x Hx. apply H. right. exact Hx.
Qed.

End StrFacts.


(* ================================================================== *)
(** ** The internal knowledge matcher                                  *)
(* ================================================================== *)

Module PluginProps.

Import Str StrFacts Plugin PluginTests.

Lemma search_no_query self query :
  is_empty query = true -> search self query = (NoQuery, []).
Proof. intros H. unfold search. rewrite H. reflexivity. Qed.

Lemma search_greeting self query :
  is_empty query = false ->
  is_greeting (strip (lower query)) = true ->
  search self query = (Greeting, []).
Proof. intros H1 H2. unfold search. rewrite H1. cbv zeta. rewrite H2. reflexivity. Qed.

Lemma search_be_specific self query :
  is_empty query = false ->
  is_greeting (strip (lower query)) = false ->
  keywords_of query = [] ->
  search self query = (BeSpecific, []).
Proof.
  intros H1 H2 H3. unfold search. rewrite H1. cbv zeta. rewrite H2.
  unfold keywords_of in H3. rewrite H3. reflexivity.
Qed.

Lemma simple_queries_solid simple :
  In simple simple_queries ->
  starts_solid simple = true /\ ends_solid simple = true.
Proof.
  unfold simple_queries. simpl.
  intros [<-|[<-|[<-|[<-|[<-|[]]]]]]; split; reflexivity.
Qed.

(** **** C10 *)

(** C10. A query whose lower-cased text contains "help", "start",
    "begin", "what can you do" or "how are you" anywhere gets the fixed
    greeting reply and no knowledge record is looked at, whatever other
    keywords it holds. *)
Theorem C10_simple_query_short_circuits self query simple :
  In simple simple_queries ->
  str_in simple (lower query) = true ->
  search_internal_knowledge self query = greeting_text
  /\ scanned self query = [].
Proof.
  intros Hs Hin.
  destruct (simple_queries_solid _ Hs) as [H1 H2].
  assert (Hq : is_empty query = false).
  { rewrite <- lower_is_empty.
    apply (str_in_nonempty _ _ (ends_solid_nonempty _ H2) Hin). }
  assert (Hg : is_greeting (strip (lower query)) = true).
  { unfold is_greeting. apply orb_true_iff. left. apply orb_true_iff. right.
    apply existsb_exists. exists simple. split; [exact Hs|].
    apply str_in_strip; assumption. }
  unfold search_internal_knowledge, scanned.
  rewrite (search_greeting self _ Hq Hg). split; reflexivity.
Qed.

Lemma C10_witness :
  search_internal_knowledge demo "help me find tents" = greeting_text
  /\ scanned demo "help me find tents" = [].
Proof.
  apply (C10_simple_query_short_circuits demo "help me find tents" "help").
  - simpl. auto.
  - vm_compute. reflexivity.
Defined.

(** **** The paths of the search *)

Example category_field_examples :
  category_match_of tent_doc = Some "tents"
  /\ category_match_of stove_doc = Some "camping stoves"
  /\ category_match_of "title
## Category" = None
  /\ category_match_of "no header at all" = None.
Proof. repeat split. Qed.

Example scenario_hello :
  search_internal_knowledge demo "hello" = greeting_text
  /\ scanned demo "hello" = [].
Proof. split; reflexivity. Qed.

Lemma search_results self query :
  is_empty query = false ->
  is_greeting (strip (lower query)) = false ->
  keywords_of query <> [] ->
  let keywords := keywords_of query in
  let p := scan_policies keywords (_policies self) in
  let d := scan_products keywords (requested_categories query) 0 (_product_data self) in
  let c := scan_customers keywords (_customer_data self) in
  search self query =
    (Results (fst p ++ fst d ++ fst c)%list, (snd p ++ snd d ++ snd c)%list).
Proof.
  intros H1 H2 H3. cbv zeta. unfold search. rewrite H1. cbv zeta. rewrite H2.
  unfold requested_categories, keywords_of in *.
  destruct (extract_keywords (strip (lower query))) as [|k ks] eqn:Hk;
    [congruence|].
  destruct (scan_policies (k :: ks) (_policies self)) as [r1 v1].
  destruct (scan_products (k :: ks) (relevant_categories_of (k :: ks)) 0
                          (_product_data self)) as [r2 v2].
  destruct (scan_customers (k :: ks) (_customer_data self)) as [r3 v3].
  reflexivity.
Qed.

Lemma docs_of_app r1 r2 : docs_of (r1 ++ r2) = (docs_of r1 ++ docs_of r2)%list.
Proof. unfold docs_of, product_docs. apply flat_map_app. Qed.

Lemma docs_of_none r :
  (forall e, In e r -> is_product e = false) -> docs_of r = [].
Proof.
  unfold docs_of, product_docs. induction r as [|e r IH]; intros H; [reflexivity|].
  simpl. rewrite IH by (intros; apply H; right; assumption).
  specialize (H e (or_introl eq_refl)). destruct e; simpl in *; congruence.
Qed.

Lemma visited_none vs :
  (forall v, In v vs -> is_product_visit v = false) -> visited_products vs = [].
Proof.
  unfold visited_products. induction vs as [|v vs IH]; intros H; [reflexivity|].
  simpl. rewrite IH by (intros; apply H; right; assumption).
  specialize (H v (or_introl eq_refl)). destruct v; simpl in *; congruence.
Qed.

Lemma scan_products_cons keywords cats n product_id content rest :
  scan_products keywords cats n ((product_id, content) :: rest) =
    if should_include keywords cats content then
      if 8 <=? n + 1
      then ([ProductEntry product_id content], [VisitProduct product_id])
      else
        let '(es, vs) := scan_products keywords cats (n + 1) rest in
        (ProductEntry product_id content :: es, VisitProduct product_id :: vs)
    else
      let '(es, vs) := scan_products keywords cats n rest in
      (es, VisitProduct product_id :: vs).
Proof. reflexivity. Qed.

Lemma category_hit_inv cats o :
  category_hit cats o = true ->
  exists cm category cat_keyword,
    o = Some cm /\ is_empty cm = false
    /\ In category cats
    /\ In cat_keyword (category_keywords_of category)
    /\ str_in cat_keyword cm = true.
Proof.
  unfold category_hit. destruct o as [cm|]; [|discriminate].
  intros H. apply andb_true_iff in H. destruct H as [Hne H].
  apply negb_true_iff in Hne.
  apply existsb_exists in H. destruct H as [category [Hc H]].
  apply existsb_exists in H. destruct H as [kw [Hk H]].
  exists cm, category, kw. auto.
Qed.

End PluginProps.

(* ================================================================== *)
(** ** The external run state machine                                  *)
(* ================================================================== *)

Module PollProps.

Import Str StrFacts Main MainTests.

Lemma poll_loop_unfold client run_result s :
  poll_loop client run_result s =
    if (elapsed_time s <? max_wait_time)%Z then
      match runs_get client run_result (checks s) with
      | Raise _ => slept (failed s)
      | Ok status =>
          if is_finished status then got status s
          else poll_loop client run_result (slept (got status s))
      end
    else s.
Proof.
  simp poll_loop.
  destruct (Z_lt_dec (elapsed_time s) max_wait_time) as [H|H]; simpl.
  - rewrite (proj2 (Z.ltb_lt _ _) H).
    destruct (runs_get client run_result (checks s)) as [status|e]; simpl;
      [|reflexivity].
    destruct (is_finished status); reflexivity.
  - rewrite (proj2 (Z.ltb_ge _ _)) by lia. reflexivity.
Qed.

Lemma polling_init : Polling poll_init.
Proof.
  constructor; simpl; try reflexivity; try constructor.
  unfold max_wait_time. lia.
Qed.

Lemma rounds_S n :
  rounds (S n) = (rounds n ++ [RunsGet n; Sleep wait_interval])%list.
Proof.
  unfold rounds. rewrite seq_S, flat_map_app. simpl. reflexivity.
Qed.

Lemma sleeps_app cs cs' : sleeps (cs ++ cs') = sleeps cs + sleeps cs'.
Proof. unfold sleeps. rewrite filter_app, length_app. reflexivity. Qed.

Lemma status_checks_app cs cs' :
  status_checks (cs ++ cs') = status_checks cs + status_checks cs'.
Proof. unfold status_checks. rewrite filter_app, length_app. reflexivity. Qed.

Lemma unfinished_nth l i status :
  Forall (fun st => is_finished st = false) l ->
  nth_error l i = Some status -> is_finished status = true -> False.
Proof.
  intros H Hn Hf. rewrite Forall_forall in H.
  apply nth_error_In in Hn. rewrite (H _ Hn) in Hf. discriminate.
Qed.

Lemma polling_next s status :
  Polling s -> (elapsed_time s < max_wait_time)%Z ->
  is_finished status = false ->
  Polling (slept (got status s)).
Proof.
  intros [He Hb Ho Hu Hs Hc Hk] Hlt Hf.
  constructor; cbn [elapsed_time checks observed poll_calls slept got failed].
  - rewrite He. unfold wait_interval. lia.
  - unfold max_wait_time, wait_interval in *. lia.
  - rewrite length_app. cbn [List.length]. lia.
  - apply Forall_app. split; [exact Hu | repeat constructor; exact Hf].
  - rewrite !sleeps_app, Hs. cbv [sleeps filter is_sleep List.length]. lia.
  - rewrite !status_checks_app, Hc. cbv [status_checks filter is_runs_get List.length]. lia.
  - rewrite rounds_S, Hk, <- app_assoc. reflexivity.
Qed.

Lemma left_at_budget s :
  Polling s -> (max_wait_time <= elapsed_time s)%Z -> Left s.
Proof.
  intros [He Hb Ho Hu Hs Hc Hk] Hge.
  constructor; try assumption.
  - unfold max_wait_time, wait_interval in *. lia.
  - unfold max_wait_time, wait_interval in *. lia.
  - rewrite Hs. exact He.
  - left. exact Hk.
  - intros i status Hn Hf. destruct (unfinished_nth _ _ _ Hu Hn Hf).
Qed.

Lemma left_on_failure s :
  Polling s -> (elapsed_time s < max_wait_time)%Z -> Left (slept (failed s)).
Proof.
  intros [He Hb Ho Hu Hs Hc Hk] Hlt.
  constructor; cbn [elapsed_time checks observed poll_calls slept got failed].
  - unfold max_wait_time, wait_interval in *. lia.
  - unfold max_wait_time, wait_interval in *. lia.
  - rewrite !sleeps_app, Hs. cbv [sleeps filter is_sleep List.length]. rewrite He. unfold wait_interval. lia.
  - rewrite !status_checks_app, Hc. cbv [status_checks filter is_runs_get List.length]. lia.
  - left. rewrite rounds_S, Hk, <- app_assoc. reflexivity.
  - intros i status Hn Hf. destruct (unfinished_nth _ _ _ Hu Hn Hf).
Qed.

Lemma left_on_finished s status :
  Polling s -> (elapsed_time s < max_wait_time)%Z -> Left (got status s).
Proof.
  intros [He Hb Ho Hu Hs Hc Hk] Hlt.
  constructor; cbn [elapsed_time checks observed poll_calls slept got failed].
  - unfold max_wait_time, wait_interval in *. lia.
  - unfold max_wait_time, wait_interval in *. lia.
  - rewrite !sleeps_app, Hs. cbv [sleeps filter is_sleep List.length]. rewrite He. f_equal. lia.
  - rewrite !status_checks_app, Hc. cbv [status_checks filter is_runs_get List.length]. lia.
  - right. exists (checks s). rewrite Hk. split; reflexivity.
  - intros i st Hn Hf.
    destruct (Nat.lt_ge_cases i (List.length (observed s))) as [Hi|Hi].
    + rewrite nth_error_app1 in Hn by exact Hi.
      destruct (unfinished_nth _ _ _ Hu Hn Hf).
    + assert (Hlen : i < List.length (observed s ++ [status])).
      { apply nth_error_Some. congruence. }
      rewrite length_app in Hlen. cbn [List.length] in Hlen.
      assert (i = checks s) by lia. subst i.
      rewrite length_app. cbn [List.length].
      split; [lia|]. split; [lia|]. split; [exact He|].
      exists (poll_calls s). reflexivity.
Qed.

(** From any state of the polling loop, the loop is left, and in one of
    the three ways above. *)
Lemma poll_loop_leaves client run_result : forall n s,
  15 - checks s = n -> Polling s -> Left (poll_loop client run_result s).
Proof.
  induction n as [|n IH]; intros s Hn Hp; rewrite poll_loop_unfold;
    pose proof (polling_elapsed _ Hp) as He;
    pose proof (polling_budget _ Hp) as Hb;
    destruct (elapsed_time s <? max_wait_time)%Z eqn:Hlt.
  - apply Z.ltb_lt in Hlt. unfold max_wait_time, wait_interval in *. lia.
  - apply Z.ltb_ge in Hlt. apply left_at_budget; assumption.
  - apply Z.ltb_lt in Hlt.
    destruct (runs_get client run_result (checks s)) as [status|e].
    + destruct (is_finished status) eqn:Hf.
      * apply left_on_finished; assumption.
      * apply IH; [cbn [checks slept got]; lia | apply polling_next; assumption].
    + apply left_on_failure; assumption.
  - apply Z.ltb_ge in Hlt. apply left_at_budget; assumption.
Qed.

Example quick_run :
  let s := poll_loop quick run_1 poll_init in
  observed s = ["queued"; "in_progress"; "completed"]
  /\ poll_calls s = [RunsGet 0; Sleep 2%Z; RunsGet 1; Sleep 2%Z; RunsGet 2]
  /\ elapsed_time s = 4%Z.
Proof. repeat split; vm_compute; reflexivity. Qed.

Example stuck_run :
  let s := poll_loop stuck run_1 poll_init in
  checks s = 15 /\ elapsed_time s = 30%Z /\ current_run s = Some "queued".
Proof. repeat split; vm_compute; reflexivity. Qed.

(** **** C8 *)

(** After [d] more checks that read an unfinished status, a check that
    reads a finished one ends the loop at once: the state left is the
    one of that check, with no sleep after it. *)
Lemma poll_loop_finish client run_result status : forall d s,
  Polling s ->
  checks s + d < 15 ->
  (forall i, i < d ->
     exists st, runs_get client run_result (checks s + i) = Ok st
                /\ is_finished st = false) ->
  runs_get client run_result (checks s + d) = Ok status ->
  is_finished status = true ->
  exists s0,
    Polling s0 /\ checks s0 = checks s + d
    /\ poll_loop client run_result s = got status s0.
Proof.
  induction d as [|d IH]; intros s Hp Hlt Hok Hlast Hfin;
    rewrite poll_loop_unfold;
    pose proof (polling_elapsed _ Hp) as He;
    assert (Hb : (elapsed_time s <? max_wait_time)%Z = true)
      by (apply Z.ltb_lt; unfold max_wait_time, wait_interval in *; lia);
    rewrite Hb.
  - rewrite Nat.add_0_r in Hlast. rewrite Hlast, Hfin.
    exists s. split; [exact Hp|]. split; [lia | reflexivity].
  - destruct (Hok 0) as [st [H0 Hf]]; [lia|].
    rewrite Nat.add_0_r in H0. rewrite H0, Hf.
    apply Z.ltb_lt in Hb.
    destruct (IH (slept (got st s))) as (s0 & Hp0 & Hc0 & E).
    + apply polling_next; assumption.
    + cbn [checks slept got]. lia.
    + intros i Hi. cbn [checks slept got].
      replace (S (checks s) + i) with (checks s + S i) by lia.
      apply Hok. lia.
    + cbn [checks slept got].
      replace (S (checks s) + d) with (checks s + S d) by lia. exact Hlast.
    + exact Hfin.
    + exists s0. split; [exact Hp0|]. split; [|exact E].
      cbn [checks slept got] in Hc0. lia.
Qed.

Lemma current_run_got status s : current_run (got status s) = Some status.
Proof.
  unfold current_run. cbn [observed got]. rewrite rev_app_distr. reflexivity.
Qed.

(** C8. The polling loop is left after at most fifteen status checks
    and with at most thirty units slept, two units after each check
    that neither fails nor ends the loop; a finished status (completed,
    failed, expired, cancelled) is the last status read and the check
    that read it is the last call made, with no sleep after it, so no
    unfinished status is ever read after a finished one; and the first
    check that reads a finished status, after [k] checks that read an
    unfinished one, ends the loop with that status. *)
Theorem C8_poll_loop_is_bounded client run_result :
  let s := poll_loop client run_result poll_init in
  checks s <= 15
  /\ status_checks (poll_calls s) = checks s
  /\ (0 <= elapsed_time s <= max_wait_time)%Z
  /\ elapsed_time s = (wait_interval * Z.of_nat (sleeps (poll_calls s)))%Z
  /\ (poll_calls s = rounds (checks s)
      \/ exists k, checks s = S k
                   /\ poll_calls s = (rounds k ++ [RunsGet k])%list)
  /\ (forall i status,
        nth_error (observed s) i = Some status ->
        is_finished status = true ->
        List.length (observed s) = i + 1
        /\ checks s = i + 1
        /\ elapsed_time s = (wait_interval * Z.of_nat i)%Z
        /\ exists before, poll_calls s = (before ++ [RunsGet i])%list)
  /\ (forall k status,
        k < 15 ->
        (forall i, i < k ->
           exists st, runs_get client run_result i = Ok st
                      /\ is_finished st = false) ->
        runs_get client run_result k = Ok status ->
        is_finished status = true ->
        current_run s = Some status
        /\ checks s = k + 1
        /\ poll_calls s = (rounds k ++ [RunsGet k])%list
        /\ elapsed_time s = (wait_interval * Z.of_nat k)%Z)
  /\ max_wait_time = 30%Z /\ wait_interval = 2%Z
  /\ finished_statuses = ["completed"; "failed"; "expired"; "cancelled"].
Proof.
  intros s.
  destruct (poll_loop_leaves client run_result 15 poll_init eq_refl polling_init)
    as [H1 H2 H3 H4 H5 H6].
  split; [exact H1|]. split; [exact H4|]. split; [exact H2|].
  split; [exact H3|]. split; [exact H5|]. split; [exact H6|].
  split; [|repeat split].
  intros k status Hk Hok Hlast Hfin.
  destruct (poll_loop_finish client run_result status k poll_init polling_init)
    as (s0 & [He Hb Ho Hu Hs Hc Hcalls] & Hc0 & E); try assumption.
  cbn [checks poll_init] in Hc0. subst s. rewrite E, current_run_got.
  cbn [checks elapsed_time poll_calls got]. rewrite Hcalls, Hc0, He, Hc0.
  cbn [Nat.add]. repeat split. lia.
Qed.

Lemma C8_witness :
  let s := poll_loop quick run_1 poll_init in
  current_run s = Some "completed"
  /\ checks s = 2 + 1
  /\ poll_calls s = (rounds 2 ++ [RunsGet 2])%list
  /\ elapsed_time s = (wait_interval * Z.of_nat 2)%Z.
Proof.
  apply (C8_poll_loop_is_bounded quick run_1).
  - lia.
  - intros i Hi. destruct i as [|[|i]].
    + exists "queued". split; reflexivity.
    + exists "in_progress". split; reflexivity.
    + lia.
  - reflexivity.
  - reflexivity.
Defined.

(** **** C5 *)

(** After [d] more checks that read an unfinished status, a check that
    fails ends the loop: the state left is the one of the failed check
    followed by one sleep. *)
Lemma poll_loop_failure client run_result e : forall d s,
  Polling s ->
  checks s + d < 15 ->
  (forall i, i < d ->
     exists status, runs_get client run_result (checks s + i) = Ok status
                    /\ is_finished status = false) ->
  runs_get client run_result (checks s + d) = Raise e ->
  exists s0,
    Polling s0 /\ checks s0 = checks s + d
    /\ poll_loop client run_result s = slept (failed s0).
Proof.
  induction d as [|d IH]; intros s Hp Hlt Hok Hfail;
    rewrite poll_loop_unfold;
    pose proof (polling_elapsed _ Hp) as He;
    assert (Hb : (elapsed_time s <? max_wait_time)%Z = true)
      by (apply Z.ltb_lt; unfold max_wait_time, wait_interval in *; lia);
    rewrite Hb.
  - rewrite Nat.add_0_r in Hfail. rewrite Hfail.
    exists s. split; [exact Hp|]. split; [lia | reflexivity].
  - destruct (Hok 0) as [status [H0 Hf]]; [lia|].
    rewrite Nat.add_0_r in H0. rewrite H0, Hf.
    apply Z.ltb_lt in Hb.
    destruct (IH (slept (got status s))) as (s0 & Hp0 & Hc0 & E).
    + apply polling_next; assumption.
    + cbn [checks slept got]. lia.
    + intros i Hi. cbn [checks slept got].
      replace (S (checks s) + i) with (checks s + S i) by lia.
      apply Hok. lia.
    + cbn [checks slept got].
      replace (S (checks s) + d) with (checks s + S d) by lia. exact Hfail.
    + exists s0. split; [exact Hp0|]. split; [|exact E].
      cbn [checks slept got] in Hc0. lia.
Qed.

(** The first status check of [flaky] raises and the second would
    report the run as completed, yet after the failure and one sleep the
    loop is over; there is no second check and no status is known. *)
Example failed_check_is_not_retried :
  runs_get flaky run_1 0 = Raise "connection reset"
  /\ runs_get flaky run_1 1 = Ok "completed"
  /\ poll_calls (poll_loop flaky run_1 poll_init) = [RunsGet 0; Sleep 2%Z]
  /\ ~ In (RunsGet 1) (poll_calls (poll_loop flaky run_1 poll_init))
  /\ current_run (poll_loop flaky run_1 poll_init) = None.
Proof.
  repeat split; try reflexivity.
  vm_compute. intros [H|[H|[]]]; discriminate.
Qed.

(** C5. The loop does not do what the claim and its own comment at
    line 259 ("just wait a bit and continue") say: the handler of a
    failed status check sleeps, adds the interval and then executes
    [break].  A failed status check is therefore never retried: when a
    status check fails after [k] checks that read an unfinished status,
    the machine sleeps one interval and leaves the loop without
    raising; the failed check is its last one - no second check is
    made, whatever it would have answered -, the time slept is two
    units per check made, and the statuses it holds are the [k]
    unfinished ones read before. *)
Theorem C5_first_poll_failure_ends_polling client run_result k e :
  k < 15 ->
  (forall i, i < k ->
     exists status, runs_get client run_result i = Ok status
                    /\ is_finished status = false) ->
  runs_get client run_result k = Raise e ->
  let s := poll_loop client run_result poll_init in
  checks s = k + 1
  /\ poll_calls s = (rounds k ++ [RunsGet k; Sleep wait_interval])%list
  /\ elapsed_time s = (wait_interval * Z.of_nat (k + 1))%Z
  /\ List.length (observed s) = k
  /\ Forall (fun status => is_finished status = false) (observed s).
Proof.
  intros Hk Hok Hfail s.
  destruct (poll_loop_failure client run_result e k poll_init polling_init)
    as (s0 & [He Hb Ho Hu Hs Hc Hcalls] & Hc0 & E); try assumption.
  cbn [checks poll_init] in Hc0. subst s. rewrite E.
  cbn [checks elapsed_time observed poll_calls slept failed].
  rewrite Hcalls, <- app_assoc, Hc0. cbn [app].
  split; [lia|]. split; [reflexivity|].
  split; [rewrite He, Hc0; unfold wait_interval; lia|].
  split; [lia | exact Hu].
Qed.

Lemma C5_witness :
  let s := poll_loop flaky run_1 poll_init in
  checks s = 0 + 1
  /\ poll_calls s = (rounds 0 ++ [RunsGet 0; Sleep wait_interval])%list
  /\ elapsed_time s = (wait_interval * Z.of_nat (0 + 1))%Z
  /\ List.length (observed s) = 0
  /\ Forall (fun status => is_finished status = false) (observed s).
Proof.
  apply (C5_first_poll_failure_ends_polling flaky run_1 0 "connection reset").
  - lia.
  - intros i Hi. lia.
  - reflexivity.
Defined.

End PollProps.

(* ================================================================== *)
(** ** Routing, composition and the event stream                       *)
(* ================================================================== *)

Module HandlerProps.

Import Str StrFacts Plugin PluginTests Main MainTests PollProps.

Lemma add_calls_nil w : add_calls [] w = w.
Proof. destruct w. unfold add_calls. simpl. rewrite app_nil_r. reflexivity. Qed.

Lemma add_calls_add cs cs' w :
  add_calls cs' (add_calls cs w) = add_calls (cs ++ cs') w.
Proof. unfold add_calls. simpl. rewrite app_assoc. reflexivity. Qed.

Lemma call_eq {A} c (r : Res A) w : call c r w = (add_calls [c] w, r).
Proof. reflexivity. Qed.

Lemma log_eq cs w : log cs w = (add_calls cs w, Ok tt).
Proof. reflexivity. Qed.

(** Step 1 never raises, yields nothing and calls the plugin at most
    once. *)
Lemma step1_spec g user_message w :
  step1 g user_message w =
    (add_calls (search_calls g user_message) w,
     Ok (internal_response_of g user_message)).
Proof.
  unfold step1, search_calls, searches, internal_response_of.
  destruct (internal_plugin g) as [plugin|];
    [|rewrite add_calls_nil; reflexivity].
  destruct (kernel g); [|rewrite add_calls_nil; reflexivity].
  destruct (is_external_query user_message); cbn [negb andb];
    [rewrite add_calls_nil; reflexivity|].
  unfold try_except, bind. rewrite call_eq.
  destruct (plugin user_message) as [internal_context|e]; [|reflexivity].
  destruct (usable (Some internal_context)); reflexivity.
Qed.

Lemma rounds_plain n : Forall (fun c => is_plain c = true) (rounds n).
Proof.
  induction n as [|n IH]; [constructor|].
  rewrite rounds_S. apply Forall_app. split; [exact IH|].
  repeat constructor.
Qed.

Lemma poll_calls_plain client run_result :
  Forall (fun c => is_plain c = true)
         (poll_calls (poll_loop client run_result poll_init)).
Proof.
  destruct (poll_loop_leaves client run_result 15 poll_init eq_refl polling_init)
    as [_ _ _ _ [H|[k [_ H]]] _]; rewrite H.
  - apply rounds_plain.
  - apply Forall_app. split; [apply rounds_plain | repeat constructor].
Qed.

(** The external delegation never raises and yields nothing; it starts
    with the submission and makes no other one. *)
Lemma delegate_spec a client user_message internal_response w :
  exists tail agent_response,
    try_except (delegate a client user_message internal_response)
               (fun _ => ret []) w
    = (add_calls (CreateThreadAndRun
                    (enhanced_message_of user_message internal_response) :: tail) w,
       Ok (agent_fragment agent_response))
    /\ Forall (fun c => is_plain c = true) tail.
Proof.
  unfold delegate, try_except, bind. rewrite call_eq.
  destruct (create_thread_and_run client (agent_id a)
              (enhanced_message_of user_message internal_response))
    as [run_result|e].
  - rewrite log_eq, call_eq.
    set (s := poll_loop client run_result poll_init).
    destruct (messages_list client (thread_id run_result) (checks s))
      as [messages|e].
    + exists (poll_calls s ++ [MessagesList])%list, (extract messages None).
      split.
      * unfold ret. rewrite !add_calls_add. reflexivity.
      * apply Forall_app. split; [apply poll_calls_plain | repeat constructor].
    + exists (poll_calls s ++ [MessagesList])%list, None.
      split.
      * unfold ret. rewrite !add_calls_add. reflexivity.
      * apply Forall_app. split; [apply poll_calls_plain | repeat constructor].
  - exists [], None. split; [reflexivity | constructor].
Qed.

Lemma step2_spec g user_message internal_response w :
  exists cs agent_response,
    step2 g user_message internal_response w
    = (add_calls cs w, Ok (agent_fragment agent_response))
    /\ (if use_external g user_message internal_response
        then exists tail,
               cs = CreateThreadAndRun
                      (enhanced_message_of user_message internal_response) :: tail
               /\ Forall (fun c => is_plain c = true) tail
        else cs = [] /\ agent_response = None).
Proof.
  unfold step2, use_external.
  destruct (agent g) as [a|];
    [|exists [], None; rewrite add_calls_nil; split; [reflexivity | auto]].
  destruct (ai_project_client g) as [client|];
    [|exists [], None; rewrite add_calls_nil; split; [reflexivity | auto]].
  destruct (needs_web_search user_message || negb (truthy internal_response));
    [|exists [], None; rewrite add_calls_nil; split; [reflexivity | auto]].
  destruct (delegate_spec a client user_message internal_response w)
    as (tail & agent_response & E & Hplain).
  exists (CreateThreadAndRun (enhanced_message_of user_message internal_response)
            :: tail), agent_response.
  split; [exact E|]. exists tail. auto.
Qed.

(** What [compose] chooses. *)
Lemma compose_spec internal_response agent_response :
  compose internal_response agent_response =
    if truthy agent_response
    then "**AI Assistant with Bing:** " ++ text_of agent_response
    else if truthy internal_response
         then "**Internal Knowledge:** " ++ text_of internal_response
         else fallback_response.
Proof.
  unfold compose, agent_fragment, step3.
  destruct agent_response as [a|]; cbn [truthy text_of].
  - destruct a as [|c a]; cbn [is_empty negb].
    + destruct internal_response as [i|]; [|reflexivity].
      cbn [truthy text_of]. destruct i; reflexivity.
    + destruct internal_response as [i|]; [|reflexivity].
      cbn [is_nil andb]. rewrite andb_false_r. reflexivity.
  - destruct internal_response as [i|]; [|reflexivity].
    cbn [truthy text_of]. destruct i; reflexivity.
Qed.

Lemma compose_nonempty internal_response agent_response :
  is_empty (compose internal_response agent_response) = false.
Proof.
  rewrite compose_spec.
  destruct (truthy agent_response); [reflexivity|].
  destruct (truthy internal_response); reflexivity.
Qed.

Lemma bind_ok {A B} (m : M A) (k : A -> M B) w w' a :
  m w = (w', Ok a) -> bind m k w = k a w'.
Proof. intros H. unfold bind. rewrite H. reflexivity. Qed.

Lemma bind_raise {A B} (m : M A) (k : A -> M B) w w' e :
  m w = (w', Raise e) -> bind m k w = (w', Raise e).
Proof. intros H. unfold bind. rewrite H. reflexivity. Qed.

Lemma try_ok {A} (m : M A) h w w' a :
  m w = (w', Ok a) -> try_except m h w = (w', Ok a).
Proof. intros H. unfold try_except. rewrite H. reflexivity. Qed.

Lemma try_raise {A} (m : M A) h w w' e :
  m w = (w', Raise e) -> try_except m h w = h e w'.
Proof. intros H. unfold try_except. rewrite H. reflexivity. Qed.

Lemma ensure_thread_spec g thread_id w :
  (started g thread_id = true
   /\ ensure_thread g thread_id w = (add_calls (time_calls thread_id) w, Ok tt))
  \/ (started g thread_id = false
      /\ exists e, ensure_thread g thread_id w = (add_calls [LoopTime] w, Raise e)).
Proof.
  unfold ensure_thread, started, time_calls.
  destruct (truthy thread_id).
  - left. rewrite add_calls_nil. split; reflexivity.
  - unfold bind. rewrite call_eq. destruct (loop_time g) as [t|e].
    + left. split; reflexivity.
    + right. split; [reflexivity|]. exists e. reflexivity.
Qed.

(** The reply, or the failure of the event loop; no event is yielded
    while it is computed. *)
Lemma answer_spec g user_message thread_id w :
  let internal_response := internal_response_of g user_message in
  (started g thread_id = false
   /\ exists e, answer g user_message thread_id w
                = (add_calls [LoopTime] w, Raise e))
  \/ (started g thread_id = true
      /\ exists cs agent_response,
           answer g user_message thread_id w
           = (add_calls (time_calls thread_id
                         ++ search_calls g user_message ++ cs) w,
              Ok (compose internal_response agent_response))
           /\ (if use_external g user_message internal_response
               then exists tail,
                      cs = CreateThreadAndRun
                             (enhanced_message_of user_message internal_response)
                           :: tail
                      /\ Forall (fun c => is_plain c = true) tail
               else cs = [] /\ agent_response = None)).
Proof.
  intros internal_response. unfold answer.
  destruct (ensure_thread_spec g thread_id w) as [[Hs E]|[Hs [e E]]].
  - right. split; [exact Hs|].
    destruct (step2_spec g user_message internal_response
                (add_calls (search_calls g user_message)
                   (add_calls (time_calls thread_id) w)))
      as (cs & agent_response & E2 & Hcs).
    exists cs, agent_response. split; [|exact Hcs].
    rewrite (bind_ok _ _ _ _ _ E).
    rewrite (bind_ok _ _ _ _ _ (step1_spec g user_message _)).
    fold internal_response.
    rewrite (bind_ok _ _ _ _ _ E2).
    unfold ret. rewrite !add_calls_add. reflexivity.
  - left. split; [exact Hs|]. exists e.
    apply (bind_raise _ _ _ _ _ E).
Qed.

(** One request, in full: either the event loop fails at once and the
    error reply is sent, or the reply composed of the fragments of
    steps 1 and 2 is sent; either way two events, and nothing raised. *)
Lemma handle_spec g user_message thread_id :
  let internal_response := internal_response_of g user_message in
  (started g thread_id = false
   /\ handle g user_message thread_id
      = ({| calls := [LoopTime];
            yielded := [CompletedMessage error_message; StreamEnd] |}, Ok tt))
  \/ (started g thread_id = true
      /\ exists cs agent_response,
           handle g user_message thread_id
           = ({| calls := (time_calls thread_id
                           ++ search_calls g user_message ++ cs)%list;
                 yielded := [CompletedMessage
                               (compose internal_response agent_response);
                             StreamEnd] |}, Ok tt)
           /\ (if use_external g user_message internal_response
               then exists tail,
                      cs = CreateThreadAndRun
                             (enhanced_message_of user_message internal_response)
                           :: tail
                      /\ Forall (fun c => is_plain c = true) tail
               else cs = [] /\ agent_response = None)).
Proof.
  intros internal_response. unfold handle, stream_agent_response.
  destruct (answer_spec g user_message thread_id new_world)
    as [[Hs [e E]]|[Hs (cs & agent_response & E & Hcs)]].
  - left. split; [exact Hs|].
    rewrite (try_raise _ _ _ _ _ (bind_raise _ _ _ _ _ E)). reflexivity.
  - right. split; [exact Hs|]. exists cs, agent_response. split; [|exact Hcs].
    erewrite try_ok; [reflexivity|].
    rewrite (bind_ok _ _ _ _ _ E). reflexivity.
Qed.

Lemma trace_spec g user_message thread_id :
  let internal_response := internal_response_of g user_message in
  (started g thread_id = false /\ trace g user_message thread_id = [LoopTime])
  \/ (started g thread_id = true
      /\ exists cs,
           trace g user_message thread_id
           = (time_calls thread_id ++ search_calls g user_message ++ cs)%list
           /\ (if use_external g user_message internal_response
               then exists tail,
                      cs = CreateThreadAndRun
                             (enhanced_message_of user_message internal_response)
                           :: tail
                      /\ Forall (fun c => is_plain c = true) tail
               else cs = [])).
Proof.
  intros internal_response. unfold trace.
  destruct (handle_spec g user_message thread_id)
    as [[Hs E]|[Hs (cs & agent_response & E & Hcs)]]; rewrite E.
  - left. split; [exact Hs | reflexivity].
  - right. split; [exact Hs|]. exists cs. split; [reflexivity|].
    fold internal_response in Hcs.
    destruct (use_external g user_message internal_response);
      [exact Hcs | apply Hcs].
Qed.

Lemma web_search_keywords_are_external :
  forallb (fun keyword => mem keyword external_info_keywords)
          web_search_keywords = true.
Proof. vm_compute. reflexivity. Qed.

(** A message that asks for a web search is an external query. *)
Lemma needs_web_search_is_external user_message :
  needs_web_search user_message = true ->
  is_external_query user_message = true.
Proof.
  unfold needs_web_search, is_external_query, any_in. intros H.
  apply existsb_exists in H. destruct H as [keyword [Hin Hk]].
  apply existsb_exists. exists keyword. split; [|exact Hk].
  pose proof web_search_keywords_are_external as Hall.
  rewrite forallb_forall in Hall. apply mem_In. apply Hall. exact Hin.
Qed.

(** An internal fragment rules the external run out. *)
Lemma internal_hit_skips_external g user_message :
  truthy (internal_response_of g user_message) = true ->
  use_external g user_message (internal_response_of g user_message) = false.
Proof.
  intros Ht. unfold use_external.
  destruct (agent g); [|reflexivity].
  destruct (ai_project_client g); [|reflexivity].
  rewrite Ht. cbn [negb]. rewrite orb_false_r.
  destruct (needs_web_search user_message) eqn:Hw; [|reflexivity].
  apply needs_web_search_is_external in Hw.
  unfold internal_response_of in Ht. rewrite Hw in Ht.
  destruct (internal_plugin g); [|discriminate].
  rewrite andb_false_r in Ht. discriminate.
Qed.

Lemma time_calls_plain thread_id :
  Forall (fun c => is_plain c = true) (time_calls thread_id).
Proof. unfold time_calls. destruct (truthy thread_id); repeat constructor. Qed.

Lemma search_calls_no_submit g user_message :
  Forall (fun c => is_submit c = false) (search_calls g user_message).
Proof. unfold search_calls. destruct (searches g user_message); repeat constructor. Qed.

Lemma plain_no_submit cs :
  Forall (fun c => is_plain c = true) cs -> Forall (fun c => is_submit c = false) cs.
Proof.
  apply Forall_impl. intros c H. unfold is_plain in H.
  apply andb_true_iff in H. destruct H as [_ H]. apply negb_true_iff in H. exact H.
Qed.

Lemma plain_no_search cs :
  Forall (fun c => is_plain c = true) cs -> Forall (fun c => is_search c = false) cs.
Proof.
  apply Forall_impl. intros c H. unfold is_plain in H.
  apply andb_true_iff in H. destruct H as [H _]. apply negb_true_iff in H. exact H.
Qed.

(** **** C1 *)

(** Whatever computes the reply - returning it or raising anywhere -
    the generator built around it yields exactly the two events, as
    long as the computation itself yields nothing. *)
Lemma two_events_around (m : M string) w :
  yielded (fst (m w)) = yielded w ->
  let r := try_except
             (final_response <- m ;;
              yield (CompletedMessage final_response) ;;;
              yield StreamEnd)%py
             (fun _ => (yield (CompletedMessage error_message) ;;;
                        yield StreamEnd)%py) w in
  snd r = Ok tt
  /\ exists content,
       yielded (fst r) = (yielded w ++ [CompletedMessage content; StreamEnd])%list.
Proof.
  intros H. unfold try_except, bind, yield.
  destruct (m w) as [w' [final_response|e]]; simpl in *; rewrite H.
  - split; [reflexivity|]. exists final_response.
    rewrite <- app_assoc. reflexivity.
  - split; [reflexivity|]. exists error_message.
    rewrite <- app_assoc. reflexivity.
Qed.

(** C1. Every request yields exactly two events, a "completed_message"
    event with the reply and then a "stream_end" event, and raises
    nothing: when the request is served normally the reply is the one
    composed of its fragments, and when an exception escapes the
    handling (here: the event loop fails) it is the fixed error
    message, again followed by "stream_end". *)
Theorem C1_exactly_two_events g user_message thread_id :
  snd (handle g user_message thread_id) = Ok tt
  /\ exists content,
       events g user_message thread_id = [CompletedMessage content; StreamEnd]
       /\ map event_type (events g user_message thread_id)
          = ["completed_message"; "stream_end"]
       /\ ((started g thread_id = true
            /\ exists agent_response,
                 content = compose (internal_response_of g user_message)
                                   agent_response)
           \/ (started g thread_id = false /\ content = error_message)).
Proof.
  unfold events.
  destruct (handle_spec g user_message thread_id)
    as [[Hs E]|[Hs (cs & agent_response & E & _)]]; rewrite E.
  - split; [reflexivity|]. exists error_message.
    repeat split. right. split; [exact Hs | reflexivity].
  - split; [reflexivity|]. eexists. split; [reflexivity|].
    split; [reflexivity|]. left. split; [exact Hs|].
    exists agent_response. reflexivity.
Qed.

(** **** C9 *)

(** C9. With no internal and no external fragment the composed reply is
    the fixed fallback text, which is not empty - in particular for a
    started request whose lookup left no internal response and for which
    no external run is made; and for every request the reply carried by
    the "completed_message" event is a non-empty string. *)
Theorem C9_reply_is_never_empty g user_message thread_id
        internal_response agent_response :
  (truthy internal_response = false ->
   truthy agent_response = false ->
   compose internal_response agent_response = fallback_response)
  /\ (started g thread_id = true ->
      truthy (internal_response_of g user_message) = false ->
      use_external g user_message (internal_response_of g user_message) = false ->
      events g user_message thread_id
      = [CompletedMessage fallback_response; StreamEnd])
  /\ is_empty fallback_response = false
  /\ exists content,
       events g user_message thread_id = [CompletedMessage content; StreamEnd]
       /\ is_empty content = false.
Proof.
  split; [|split; [|split; [reflexivity|]]].
  - intros Hi Ha. rewrite compose_spec, Ha, Hi. reflexivity.
  - intros Hs Hi Hu. unfold events.
    destruct (handle_spec g user_message thread_id)
      as [[Hs' E]|[_ (cs & ar & E & Hcs)]]; [congruence|]. rewrite E.
    rewrite Hu in Hcs. destruct Hcs as [_ ->].
    cbn [fst yielded]. rewrite compose_spec, Hi. reflexivity.
  - unfold events.
    destruct (handle_spec g user_message thread_id)
      as [[Hs E]|[Hs (cs & ar & E & _)]]; rewrite E.
    + exists error_message. split; reflexivity.
    + eexists. split; [reflexivity | apply compose_nonempty].
Qed.

Lemma C9_witness :
  compose None (Some EmptyString) = fallback_response
  /\ events bare "what's the weather today" None
     = [CompletedMessage fallback_response; StreamEnd].
Proof.
  destruct (C9_reply_is_never_empty bare "what's the weather today" None
              None (Some EmptyString)) as (H1 & H2 & _).
  split; [apply H1; reflexivity | apply H2; reflexivity].
Defined.


Example scenario_weather_unavailable :
  events bare "what's the weather today" None
    = [CompletedMessage fallback_response; StreamEnd].
Proof. reflexivity. Qed.

Example scenario_weather :
  events (wired quick) "what's the weather today" None
    = [CompletedMessage "**AI Assistant with Bing:** Sunny, 21 C."; StreamEnd]
  /\ trace (wired quick) "what's the weather today" None
     = [LoopTime;
        CreateThreadAndRun (enhanced_message_of "what's the weather today" None);
        RunsGet 0; Sleep 2%Z; RunsGet 1; Sleep 2%Z; RunsGet 2; MessagesList].
Proof. split; vm_compute; reflexivity. Qed.

Example scenario_stuck_run :
  events (wired stuck) "latest news" None
    = [CompletedMessage fallback_response; StreamEnd].
Proof. vm_compute. reflexivity. Qed.

(** A failed status check is a soft failure: the messages are still
    listed and their text is used. *)
Example scenario_flaky_poll :
  trace (wired flaky) "latest news" None
    = [LoopTime; CreateThreadAndRun (enhanced_message_of "latest news" None);
       RunsGet 0; Sleep 2%Z; MessagesList]
  /\ events (wired flaky) "latest news" None
     = [CompletedMessage "**AI Assistant with Bing:** Sunny, 21 C."; StreamEnd].
Proof. split; vm_compute; reflexivity. Qed.

Example scenario_event_loop_fails :
  handle broken "what tents do you have" None
    = ({| calls := [LoopTime];
          yielded := [CompletedMessage error_message; StreamEnd] |}, Ok tt).
Proof. reflexivity. Qed.

(** **** C4 *)

(** The guard of step 2, seen from outside: a submission is made
    exactly when the request got started, agent and client are set,
    and the message asks for a web search or step 1 left no internal
    response. *)
Lemma submission_iff g user_message thread_id :
  Exists (fun c => is_submit c = true) (trace g user_message thread_id)
  <-> started g thread_id = true
      /\ use_external g user_message (internal_response_of g user_message) = true.
Proof.
  destruct (trace_spec g user_message thread_id)
    as [[Hs E]|[Hs (cs & E & Hcs)]]; rewrite E.
  - split.
    + intros H. apply Exists_exists in H. destruct H as [c [[<-|[]] H]].
      discriminate.
    + intros [H _]. congruence.
  - destruct (use_external g user_message (internal_response_of g user_message)).
    + destruct Hcs as (tail & -> & _). split; [auto|]. intros _.
      apply Exists_app. right. apply Exists_app. right.
      constructor. reflexivity.
    + subst cs. split; [|intros [_ H]; discriminate].
      intros H. apply Exists_exists in H. destruct H as [c [Hin H]].
      rewrite app_nil_r in Hin.
      pose proof (Forall_app (fun c => is_submit c = false)
                    (time_calls thread_id) (search_calls g user_message)) as Hf.
      destruct Hf as [_ Hf].
      specialize (Hf (conj (plain_no_submit _ (time_calls_plain thread_id))
                           (search_calls_no_submit g user_message))).
      rewrite Forall_forall in Hf. rewrite (Hf _ Hin) in H. discriminate.
Qed.

(** C4, at a query the internal search misses: the plugin answers
    "kayak" with its not-found guidance, in which the words "not
    found" do not occur; step 1 keeps it as the internal response, so
    that, with agent and client set, no run is submitted and the
    guidance itself is sent as the internal-knowledge reply. *)
Theorem C4_internal_miss_is_not_delegated :
  search_internal_knowledge demo "kayak" = not_found_text "kayak"
  /\ str_in "not found" (lower (not_found_text "kayak")) = false
  /\ internal_response_of (wired quick) "kayak" = Some (not_found_text "kayak")
  /\ use_external (wired quick) "kayak"
                  (internal_response_of (wired quick) "kayak") = false
  /\ trace (wired quick) "kayak" None = [LoopTime; SearchInternal "kayak"]
  /\ events (wired quick) "kayak" None
     = [CompletedMessage ("**Internal Knowledge:** " ++ not_found_text "kayak");
        StreamEnd].
Proof.
  repeat split; vm_compute; reflexivity.
Qed.

End HandlerProps.

(* ================================================================== *)
(** ** More facts about substrings                                     *)
(* ================================================================== *)

Module StrMore.

Import Str StrFacts SearchViews.

Lemma lower_app a b : lower (a ++ b) = lower a ++ lower b.
Proof. induction a as [|c a IH]; simpl; [reflexivity | rewrite IH; reflexivity]. Qed.

Lemma append_assoc a b c : (a ++ b) ++ c = a ++ b ++ c.
Proof. induction a as [|x a IH]; simpl; [reflexivity | rewrite IH; reflexivity]. Qed.

Lemma is_empty_app a b : is_empty a = false -> is_empty (a ++ b) = false.
Proof. destruct a; simpl; congruence. Qed.

Lemma prefix_nil_l s : String.prefix EmptyString s = true.
Proof. destruct s; reflexivity. Qed.

Lemma prefix_app_r w : forall s t,
  String.prefix w s = true -> String.prefix w (s ++ t) = true.
Proof.
  induction w as [|a w IH]; intros s t H; [apply prefix_nil_l|].
  destruct s as [|c s]; [discriminate|].
  apply prefix_head in H. destruct H as [<- H].
  change (String a s ++ t) with (String a (s ++ t)).
  apply prefix_cons. apply IH. exact H.
Qed.

Lemma prefix_self_app w t : String.prefix w (w ++ t) = true.
Proof.
  induction w as [|a w IH]; [apply prefix_nil_l|].
  change (String a w ++ t) with (String a (w ++ t)).
  apply prefix_cons. exact IH.
Qed.

Lemma str_in_here w s : String.prefix w s = true -> str_in w s = true.
Proof.
  intros H. destruct s as [|c s].
  - destruct w; [reflexivity | discriminate].
  - rewrite str_in_unfold, H. reflexivity.
Qed.

Lemma str_in_app_l w s t : str_in w s = true -> str_in w (s ++ t) = true.
Proof.
  induction s as [|c s IH]; intros H.
  - apply str_in_here. destruct w; [apply prefix_nil_l | discriminate].
  - rewrite str_in_unfold in H. apply orb_true_iff in H. destruct H as [H|H].
    + apply str_in_here. apply prefix_app_r. exact H.
    + change (String c s ++ t) with (String c (s ++ t)).
      apply str_in_cons. apply IH. exact H.
Qed.

Lemma str_in_app_r w s t : str_in w t = true -> str_in w (s ++ t) = true.
Proof.
  intros H. induction s as [|c s IH]; [exact H|].
  change (String c s ++ t) with (String c (s ++ t)).
  apply str_in_cons. exact IH.
Qed.

(** A word occurs in any text built around it. *)
Lemma str_in_middle w a b : str_in w (a ++ w ++ b) = true.
Proof. apply str_in_app_r. apply str_in_here. apply prefix_self_app. Qed.

Lemma str_in_self w : str_in w w = true.
Proof.
  apply str_in_here. induction w as [|a w IH]; [reflexivity|].
  apply prefix_cons. exact IH.
Qed.

(** A character that does not occur in [w] cuts the text in two parts
    that can be searched for [w] one by one. *)
Lemma prefix_cut c w : forall s t,
  has_char c w = false ->
  String.prefix w (s ++ String c t) = String.prefix w s.
Proof.
  induction w as [|a w IH]; intros s t H.
  - rewrite !prefix_nil_l. reflexivity.
  - simpl in H. apply orb_false_iff in H. destruct H as [Hac Hw].
    destruct s as [|x s].
    + simpl. destruct (ascii_dec a c) as [->|Hne]; [|reflexivity].
      rewrite Ascii.eqb_refl in Hac. discriminate.
    + simpl. destruct (ascii_dec a x); [|reflexivity]. apply IH. exact Hw.
Qed.

Lemma str_in_cut c w : forall s t,
  has_char c w = false ->
  str_in w (s ++ String c t) = str_in w s || str_in w t.
Proof.
  intros s t H. induction s as [|x s IH].
  - pose proof (prefix_cut c w EmptyString t H) as P.
    change (EmptyString ++ String c t) with (String c t) in *.
    rewrite str_in_unfold, P. destruct w; reflexivity.
  - pose proof (prefix_cut c w (String x s) t H) as P.
    change (String x s ++ String c t) with (String x (s ++ String c t)) in *.
    rewrite !str_in_unfold, IH, P.
    rewrite orb_assoc. reflexivity.
Qed.

Lemma existsb_filter_length {A} (f : A -> bool) l :
  (1 <=? List.length (filter f l)) = existsb f l.
Proof.
  induction l as [|a l IH]; [reflexivity|].
  simpl. destruct (f a); [reflexivity | exact IH].
Qed.

End StrMore.

(* ================================================================== *)
(** ** The other paths of [search_internal_knowledge]                  *)
(* ================================================================== *)

Module SearchProps.

Import Str StrFacts StrMore Plugin PluginTests SearchViews PluginProps.

(** The four ways out of [search_internal_knowledge], in the order the
    code tries them. *)
Lemma search_outcome self query :
  fst (search self query) =
    if is_empty query then NoQuery
    else if is_greeting (strip (lower query)) then Greeting
    else match keywords_of query with
         | [] => BeSpecific
         | _ =>
             Results
               (fst (scan_policies (keywords_of query) (_policies self))
                ++ fst (scan_products (keywords_of query)
                          (requested_categories query) 0 (_product_data self))
                ++ fst (scan_customers (keywords_of query)
                          (_customer_data self)))%list
         end.
Proof.
  destruct (is_empty query) eqn:Hq.
  - rewrite (search_no_query self _ Hq). reflexivity.
  - destruct (is_greeting (strip (lower query))) eqn:Hg.
    + rewrite (search_greeting self _ Hq Hg). reflexivity.
    + destruct (keywords_of query) as [|k ks] eqn:Hk.
      * rewrite (search_be_specific self _ Hq Hg Hk). reflexivity.
      * assert (Hne : keywords_of query <> []) by congruence.
        pose proof (search_results self _ Hq Hg Hne) as Hs. cbv zeta in Hs.
        rewrite Hs, Hk. reflexivity.
Qed.

Lemma results_inv self query results :
  fst (search self query) = Results results ->
  is_empty query = false
  /\ is_greeting (strip (lower query)) = false
  /\ keywords_of query <> [].
Proof.
  rewrite search_outcome.
  destruct (is_empty query); [discriminate|].
  destruct (is_greeting (strip (lower query))); [discriminate|].
  destruct (keywords_of query); [discriminate|].
  intros _. repeat split. discriminate.
Qed.

Lemma scan_policies_fst keywords policies :
  fst (scan_policies keywords policies) =
    if asks_policy keywords
    then map (fun p => PolicyEntry (fst p) (snd p))
             (filter (policy_hit keywords) policies)
    else [].
Proof.
  unfold scan_policies, asks_policy.
  destruct (existsb _ policy_keywords); [|reflexivity]. cbn [fst].
  induction policies as [|[k c] policies IH]; [reflexivity|].
  cbn [flat_map filter]. rewrite IH. unfold policy_hit at 2. cbn [fst snd].
  destruct (existsb _ keywords); reflexivity.
Qed.

Lemma scan_customers_fst keywords customers :
  fst (scan_customers keywords customers) =
    if asks_customer keywords
    then if 0 <? customer_match_count keywords customers
         then [CustomerCount (customer_match_count keywords customers)]
         else []
    else [].
Proof.
  unfold scan_customers, asks_customer, customer_match_count.
  destruct (existsb _ customer_keywords); reflexivity.
Qed.

Lemma scan_products_entries keywords cats : forall products n,
  n < 8 ->
  Forall (fun e => is_product e = true)
         (fst (scan_products keywords cats n products))
  /\ n + List.length (fst (scan_products keywords cats n products)) <= 8.
Proof.
  induction products as [|[product_id content] products IH]; intros n Hn.
  - simpl. split; [constructor | lia].
  - rewrite scan_products_cons.
    destruct (should_include keywords cats content).
    + destruct (8 <=? n + 1) eqn:Hcap.
      * cbn [fst List.length]. split; [repeat constructor | lia].
      * apply Nat.leb_gt in Hcap. destruct (IH (n + 1)) as [H1 H2]; [lia|].
        destruct (scan_products keywords cats (n + 1) products) as [es vs].
        cbn [fst List.length] in *. split; [constructor; [reflexivity | exact H1] | lia].
    + destruct (IH n Hn) as [H1 H2].
      destruct (scan_products keywords cats n products) as [es vs].
      cbn [fst] in *. split; assumption.
Qed.

Lemma customer_match_count_le keywords customers :
  customer_match_count keywords customers <= List.length customers.
Proof. unfold customer_match_count. apply filter_length_le. Qed.

Lemma render_nonempty e : is_empty (render e) = false.
Proof. destruct e; reflexivity. Qed.

Lemma join_nonempty sep x l : is_empty x = false -> is_empty (join sep (x :: l)) = false.
Proof.
  intros H. unfold join. destruct l; simpl; [exact H | apply is_empty_app; exact H].
Qed.

(** X1. Whatever the knowledge base and the query, the text returned by
    [search_internal_knowledge] is not empty. *)
Theorem search_reply_is_never_empty self query :
  is_empty (search_internal_knowledge self query) = false.
Proof.
  unfold search_internal_knowledge.
  destruct (fst (search self query)) as [| | |results]; try reflexivity.
  destruct results as [|e es]; [reflexivity|].
  cbn [reply_of map]. apply join_nonempty. apply render_nonempty.
Qed.

(** X2. The entries of a result come in three blocks: the policies,
    then at most eight products, then at most one count of matching
    customer records, which is at least one and at most the number of
    customer records. *)
Theorem search_results_are_ordered self query results :
  fst (search self query) = Results results ->
  exists policies products customers,
    results = (policies ++ products ++ customers)%list
    /\ Forall (fun e => is_policy e = true) policies
    /\ Forall (fun e => is_product e = true) products
    /\ List.length products <= 8
    /\ (customers = []
        \/ exists n, customers = [CustomerCount n]
                     /\ 1 <= n <= List.length (_customer_data self)).
Proof.
  intros H. destruct (results_inv _ _ _ H) as (Hq & Hg & Hk).
  rewrite search_outcome, Hq, Hg in H.
  destruct (keywords_of query) as [|k ks] eqn:Ek; [congruence|].
  injection H as <-.
  eexists _, _, _. split; [reflexivity|].
  destruct (scan_products_entries (k :: ks) (requested_categories query)
              (_product_data self) 0) as [Hp Hl]; [lia|].
  split; [|split; [exact Hp|split; [lia|]]].
  - rewrite scan_policies_fst. destruct (asks_policy (k :: ks)); [|constructor].
    apply Forall_forall. intros e He. apply in_map_iff in He.
    destruct He as [p [<- _]]. reflexivity.
  - rewrite scan_customers_fst. destruct (asks_customer (k :: ks)); [|left; reflexivity].
    destruct (0 <? customer_match_count (k :: ks) (_customer_data self)) eqn:Hn;
      [|left; reflexivity].
    right. eexists. split; [reflexivity|]. apply Nat.ltb_lt in Hn.
    pose proof (customer_match_count_le (k :: ks) (_customer_data self)). lia.
Qed.

Lemma search_results_are_ordered_witness :
  exists policies products customers,
    [ PolicyEntry "fraud_protection"
        "Suspicious activities trigger automatic account holds and customer notifications.";
      PolicyEntry "customer_service"
        "All customer inquiries should be handled within 24 hours with full documentation.";
      ProductEntry "1" tent_doc;
      CustomerCount 1 ]
    = (policies ++ products ++ customers)%list
    /\ Forall (fun e => is_policy e = true) policies
    /\ Forall (fun e => is_product e = true) products
    /\ List.length products <= 8
    /\ (customers = []
        \/ exists n, customers = [CustomerCount n]
                     /\ 1 <= n <= List.length (_customer_data demo)).
Proof.
  apply (search_results_are_ordered demo "customer service for tent order").
  vm_compute. reflexivity.
Defined.

Lemma policy_docs_app r1 r2 :
  policy_docs (Results (r1 ++ r2)) =
  (policy_docs (Results r1) ++ policy_docs (Results r2))%list.
Proof. unfold policy_docs. apply flat_map_app. Qed.

Lemma policy_docs_none r :
  Forall (fun e => is_policy e = false) r -> policy_docs (Results r) = [].
Proof.
  unfold policy_docs. induction 1 as [|e r He _ IH]; [reflexivity|].
  simpl. rewrite IH. destruct e; simpl in *; congruence.
Qed.

Lemma policy_docs_entries l :
  policy_docs (Results (map (fun p => PolicyEntry (fst p) (snd p)) l)) = l.
Proof.
  unfold policy_docs. induction l as [|[k c] l IH]; [reflexivity|].
  simpl. rewrite IH. reflexivity.
Qed.

(** X8. The not-found guidance quotes the query as typed, and the words
    "not found" occur in it (in any case) exactly when they occur in the
    query: the guidance itself never says "not found". *)
Theorem not_found_text_says_not_found_only_with_the_query query :
  str_in "not found" (lower (not_found_text query))
  = str_in "not found" (lower query).
Proof.
  unfold not_found_text. rewrite !lower_app.
  change (lower "No specific products found for '")
    with ("no specific products found for " ++ String apostrophe EmptyString).
  change (lower "'. I can help you find camping gear like tents, sleeping bags, backpacks, hiking boots, camping stoves, and outdoor clothing. What are you looking for?")
    with (String apostrophe ". i can help you find camping gear like tents, sleeping bags, backpacks, hiking boots, camping stoves, and outdoor clothing. what are you looking for?").
  rewrite append_assoc.
  change (String apostrophe EmptyString ++ ?x) with (String apostrophe x).
  rewrite (str_in_cut apostrophe "not found") by reflexivity.
  rewrite (str_in_cut apostrophe "not found") by reflexivity.
  rewrite orb_false_r. reflexivity.
Qed.

End SearchProps.

(* ================================================================== *)
(** ** The keyed lookups                                               *)
(* ================================================================== *)

Module LookupProps.

Import Str StrFacts StrMore Plugin PluginTests Lookups Main.

Lemma find_first {A} (f : A -> bool) pre x post :
  f x = true -> (forall y, In y pre -> f y = false) ->
  find f (pre ++ x :: post) = Some x.
Proof.
  intros Hx. induction pre as [|y pre IH]; intros Hpre; simpl.
  - rewrite Hx. reflexivity.
  - rewrite (Hpre y (or_introl eq_refl)). apply IH.
    intros z Hz. apply Hpre. right. exact Hz.
Qed.

Lemma find_nothing {A} (f : A -> bool) l : existsb f l = false -> find f l = None.
Proof.
  induction l as [|x l IH]; [reflexivity|]. simpl.
  destruct (f x); [discriminate | exact IH].
Qed.

(** X10. [get_banking_policy] returns the first policy, in load order,
    whose lower-cased key contains the lower-cased argument; looked up
    by its own key, in any letter case, a policy is returned unless the
    key also occurs in the key of an earlier policy. *)
Theorem get_banking_policy_returns_first_match self policy_type pre p post :
  _policies self = (pre ++ p :: post)%list ->
  is_empty policy_type = false ->
  str_in (lower policy_type) (lower (fst p)) = true ->
  (forall q, In q pre -> str_in (lower policy_type) (lower (fst q)) = false) ->
  get_banking_policy self policy_type
  = "Policy for " ++ fst p ++ ": " ++ snd p.
Proof.
  intros E Hne Hp Hpre. unfold get_banking_policy. rewrite Hne, E.
  rewrite (find_first (policy_matches policy_type) pre p post Hp Hpre).
  reflexivity.
Qed.

Lemma get_banking_policy_returns_first_match_witness :
  get_banking_policy demo "LOAN"
  = "Policy for loan_approval: Loans require income verification, credit score above 650, and debt-to-income ratio below 40%.".
Proof.
  apply (get_banking_policy_returns_first_match demo "LOAN"
           [("account_opening", "New accounts require ID verification, credit check, and minimum deposit of $100.")]
           ("loan_approval", "Loans require income verification, credit score above 650, and debt-to-income ratio below 40%.")
           (skipn 2 _load_banking_policies)).
  - reflexivity.
  - reflexivity.
  - reflexivity.
  - intros q [<-|[]]. reflexivity.
Defined.

End LookupProps.

(* ================================================================== *)
(** ** One request, call by call                                       *)
(* ================================================================== *)

Module RequestProps.

Import Str StrFacts StrMore Plugin PluginTests Main MainTests.
Import PollProps HandlerProps HandlerViews.

(** Step 2 in full: its calls and the fragment it leaves. *)
Lemma step2_exact g user_message w :
  step2 g user_message (internal_response_of g user_message) w
  = (add_calls (external_calls g user_message) w,
     Ok (agent_fragment (external_response g user_message))).
Proof.
  unfold step2, external_calls, external_response, use_external. cbv zeta.
  destruct (agent g) as [a|]; [|rewrite add_calls_nil; reflexivity].
  destruct (ai_project_client g) as [client|]; [|rewrite add_calls_nil; reflexivity].
  destruct (needs_web_search user_message
            || negb (truthy (internal_response_of g user_message)));
    [|rewrite add_calls_nil; reflexivity].
  unfold delegate, try_except, bind. rewrite call_eq.
  destruct (create_thread_and_run client (agent_id a) _) as [run_result|e];
    [|reflexivity].
  rewrite log_eq, call_eq.
  destruct (messages_list client (thread_id run_result) _) as [messages|e];
    unfold ret; rewrite !add_calls_add; reflexivity.
Qed.

(** A started request in full. *)
Lemma handle_exact g user_message thread_id :
  started g thread_id = true ->
  handle g user_message thread_id
  = ({| calls := (time_calls thread_id ++ search_calls g user_message
                  ++ external_calls g user_message)%list;
        yielded := [CompletedMessage
                      (compose (internal_response_of g user_message)
                               (external_response g user_message));
                    StreamEnd] |}, Ok tt).
Proof.
  intros Hs. unfold handle, stream_agent_response.
  assert (E : answer g user_message thread_id new_world
              = (add_calls (time_calls thread_id ++ search_calls g user_message
                            ++ external_calls g user_message) new_world,
                 Ok (compose (internal_response_of g user_message)
                             (external_response g user_message)))).
  { unfold answer.
    destruct (ensure_thread_spec g thread_id new_world) as [[_ E]|[Hn _]];
      [|congruence].
    rewrite (bind_ok _ _ _ _ _ E).
    rewrite (bind_ok _ _ _ _ _ (step1_spec g user_message _)).
    rewrite (bind_ok _ _ _ _ _ (step2_exact g user_message _)).
    unfold ret. rewrite !add_calls_add. reflexivity. }
  erewrite try_ok; [reflexivity|].
  rewrite (bind_ok _ _ _ _ _ E). reflexivity.
Qed.

Lemma handle_not_started g user_message thread_id :
  started g thread_id = false ->
  handle g user_message thread_id
  = ({| calls := [LoopTime];
        yielded := [CompletedMessage error_message; StreamEnd] |}, Ok tt).
Proof.
  intros Hs. destruct (handle_spec g user_message thread_id)
    as [[_ E]|[Hn _]]; [exact E | congruence].
Qed.

(** **** The extraction of the answer *)

Lemma extract_spec : forall messages agent_response,
  truthy agent_response = false ->
  agent_fragment (extract messages agent_response) =
    match find speaks messages with
    | Some message =>
        ["**AI Assistant with Bing:** " ++ text_of (first_text (content message))]
    | None => []
    end.
Proof.
  induction messages as [|message messages IH]; intros agent_response Hf.
  - simpl. unfold agent_fragment. destruct agent_response; [rewrite Hf|]; reflexivity.
  - cbn [extract find]. unfold speaks at 1.
    destruct (String.eqb (role message) "assistant"
              && negb (is_nil (content message))) eqn:Hm; cbn [andb].
    + destruct (first_text (content message)) as [value|] eqn:Ht.
      * destruct (truthy (Some value)) eqn:Hv.
        -- unfold agent_fragment. rewrite Hv. cbv beta iota.
           rewrite Ht. reflexivity.
        -- apply IH. exact Hv.
      * rewrite Hf. cbn [truthy]. apply IH. exact Hf.
    + apply IH. exact Hf.
Qed.

(** X12. The text taken from the thread is that of the first message,
    in the order listed, that has the role "assistant", some content
    and a non-empty text in its first content item that has a text;
    messages of other roles, empty ones and the later text items of a
    message are passed over. Without such a message nothing is taken. *)
Theorem extract_takes_first_speaking_message messages :
  agent_fragment (extract messages None) =
    match find speaks messages with
    | Some message =>
        ["**AI Assistant with Bing:** " ++ text_of (first_text (content message))]
    | None => []
    end.
Proof. apply extract_spec. reflexivity. Qed.

Example extract_hesitant :
  extract hesitant None = Some "Nothing new."
  /\ extract [] None = None
  /\ extract (firstn 3 hesitant) None = Some EmptyString.
Proof. repeat split. Qed.

(** **** What is submitted *)

Lemma external_query_has_no_internal_response g user_message :
  is_external_query user_message = true ->
  internal_response_of g user_message = None.
Proof.
  intros H. unfold internal_response_of. rewrite H.
  destruct (internal_plugin g); [|reflexivity].
  rewrite andb_false_r. reflexivity.
Qed.

Lemma internal_response_usable g user_message r :
  internal_response_of g user_message = Some r -> truthy (Some r) = true.
Proof.
  unfold internal_response_of.
  destruct (internal_plugin g) as [plugin|]; [|discriminate].
  destruct (kernel g && negb (is_external_query user_message)); [|discriminate].
  destruct (plugin user_message) as [ctx|e]; [|discriminate].
  destruct (usable (Some ctx)) eqn:Hu; [|discriminate].
  intros H. injection H as <-. unfold usable in Hu.
  apply andb_true_iff in Hu. apply Hu.
Qed.

Lemma external_needs_no_internal g user_message :
  use_external g user_message (internal_response_of g user_message) = true ->
  internal_response_of g user_message = None.
Proof.
  intros Hu. destruct (internal_response_of g user_message) as [r|] eqn:E;
    [|reflexivity].
  pose proof (internal_response_usable _ _ _ E) as Ht.
  rewrite <- E in Ht, Hu. rewrite (internal_hit_skips_external _ _ Ht) in Hu.
  discriminate.
Qed.

Lemma external_calls_shape g user_message :
  external_calls g user_message = []
  \/ exists tail,
       external_calls g user_message
       = CreateThreadAndRun (enhanced_message_of user_message None) :: tail
       /\ Forall (fun c => is_plain c = true) tail.
Proof.
  unfold external_calls. cbv zeta.
  destruct (agent g) as [a|] eqn:Ha; [|left; reflexivity].
  destruct (ai_project_client g) as [client|] eqn:Hc; [|left; reflexivity].
  destruct (use_external g user_message (internal_response_of g user_message))
    eqn:Hu; [|left; reflexivity].
  rewrite (external_needs_no_internal _ _ Hu). right.
  destruct (create_thread_and_run client (agent_id a) _) as [run_result|e].
  - eexists. split; [reflexivity|].
    apply Forall_app. split; [apply poll_calls_plain | repeat constructor].
  - eexists. split; [reflexivity | constructor].
Qed.

(** X13. Whatever is submitted to the external service is the prompt
    built from the user message alone: the variant of the prompt that
    carries the internal knowledge (lines 203-209) is never sent, as a
    run is only submitted when step 1 left no internal response. *)
Theorem submitted_prompt_never_carries_internal_knowledge
        g user_message thread_id enhanced_message :
  In (CreateThreadAndRun enhanced_message) (trace g user_message thread_id) ->
  enhanced_message = enhanced_message_of user_message None
  /\ internal_response_of g user_message = None.
Proof.
  intros Hin. unfold trace in Hin.
  destruct (started g thread_id) eqn:Hs.
  - rewrite (handle_exact _ _ _ Hs) in Hin. cbn [fst calls] in Hin.
    apply in_app_or in Hin. destruct Hin as [Hin|Hin].
    { pose proof (plain_no_submit _ (time_calls_plain thread_id)) as Hp.
      rewrite Forall_forall in Hp. specialize (Hp _ Hin). discriminate. }
    apply in_app_or in Hin. destruct Hin as [Hin|Hin].
    { pose proof (search_calls_no_submit g user_message) as Hp.
      rewrite Forall_forall in Hp. specialize (Hp _ Hin). discriminate. }
    assert (Hu : use_external g user_message
                   (internal_response_of g user_message) = true).
    { destruct (use_external g user_message (internal_response_of g user_message))
        eqn:Hu; [reflexivity|].
      unfold external_calls in Hin. cbv zeta in Hin. rewrite Hu in Hin.
      destruct (agent g); [|destruct Hin].
      destruct (ai_project_client g); destruct Hin. }
    split; [|apply external_needs_no_internal; exact Hu].
    destruct (external_calls_shape g user_message) as [E|[tail [E Hp]]];
      rewrite E in Hin; [destruct Hin|].
    destruct Hin as [Hin|Hin]; [congruence|].
    apply plain_no_submit in Hp. rewrite Forall_forall in Hp.
    specialize (Hp _ Hin). discriminate.
  - rewrite (handle_not_started _ _ _ Hs) in Hin. cbn [fst calls] in Hin.
    destruct Hin as [Hin|[]]. discriminate.
Qed.

Lemma submitted_prompt_never_carries_internal_knowledge_witness :
  In (CreateThreadAndRun (enhanced_message_of "latest tent news" None))
     (trace (wired quick) "latest tent news" None)
  /\ internal_response_of (wired quick) "latest tent news" = None.
Proof.
  assert (H : In (CreateThreadAndRun (enhanced_message_of "latest tent news" None))
                 (trace (wired quick) "latest tent news" None))
    by (vm_compute; right; left; reflexivity).
  split; [exact H|].
  apply (submitted_prompt_never_carries_internal_knowledge _ _ _ _ H).
Defined.

(** **** What a request costs *)

Lemma count_app kind cs cs' :
  count kind (cs ++ cs') = count kind cs + count kind cs'.
Proof. unfold count. rewrite filter_app, length_app. reflexivity. Qed.

Lemma slept_seconds_app cs cs' :
  slept_seconds (cs ++ cs') = (slept_seconds cs + slept_seconds cs')%Z.
Proof.
  induction cs as [|c cs IH]; [reflexivity|].
  destruct c; cbn [app slept_seconds]; rewrite IH; lia.
Qed.

Lemma rounds_cost n :
  slept_seconds (rounds n) = (wait_interval * Z.of_nat n)%Z
  /\ count is_runs_get (rounds n) = n
  /\ count is_search (rounds n) = 0
  /\ count is_submit (rounds n) = 0
  /\ count is_messages_list (rounds n) = 0
  /\ count is_loop_time (rounds n) = 0.
Proof.
  induction n as [|n (H1 & H2 & H3 & H4 & H5 & H6)].
  - repeat split.
  - rewrite rounds_S, slept_seconds_app, !count_app, H1, H2, H3, H4, H5, H6.
    unfold wait_interval. cbn [slept_seconds count filter List.length
      is_runs_get is_search is_submit is_messages_list is_loop_time].
    repeat split; lia.
Qed.

Lemma poll_cost client run_result :
  let cs := poll_calls (poll_loop client run_result poll_init) in
  (0 <= slept_seconds cs <= max_wait_time)%Z
  /\ count is_runs_get cs <= 15
  /\ count is_search cs = 0
  /\ count is_submit cs = 0
  /\ count is_messages_list cs = 0
  /\ count is_loop_time cs = 0.
Proof.
  intros cs. subst cs.
  destruct (poll_loop_leaves client run_result 15 poll_init eq_refl polling_init)
    as [Hc _ _ _ [H|[k [Hk H]]] _]; rewrite H.
  - destruct (rounds_cost (checks (poll_loop client run_result poll_init)))
      as (H1 & H2 & H3 & H4 & H5 & H6).
    rewrite H1, H2, H3, H4, H5, H6.
    unfold wait_interval, max_wait_time. repeat split; lia.
  - destruct (rounds_cost k) as (H1 & H2 & H3 & H4 & H5 & H6).
    rewrite slept_seconds_app, !count_app, H1, H2, H3, H4, H5, H6.
    unfold wait_interval, max_wait_time.
    cbn [slept_seconds count filter List.length
      is_runs_get is_search is_submit is_messages_list is_loop_time].
    repeat split; lia.
Qed.

(** X14. One request calls the event-loop clock, the internal lookup,
    the submission and the message listing at most once each, checks
    the run status at most fifteen times and sleeps thirty units at
    most. *)
Theorem request_cost_is_bounded g user_message thread_id :
  let cs := trace g user_message thread_id in
  count is_loop_time cs <= 1
  /\ count is_search cs <= 1
  /\ count is_submit cs <= 1
  /\ count is_runs_get cs <= 15
  /\ count is_messages_list cs <= 1
  /\ (0 <= slept_seconds cs <= 30)%Z.
Proof.
  intros cs. subst cs. unfold trace.
  destruct (started g thread_id) eqn:Hs.
  2:{ rewrite (handle_not_started _ _ _ Hs). cbn. repeat split; lia. }
  rewrite (handle_exact _ _ _ Hs). cbn [fst calls].
  rewrite !slept_seconds_app, !count_app.
  assert (Ht : slept_seconds (time_calls thread_id) = 0%Z
               /\ count is_loop_time (time_calls thread_id) <= 1
               /\ count is_search (time_calls thread_id) = 0
               /\ count is_submit (time_calls thread_id) = 0
               /\ count is_runs_get (time_calls thread_id) = 0
               /\ count is_messages_list (time_calls thread_id) = 0).
  { unfold time_calls. destruct (truthy thread_id); cbn; repeat split; lia. }
  assert (Hi : slept_seconds (search_calls g user_message) = 0%Z
               /\ count is_loop_time (search_calls g user_message) = 0
               /\ count is_search (search_calls g user_message) <= 1
               /\ count is_submit (search_calls g user_message) = 0
               /\ count is_runs_get (search_calls g user_message) = 0
               /\ count is_messages_list (search_calls g user_message) = 0).
  { unfold search_calls. destruct (searches g user_message); cbn; repeat split; lia. }
  assert (He : (0 <= slept_seconds (external_calls g user_message) <= 30)%Z
               /\ count is_loop_time (external_calls g user_message) = 0
               /\ count is_search (external_calls g user_message) = 0
               /\ count is_submit (external_calls g user_message) <= 1
               /\ count is_runs_get (external_calls g user_message) <= 15
               /\ count is_messages_list (external_calls g user_message) <= 1).
  { unfold external_calls. cbv zeta.
    destruct (agent g) as [a|]; [|cbn; repeat split; lia].
    destruct (ai_project_client g) as [client|]; [|cbn; repeat split; lia].
    destruct (use_external g user_message _); [|cbn; repeat split; lia].
    destruct (create_thread_and_run client (agent_id a) _) as [run_result|e];
      [|cbn; repeat split; lia].
    destruct (poll_cost client run_result) as (P1 & P2 & P3 & P4 & P5 & P6).
    unfold max_wait_time in P1.
    change (CreateThreadAndRun ?p :: ?l) with ([CreateThreadAndRun p] ++ l)%list.
    rewrite !slept_seconds_app, !count_app, P3, P4, P5, P6.
    cbn [slept_seconds count filter List.length
      is_runs_get is_search is_submit is_messages_list is_loop_time].
    repeat split; lia. }
  destruct Ht as (T1 & T2 & T3 & T4 & T5 & T6).
  destruct Hi as (I1 & I2 & I3 & I4 & I5 & I6).
  destruct He as (E1 & E2 & E3 & E4 & E5 & E6).
  repeat split; lia.
Qed.

(** **** Where the reply comes from *)

Lemma external_response_needs_submission g user_message r :
  external_response g user_message = Some r ->
  Exists (fun c => is_submit c = true) (external_calls g user_message).
Proof.
  unfold external_response, external_calls. cbv zeta.
  destruct (agent g) as [a|]; [|discriminate].
  destruct (ai_project_client g) as [client|]; [|discriminate].
  destruct (use_external g user_message _); [|discriminate].
  destruct (create_thread_and_run client (agent_id a) _) as [run_result|e];
    [|discriminate].
  intros _. constructor. reflexivity.
Qed.

Lemma internal_response_source g user_message r :
  internal_response_of g user_message = Some r ->
  searches g user_message = true
  /\ exists plugin, internal_plugin g = Some plugin /\ plugin user_message = Ok r.
Proof.
  unfold internal_response_of, searches.
  destruct (internal_plugin g) as [plugin|]; [|discriminate].
  destruct (kernel g && negb (is_external_query user_message)); [|discriminate].
  destruct (plugin user_message) as [ctx|e] eqn:Hp; [|discriminate].
  destruct (usable (Some ctx)); [|discriminate].
  intros H. injection H as <-. split; [reflexivity|].
  exists plugin. auto.
Qed.

(** X15. The reply of a started request names its source: it is the
    text extracted from the thread of a submitted run behind the label
    "**AI Assistant with Bing:** ", or the answer of the plugin, as
    returned, behind "**Internal Knowledge:** " in a request that
    submitted no run, or the fallback text. *)
Theorem reply_names_its_source g user_message thread_id :
  started g thread_id = true ->
  exists content,
    events g user_message thread_id = [CompletedMessage content; StreamEnd]
    /\ ((exists r,
           content = "**AI Assistant with Bing:** " ++ r
           /\ is_empty r = false
           /\ external_response g user_message = Some r
           /\ Exists (fun c => is_submit c = true)
                     (trace g user_message thread_id))
        \/ (exists r plugin,
              content = "**Internal Knowledge:** " ++ r
              /\ is_empty r = false
              /\ internal_plugin g = Some plugin
              /\ plugin user_message = Ok r
              /\ In (SearchInternal user_message)
                    (trace g user_message thread_id)
              /\ Forall (fun c => is_submit c = false)
                        (trace g user_message thread_id))
        \/ content = fallback_response).
Proof.
  intros Hs. unfold events, trace. rewrite (handle_exact _ _ _ Hs).
  cbn [fst yielded calls]. eexists. split; [reflexivity|].
  rewrite compose_spec.
  destruct (external_response g user_message) as [r|] eqn:Er.
  - destruct (truthy (Some r)) eqn:Hr.
    + left. exists r. split; [reflexivity|].
      split; [apply negb_true_iff; exact Hr|]. split; [reflexivity|].
      apply Exists_app. right. apply Exists_app. right.
      apply (external_response_needs_submission _ _ _ Er).
    + destruct (internal_response_of g user_message) as [i|] eqn:Ei.
      * pose proof (internal_response_usable _ _ _ Ei) as Hi.
        assert (Hu : use_external g user_message (internal_response_of g user_message)
                     = false)
          by (apply internal_hit_skips_external; rewrite Ei; exact Hi).
        unfold external_response in Er. cbv zeta in Er. rewrite Hu in Er.
        destruct (agent g); [|discriminate].
        destruct (ai_project_client g); discriminate.
      * right. right. reflexivity.
  - cbn [truthy].
    destruct (internal_response_of g user_message) as [i|] eqn:Ei;
      [|right; right; reflexivity].
    pose proof (internal_response_usable _ _ _ Ei) as Hi. rewrite Hi.
    right. left.
    destruct (internal_response_source _ _ _ Ei) as (Hsearch & plugin & Hp & Hr).
    exists i, plugin. split; [reflexivity|].
    split; [apply negb_true_iff; exact Hi|]. split; [exact Hp|].
    split; [exact Hr|].
    assert (Hu : use_external g user_message (internal_response_of g user_message)
                 = false)
      by (apply internal_hit_skips_external; rewrite Ei; exact Hi).
    assert (He : external_calls g user_message = []).
    { unfold external_calls. cbv zeta. rewrite Hu.
      destruct (agent g); [|reflexivity].
      destruct (ai_project_client g); reflexivity. }
    rewrite He, app_nil_r. split.
    + apply in_or_app. right. unfold search_calls. rewrite Hsearch.
      left. reflexivity.
    + apply Forall_app. split.
      * apply plain_no_submit, time_calls_plain.
      * apply search_calls_no_submit.
Qed.

Lemma reply_names_its_source_witness :
  exists content,
    events (wired quick) "what tents do you have" None
    = [CompletedMessage content; StreamEnd]
    /\ ((exists r,
           content = "**AI Assistant with Bing:** " ++ r
           /\ is_empty r = false
           /\ external_response (wired quick) "what tents do you have" = Some r
           /\ Exists (fun c => is_submit c = true)
                     (trace (wired quick) "what tents do you have" None))
        \/ (exists r plugin,
              content = "**Internal Knowledge:** " ++ r
              /\ is_empty r = false
              /\ internal_plugin (wired quick) = Some plugin
              /\ plugin "what tents do you have" = Ok r
              /\ In (SearchInternal "what tents do you have")
                    (trace (wired quick) "what tents do you have" None)
              /\ Forall (fun c => is_submit c = false)
                        (trace (wired quick) "what tents do you have" None))
        \/ content = fallback_response).
Proof.
  apply (reply_names_its_source (wired quick) "what tents do you have" None).
  reflexivity.
Defined.

(** X16. The status of the run is not consulted when the answer is
    taken: once a run is submitted for a message that asks for a web
    search, the reply is composed from the messages listed for the
    thread, whatever the status checks answered - a run that failed,
    expired, never finished or could not be checked is read like a
    completed one. *)
Theorem run_status_is_not_consulted
        g user_message thread_id a client run_result messages :
  started g thread_id = true ->
  agent g = Some a ->
  ai_project_client g = Some client ->
  needs_web_search user_message = true ->
  create_thread_and_run client (agent_id a)
    (enhanced_message_of user_message None) = Ok run_result ->
  (forall k, messages_list client (Main.thread_id run_result) k = Ok messages) ->
  events g user_message thread_id
  = [CompletedMessage (compose None (extract messages None)); StreamEnd].
Proof.
  intros Hs Ha Hc Hw Hcreate Hm. unfold events.
  rewrite (handle_exact _ _ _ Hs). cbn [fst yielded].
  pose proof (external_query_has_no_internal_response g _
                (needs_web_search_is_external _ Hw)) as Hi.
  unfold external_response. cbv zeta. rewrite Hi, Ha, Hc.
  unfold use_external. rewrite Ha, Hc, Hw. cbn [orb].
  rewrite Hcreate, Hm. reflexivity.
Qed.

Lemma run_status_is_not_consulted_witness :
  runs_get failing run_1 0 = Ok "failed"
  /\ events (wired failing) "latest news" None
     = [CompletedMessage "**AI Assistant with Bing:** Sunny, 21 C."; StreamEnd].
Proof.
  split; [reflexivity|].
  apply (run_status_is_not_consulted (wired failing) "latest news" None
           {| agent_id := "asst_1" |} failing run_1 sunny);
    reflexivity.
Defined.

(** **** A plugin that raises *)

(** X17. An exception of the internal lookup is absorbed in step 1: the
    request makes the same calls and sends the same events as if the
    plugin had returned an empty text. *)
Theorem plugin_exception_is_an_empty_answer
        g user_message thread_id plugin e :
  internal_plugin g = Some plugin ->
  plugin user_message = Raise e ->
  handle g user_message thread_id
  = handle (with_plugin g (Some (fun _ => Ok EmptyString)))
           user_message thread_id.
Proof.
  intros Hp He.
  set (g' := with_plugin g (Some (fun _ => Ok EmptyString))).
  assert (Hi : internal_response_of g user_message = None).
  { unfold internal_response_of. rewrite Hp, He.
    destruct (kernel g && negb (is_external_query user_message)); reflexivity. }
  assert (Hi' : internal_response_of g' user_message = None).
  { unfold internal_response_of, g'. cbn [with_plugin internal_plugin kernel].
    destruct (kernel g && negb (is_external_query user_message)); reflexivity. }
  assert (Hsc : search_calls g' user_message = search_calls g user_message).
  { unfold search_calls, searches, g'. cbn [with_plugin internal_plugin kernel].
    rewrite Hp. reflexivity. }
  assert (Hec : external_calls g' user_message = external_calls g user_message).
  { unfold external_calls, use_external. cbv zeta. rewrite Hi, Hi'. reflexivity. }
  assert (Her : external_response g' user_message = external_response g user_message).
  { unfold external_response, use_external. cbv zeta. rewrite Hi, Hi'. reflexivity. }
  assert (Hst : started g' thread_id = started g thread_id) by reflexivity.
  destruct (started g thread_id) eqn:Hs.
  - rewrite (handle_exact g _ _ Hs), (handle_exact g' _ _ Hst).
    rewrite Hsc, Hec, Her, Hi, Hi'. reflexivity.
  - rewrite (handle_not_started g _ _ Hs), (handle_not_started g' _ _ Hst).
    reflexivity.
Qed.

Lemma plugin_exception_is_an_empty_answer_witness :
  handle (with_plugin (wired quick) (Some crashing)) "what tents do you have" None
  = handle (with_plugin (with_plugin (wired quick) (Some crashing))
                        (Some (fun _ => Ok EmptyString)))
           "what tents do you have" None.
Proof.
  apply (plugin_exception_is_an_empty_answer
           (with_plugin (wired quick) (Some crashing))
           "what tents do you have" None crashing "KeyError");
    reflexivity.
Defined.

Example crashing_plugin_falls_back_to_the_agent :
  events (with_plugin (wired quick) (Some crashing)) "what tents do you have" None
  = [CompletedMessage "**AI Assistant with Bing:** Sunny, 21 C."; StreamEnd].
Proof. vm_compute. reflexivity. Qed.

End RequestProps.

(* ================================================================== *)
(** ** The events as sent                                              *)
(* ================================================================== *)

Module SseProps.

Import Str StrFacts StrMore Main MainTests SearchViews Sse.

Lemma all_printable_app a b :
  all_printable (a ++ b) = all_printable a && all_printable b.
Proof.
  induction a as [|c a IH]; [reflexivity|].
  simpl. rewrite IH. apply andb_assoc.
Qed.

Lemma all_printable_concat l :
  Forall (fun s => all_printable s = true) l ->
  all_printable (String.concat EmptyString l) = true.
Proof.
  induction 1 as [|s l Hs _ IH]; [reflexivity|].
  destruct l as [|s' l]; [exact Hs|].
  change (String.concat EmptyString (s :: s' :: l))
    with (s ++ EmptyString ++ String.concat EmptyString (s' :: l)).
  rewrite !all_printable_app, Hs, IH. reflexivity.
Qed.

Lemma hex_digit_printable d : (d < 16)%N -> printable (hex_digit d) = true.
Proof.
  intros H. destruct d as [|p]; [reflexivity|].
  do 4 (destruct p as [p|p|]; try reflexivity); lia.
Qed.

Lemma hex4_printable n : all_printable (hex4 n) = true.
Proof.
  unfold hex4. cbn [all_printable].
  rewrite !hex_digit_printable; [reflexivity | | | |];
    apply N.mod_lt; discriminate.
Qed.

Lemma json_char_printable cp : all_printable (json_char cp) = true.
Proof.
  unfold json_char.
  repeat (match goal with
          | |- context [if (?a =? ?b)%N then _ else _] =>
              destruct (a =? b)%N; [reflexivity|]
          end).
  destruct ((32 <=? cp)%N && (cp <=? 126)%N) eqn:Hp.
  - apply andb_true_iff in Hp. destruct Hp as [H1 H2].
    apply N.leb_le in H1. apply N.leb_le in H2.
    cbn [all_printable]. unfold printable.
    rewrite N_ascii_embedding by lia.
    rewrite (proj2 (N.leb_le _ _) H1), (proj2 (N.leb_le _ _) H2). reflexivity.
  - destruct (cp <? 65536)%N.
    + rewrite all_printable_app, hex4_printable. reflexivity.
    + cbv zeta. rewrite !all_printable_app, !hex4_printable. reflexivity.
Qed.

Lemma printable_has_no_line_feed s :
  all_printable s = true -> has_char LF s = false.
Proof.
  induction s as [|c s IH]; [reflexivity|].
  cbn [all_printable has_char]. intros H. apply andb_true_iff in H.
  destruct H as [Hc Hs]. rewrite (IH Hs), orb_false_r.
  destruct (Ascii.eqb c LF) eqn:E; [|reflexivity].
  apply Ascii.eqb_eq in E. subst c. discriminate.
Qed.

Lemma json_string_printable s js :
  json_string s = Some js -> all_printable js = true.
Proof.
  unfold json_string. destruct (code_points s) as [cps|]; [|discriminate].
  intros H.
  assert (E : js = quote ++ String.concat EmptyString (map json_char cps) ++ quote)
    by congruence.
  subst js.
  rewrite !all_printable_app, all_printable_concat; [reflexivity|].
  apply Forall_forall. intros x Hx. apply in_map_iff in Hx.
  destruct Hx as [cp [<- _]]. apply json_char_printable.
Qed.

(** X18. What [serialize_sse_event] writes for an event is one
    server-sent-event frame: the text "data: ", then a payload made of
    printable ASCII characters only - no line break and no raw
    non-ASCII byte, whatever the reply holds - then one empty line. *)
Theorem serialized_event_is_one_frame e frame :
  serialize_sse_event e = Some frame ->
  exists payload,
    frame = "data: " ++ payload ++ newline ++ newline
    /\ json_dumps e = Some payload
    /\ all_printable payload = true
    /\ has_char LF payload = false.
Proof.
  unfold serialize_sse_event.
  destruct (json_dumps e) as [payload|] eqn:Hj; [|discriminate].
  intros H. injection H as <-. exists payload.
  split; [reflexivity|]. split; [reflexivity|].
  assert (Hp : all_printable payload = true).
  { destruct e as [content|]; cbn [json_dumps] in Hj.
    - destruct (json_string content) as [js|] eqn:Hs; [|discriminate].
      assert (E : payload =
                  "{" ++ quote ++ "content" ++ quote ++ ": " ++ js
                  ++ ", " ++ quote ++ "annotations" ++ quote ++ ": []"
                  ++ ", " ++ quote ++ "type" ++ quote ++ ": "
                  ++ quote ++ "completed_message" ++ quote ++ "}")
        by congruence.
      subst payload.
      rewrite !all_printable_app, (json_string_printable _ _ Hs). reflexivity.
    - injection Hj as <-. reflexivity. }
  split; [exact Hp | apply printable_has_no_line_feed; exact Hp].
Qed.

Lemma serialized_event_is_one_frame_witness :
  exists frame payload,
    serialize_sse_event (CompletedMessage fallback_response) = Some frame
    /\ frame = "data: " ++ payload ++ newline ++ newline
    /\ json_dumps (CompletedMessage fallback_response) = Some payload
    /\ all_printable payload = true
    /\ has_char LF payload = false.
Proof.
  destruct (serialize_sse_event (CompletedMessage fallback_response))
    as [frame|] eqn:E; [|vm_compute in E; discriminate].
  destruct (serialized_event_is_one_frame _ _ E) as (payload & H).
  exists frame, payload. split; [reflexivity | exact H].
Defined.

Example stream_end_frame :
  serialize_sse_event StreamEnd
  = Some ("data: {" ++ quote ++ "type" ++ quote ++ ": " ++ quote
          ++ "stream_end" ++ quote ++ "}" ++ newline ++ newline).
Proof. reflexivity. Qed.

Example escaped_reply :
  json_string ("Rain • 5" ++ newline ++ "é" ++ quote)
  = Some (quote ++ "Rain \u2022 5\n\u00e9\" ++ quote ++ quote).
Proof. vm_compute. reflexivity. Qed.

End SseProps.

(* ================================================================== *)
(** ** Loading the product documents                                   *)
(* ================================================================== *)

Module LoaderProps.

Import Str StrFacts StrMore Main SearchViews Lookups Loader.

Lemma append_nil_r s : s ++ EmptyString = s.
Proof. induction s as [|c s IH]; simpl; [reflexivity | rewrite IH; reflexivity]. Qed.

Lemma replace_from_skip old new : forall a rest,
  replace_from old new (String.length a) (a ++ rest)
  = replace_from old new 0 rest.
Proof.
  induction a as [|c a IH]; intros rest; [reflexivity|].
  destruct rest as [|r rest'] eqn:E; simpl; apply IH.
Qed.

(** An occurrence at the front is replaced and the rest is gone
    through. *)
Lemma replace_front old new rest :
  is_empty old = false ->
  replace old new (old ++ rest) = new ++ replace old new rest.
Proof.
  intros H. unfold replace. destruct old as [|c o]; [discriminate|].
  change (String c o ++ rest) with (String c (o ++ rest)).
  cbn [replace_from].
  change (String c (o ++ rest)) with (String c o ++ rest).
  rewrite prefix_self_app.
  replace (String.length (String c o) - 1) with (String.length o)
    by (cbn [String.length]; lia).
  rewrite replace_from_skip. reflexivity.
Qed.

Lemma prefix_needs_head c o x s :
  Ascii.eqb x c = false -> String.prefix (String c o) (String x s) = false.
Proof.
  intros H. simpl. destruct (ascii_dec c x) as [->|_]; [|reflexivity].
  rewrite Ascii.eqb_refl in H. discriminate.
Qed.

(** Where the first character of [old] does not occur, nothing is
    replaced. *)
Lemma replace_passes c o new : forall stem rest,
  has_char c stem = false ->
  replace (String c o) new (stem ++ rest)
  = stem ++ replace (String c o) new rest.
Proof.
  unfold replace. induction stem as [|x stem IH]; intros rest H; [reflexivity|].
  cbn [has_char] in H. apply orb_false_iff in H. destruct H as [Hx Hs].
  change (String x stem ++ rest) with (String x (stem ++ rest)).
  cbn [replace_from]. rewrite (prefix_needs_head _ _ _ _ Hx).
  rewrite (IH rest Hs). reflexivity.
Qed.

Lemma endswith_app w : forall a, endswith w (a ++ w) = true.
Proof.
  induction a as [|c a IH].
  - change (EmptyString ++ w) with w.
    destruct w; cbn [endswith]; rewrite String.eqb_refl; reflexivity.
  - change (String c a ++ w) with (String c (a ++ w)).
    cbn [endswith]. rewrite IH. apply orb_true_r.
Qed.

(** X19. A file named "product_info_<stem>.md" is taken as a product
    document and its identifier is the stem, when the stem holds
    neither the letter "p" nor a dot (as for the numbered files of the
    repository): the document read from it is stored under that
    identifier. *)
Theorem product_file_is_loaded_under_its_stem stem content :
  has_char "p" stem = false ->
  has_char "." stem = false ->
  is_product_file ("product_info_" ++ stem ++ ".md") = true
  /\ product_id_of ("product_info_" ++ stem ++ ".md") = stem
  /\ _load_product_data (Ok [("product_info_" ++ stem ++ ".md", Ok content)])
     = [(stem, content)].
Proof.
  intros Hp Hd.
  assert (Hfile : is_product_file ("product_info_" ++ stem ++ ".md") = true).
  { unfold is_product_file, startswith. rewrite prefix_self_app.
    rewrite <- append_assoc. rewrite endswith_app. reflexivity. }
  assert (Hid : product_id_of ("product_info_" ++ stem ++ ".md") = stem).
  { unfold product_id_of.
    rewrite replace_front by reflexivity.
    rewrite (replace_passes "p" "roduct_info_" EmptyString stem ".md" Hp).
    change (replace "product_info_" EmptyString ".md") with ".md".
    change (EmptyString ++ ?x) with x.
    rewrite (replace_passes "." "md" EmptyString stem ".md" Hd).
    change (replace ".md" EmptyString ".md") with EmptyString.
    apply append_nil_r. }
  split; [exact Hfile|]. split; [exact Hid|].
  cbn [_load_product_data load_products]. rewrite Hfile, Hid. reflexivity.
Qed.

Lemma product_file_is_loaded_under_its_stem_witness :
  is_product_file ("product_info_" ++ "12" ++ ".md") = true
  /\ product_id_of ("product_info_" ++ "12" ++ ".md") = "12"
  /\ _load_product_data (Ok [("product_info_" ++ "12" ++ ".md", Ok "# Tent")])
     = [("12", "# Tent")].
Proof.
  apply (product_file_is_loaded_under_its_stem "12" "# Tent"); reflexivity.
Defined.

(** The replacement goes once from left to right: what it leaves can
    hold the pattern again. *)
Example replace_is_one_pass :
  product_id_of "product_info_a.m.mdd.md" = "a.md".
Proof. reflexivity. Qed.

(** X20. A product file that cannot be read ends the load: the
    documents of the files listed before it are kept, and the files
    listed after it are not looked at, readable or not. When the
    directory itself cannot be listed nothing is loaded. *)
Theorem load_stops_at_unreadable_file
        (before after : list (string * Res string)) filename e e' :
  is_product_file filename = true ->
  _load_product_data (Ok (before ++ (filename, Raise e) :: after)%list)
  = _load_product_data (Ok before)
  /\ _load_product_data (Raise e') = [].
Proof.
  intros Hf. split; [|reflexivity].
  unfold _load_product_data. generalize (@nil (string * string)).
  induction before as [|[name read] before IH]; intros d.
  - cbn [app load_products]. rewrite Hf. reflexivity.
  - cbn [app load_products].
    destruct (is_product_file name); [|apply IH].
    destruct read; [apply IH | reflexivity].
Qed.

Lemma load_stops_at_unreadable_file_witness :
  _load_product_data (Ok shelf) = [("1", "# one"); ("2", "# two")].
Proof.
  destruct (load_stops_at_unreadable_file (firstn 4 shelf) (skipn 5 shelf)
              "product_info_3.md" "PermissionError" "FileNotFoundError" eq_refl)
    as [H _].
  exact H.
Defined.

Lemma dict_set_keys {V} k (v : V) d :
  map fst (dict_set k v d)
  = if existsb (String.eqb k) (map fst d) then map fst d
    else (map fst d ++ [k])%list.
Proof.
  induction d as [|[k' v'] d IH]; [reflexivity|].
  cbn [dict_set map fst existsb].
  destruct (String.eqb k' k) eqn:E.
  - apply String.eqb_eq in E. subst k'. rewrite String.eqb_refl. reflexivity.
  - rewrite String.eqb_sym, E. cbn [orb map fst]. rewrite IH.
    destruct (existsb (String.eqb k) (map fst d)); reflexivity.
Qed.

Lemma dict_set_nodup {V} k (v : V) d :
  NoDup (map fst d) -> NoDup (map fst (dict_set k v d)).
Proof.
  intros H. rewrite dict_set_keys.
  destruct (existsb (String.eqb k) (map fst d)) eqn:E; [exact H|].
  apply NoDup_app; [exact H | repeat constructor; intros [] |].
  intros x Hx [Hk|[]]. subst x.
  assert (existsb (String.eqb k) (map fst d) = true).
  { apply existsb_exists. exists k. split; [exact Hx | apply String.eqb_refl]. }
  congruence.
Qed.

Lemma dict_set_in {V} k (v : V) d p :
  In p (dict_set k v d) -> p = (k, v) \/ In p d.
Proof.
  induction d as [|[k' v'] d IH]; cbn [dict_set].
  - intros [<-|[]]. left. reflexivity.
  - destruct (String.eqb k' k).
    + intros [<-|H]; [left; reflexivity | right; right; exact H].
    + intros [<-|H]; [right; left; reflexivity|].
      destruct (IH H) as [->|H']; [left; reflexivity | right; right; exact H'].
Qed.

Lemma load_products_sound : forall files d,
  NoDup (map fst d) ->
  NoDup (map fst (load_products files d))
  /\ forall p, In p (load_products files d) ->
       In p d
       \/ exists filename,
            In (filename, Ok (snd p)) files
            /\ is_product_file filename = true
            /\ fst p = product_id_of filename.
Proof.
  induction files as [|[name read] files IH]; intros d Hd.
  - split; [exact Hd | auto].
  - cbn [load_products]. destruct (is_product_file name) eqn:Hf.
    + destruct read as [content|e]; [|split; [exact Hd | auto]].
      destruct (IH _ (dict_set_nodup (product_id_of name) content d Hd))
        as [H1 H2].
      split; [exact H1|]. intros p Hp.
      destruct (H2 p Hp) as [Hin|[filename (Hin & Hfile & Hid)]].
      * destruct (dict_set_in _ _ _ _ Hin) as [->|Hin']; [|left; exact Hin'].
        right. exists name. split; [left; reflexivity|]. split; [exact Hf | reflexivity].
      * right. exists filename. split; [right; exact Hin | auto].
    + destruct (IH d Hd) as [H1 H2]. split; [exact H1|].
      intros p Hp. destruct (H2 p Hp) as [Hin|[filename (Hin & Hfile & Hid)]];
        [left; exact Hin|].
      right. exists filename. split; [right; exact Hin | auto].
Qed.

(** X21. The loaded product data is a dictionary - no identifier occurs
    twice - and each of its documents was read from a file of the
    listing that line 48 accepts and whose name gives the identifier:
    no other file of the directory contributes. *)
Theorem loaded_products_come_from_product_files files :
  NoDup (map fst (_load_product_data (Ok files)))
  /\ forall product_id content,
       In (product_id, content) (_load_product_data (Ok files)) ->
       exists filename,
         In (filename, Ok content) files
         /\ is_product_file filename = true
         /\ product_id = product_id_of filename.
Proof.
  destruct (load_products_sound files [] (NoDup_nil _)) as [H1 H2].
  split; [exact H1|]. intros product_id content Hin.
  destruct (H2 _ Hin) as [[]|H]. exact H.
Qed.

Lemma loaded_products_come_from_product_files_witness :
  exists filename,
    In (filename, Ok "# two") shelf
    /\ is_product_file filename = true
    /\ "2" = product_id_of filename.
Proof.
  destruct (loaded_products_come_from_product_files shelf) as [_ H].
  apply (H "2" "# two"). vm_compute. auto.
Defined.

End LoaderProps.

(* ================================================================== *)
(** ** The [str] methods on ASCII text                                 *)
(* ================================================================== *)

Module PyFacts.

Import Str StrFacts StrMore Py.

Example len_counts_code_points :
  len "tent" = 4 /\ len "é1" = 2 /\ String.length "é1" = 3
  /\ len EmptyString = 0.
Proof. repeat split. Qed.

Example slice_to_counts_code_points :
  slice_to 2 "née Smith" = "né" /\ slice_to 5 "ab" = "ab"
  /\ slice_to 0 "ab" = EmptyString.
Proof. repeat split. Qed.

Lemma lower_char_plain c : plain_char c = true -> lower_char c = c.
Proof.
  unfold plain_char, lower_char. intros H.
  apply andb_true_iff in H. destruct H as [_ H].
  apply negb_true_iff in H. rewrite H. reflexivity.
Qed.

Lemma lower_plain w : plain w = true -> Str.lower w = w.
Proof.
  induction w as [|c w IH]; [reflexivity|]. simpl. intros H.
  apply andb_true_iff in H. destruct H as [Hc Hw].
  rewrite (lower_char_plain _ Hc), (IH Hw). reflexivity.
Qed.

Lemma prefix_lower w : forall s,
  String.prefix w s = true -> String.prefix (Str.lower w) (Str.lower s) = true.
Proof.
  induction w as [|a w IH]; intros s H; [apply prefix_nil_l|].
  destruct s as [|c s]; [discriminate|].
  apply prefix_head in H. destruct H as [<- H].
  change (Str.lower (String a w)) with (String (lower_char a) (Str.lower w)).
  change (Str.lower (String a s)) with (String (lower_char a) (Str.lower s)).
  apply prefix_cons. apply IH. exact H.
Qed.

Lemma str_in_lower w s :
  str_in w s = true -> str_in (Str.lower w) (Str.lower s) = true.
Proof.
  induction s as [|c s IH]; intros H.
  - destruct w; [reflexivity | discriminate].
  - rewrite str_in_unfold in H. apply orb_true_iff in H. destruct H as [H|H].
    + apply str_in_here. apply prefix_lower. exact H.
    + change (Str.lower (String c s)) with (String (lower_char c) (Str.lower s)).
      apply str_in_cons. apply IH. exact H.
Qed.

(** On ASCII text the two laws hold. *)
Lemma ascii_lower_keeps_plain_text : lower_keeps_plain_text ascii_only.
Proof.
  intros w s Hw H. cbn [lower ascii_only].
  rewrite <- (lower_plain _ Hw). apply str_in_lower. exact H.
Qed.

Lemma graphic_no_space c : graphic c = true -> is_space c = false.
Proof.
  unfold graphic, is_space. intros H.
  apply andb_true_iff in H. destruct H as [H1 H2].
  apply Nat.leb_le in H1. apply Nat.leb_le in H2.
  apply orb_false_iff. split; apply andb_false_iff; right; apply Nat.leb_gt; lia.
Qed.

Lemma starts_graphic_solid w : starts_graphic w = true -> starts_solid w = true.
Proof.
  destruct w as [|c w]; [discriminate|]. simpl. intros H.
  rewrite (graphic_no_space _ H). reflexivity.
Qed.

Lemma ends_graphic_solid w : ends_graphic w = true -> ends_solid w = true.
Proof.
  induction w as [|c w IH]; [discriminate|].
  destruct w as [|d w].
  - simpl. intros H. rewrite (graphic_no_space _ H). reflexivity.
  - intros H. apply IH. exact H.
Qed.

Lemma ascii_strip_keeps_words : strip_keeps_words ascii_only.
Proof.
  intros w s H1 H2 H. cbn [strip ascii_only].
  apply str_in_strip;
    [apply starts_graphic_solid | apply ends_graphic_solid |]; assumption.
Qed.

End PyFacts.

(* ================================================================== *)
(** ** The internal knowledge matcher on any text                      *)
(* ================================================================== *)

Module MatcherProps.

Import Str StrFacts StrMore Plugin PluginTests SearchViews Lookups.
Import PluginProps SearchProps LookupProps Py PyFacts Matcher.

Section AnyText.

Variable py : StrMethods.

Lemma any_search_no_query self query :
  is_empty query = true -> search py self query = (NoQuery, []).
Proof. intros H. unfold search. rewrite H. reflexivity. Qed.

Lemma any_search_greeting self query :
  is_empty query = false ->
  is_greeting py (query_lower_of py query) = true ->
  search py self query = (Greeting, []).
Proof.
  intros H1 H2. unfold search. rewrite H1. cbv zeta.
  fold (query_lower_of py query). rewrite H2. reflexivity.
Qed.

Lemma any_search_be_specific self query :
  is_empty query = false ->
  is_greeting py (query_lower_of py query) = false ->
  keywords_of py query = [] ->
  search py self query = (BeSpecific, []).
Proof.
  intros H1 H2 H3. unfold search. rewrite H1. cbv zeta.
  fold (query_lower_of py query). rewrite H2.
  unfold keywords_of in H3. rewrite H3. reflexivity.
Qed.

Lemma any_search_results self query :
  is_empty query = false ->
  is_greeting py (query_lower_of py query) = false ->
  keywords_of py query <> [] ->
  let keywords := keywords_of py query in
  let p := scan_policies py keywords (_policies self) in
  let d := scan_products py keywords (requested_categories py query) 0
                         (_product_data self) in
  let c := scan_customers py keywords (_customer_data self) in
  search py self query =
    (Results (fst p ++ fst d ++ fst c)%list, (snd p ++ snd d ++ snd c)%list).
Proof.
  intros H1 H2 H3. cbv zeta. unfold search. rewrite H1. cbv zeta.
  fold (query_lower_of py query). rewrite H2.
  unfold requested_categories, keywords_of in *.
  destruct (extract_keywords py (query_lower_of py query)) as [|k ks] eqn:Hk;
    [congruence|].
  destruct (scan_policies py (k :: ks) (_policies self)) as [r1 v1].
  destruct (scan_products py (k :: ks) (relevant_categories_of (k :: ks)) 0
                          (_product_data self)) as [r2 v2].
  destruct (scan_customers py (k :: ks) (_customer_data self)) as [r3 v3].
  reflexivity.
Qed.

(** The four ways out of [search_internal_knowledge], in the order the
    code tries them. *)
Lemma any_search_outcome self query :
  fst (search py self query) =
    if is_empty query then NoQuery
    else if is_greeting py (query_lower_of py query) then Greeting
    else match keywords_of py query with
         | [] => BeSpecific
         | _ =>
             Results
               (fst (scan_policies py (keywords_of py query) (_policies self))
                ++ fst (scan_products py (keywords_of py query)
                          (requested_categories py query) 0 (_product_data self))
                ++ fst (scan_customers py (keywords_of py query)
                          (_customer_data self)))%list
         end.
Proof.
  destruct (is_empty query) eqn:Hq.
  - rewrite (any_search_no_query self _ Hq). reflexivity.
  - destruct (is_greeting py (query_lower_of py query)) eqn:Hg.
    + rewrite (any_search_greeting self _ Hq Hg). reflexivity.
    + destruct (keywords_of py query) as [|k ks] eqn:Hk.
      * rewrite (any_search_be_specific self _ Hq Hg Hk). reflexivity.
      * assert (Hne : keywords_of py query <> []) by congruence.
        pose proof (any_search_results self _ Hq Hg Hne) as Hs. cbv zeta in Hs.
        rewrite Hs, Hk. reflexivity.
Qed.

Lemma any_stopwords_give_no_keyword query :
  (forall token, In token (tokens py query) -> is_stopword token = true) ->
  keywords_of py query = [].
Proof.
  intros H. unfold keywords_of, extract_keywords. apply filter_none.
  intros word Hw. specialize (H word Hw). unfold is_stopword in H.
  apply orb_true_iff in H. destruct H as [H|H].
  - rewrite H. reflexivity.
  - apply Nat.leb_le in H. apply andb_false_iff. right.
    apply Nat.ltb_ge. exact H.
Qed.

(** **** C6 *)

(** C6, amended. A query all of whose tokens are common words or have
    fewer than three characters makes the matcher look at no knowledge
    record and return one of its fixed texts: the prompt for a query
    when the query is empty, the greeting when the greeting test of
    lines 141-143 fires, and else the request to be more specific. *)
Theorem C6_stopword_query_scans_nothing self query :
  (forall token, In token (tokens py query) -> is_stopword token = true) ->
  scanned py self query = []
  /\ search_internal_knowledge py self query =
       (if is_empty query then no_query_text
        else if is_greeting py (query_lower_of py query) then greeting_text
             else be_specific_text).
Proof.
  intros H. unfold scanned, search_internal_knowledge.
  destruct (is_empty query) eqn:Hq.
  - rewrite (any_search_no_query self _ Hq). split; reflexivity.
  - destruct (is_greeting py (query_lower_of py query)) eqn:Hg.
    + rewrite (any_search_greeting self _ Hq Hg). split; reflexivity.
    + rewrite (any_search_be_specific self _ Hq Hg
                 (any_stopwords_give_no_keyword _ H)).
      split; reflexivity.
Qed.

(** **** C7 *)

Lemma any_scan_policies_no_product keywords policies :
  docs_of (fst (scan_policies py keywords policies)) = []
  /\ visited_products (snd (scan_policies py keywords policies)) = [].
Proof.
  unfold scan_policies.
  destruct (existsb _ policy_keywords); [|split; reflexivity]. simpl. split.
  - apply docs_of_none. intros e He. apply in_flat_map in He.
    destruct He as [[k c] [_ He]]. destruct (existsb _ keywords); simpl in He.
    + destruct He as [<-|[]]. reflexivity.
    + destruct He.
  - apply visited_none. intros v Hv. apply in_map_iff in Hv.
    destruct Hv as [[k c] [<- _]]. reflexivity.
Qed.

Lemma any_scan_customers_no_product keywords customers :
  docs_of (fst (scan_customers py keywords customers)) = []
  /\ visited_products (snd (scan_customers py keywords customers)) = [].
Proof.
  unfold scan_customers.
  destruct (existsb _ customer_keywords); [|split; reflexivity]. simpl. split.
  - destruct (0 <? _); reflexivity.
  - apply visited_none. intros v Hv. apply in_map_iff in Hv.
    destruct Hv as [[k c] [<- _]]. reflexivity.
Qed.

Lemma any_scan_products_cons keywords cats n product_id content rest :
  scan_products py keywords cats n ((product_id, content) :: rest) =
    if should_include py keywords cats content then
      if 8 <=? n + 1
      then ([ProductEntry product_id content], [VisitProduct product_id])
      else
        let '(es, vs) := scan_products py keywords cats (n + 1) rest in
        (ProductEntry product_id content :: es, VisitProduct product_id :: vs)
    else
      let '(es, vs) := scan_products py keywords cats n rest in
      (es, VisitProduct product_id :: vs).
Proof. reflexivity. Qed.

(** The product loop: it has seen a prefix of the documents, kept
    exactly those of the prefix that [should_include] accepts, and left
    documents unseen only because the cap was reached on the last one
    it saw. *)
Lemma any_scan_products_spec keywords cats : forall products n,
  n < 8 ->
  exists seen rest,
    products = (seen ++ rest)%list
    /\ visited_products (snd (scan_products py keywords cats n products))
       = map fst seen
    /\ docs_of (fst (scan_products py keywords cats n products))
       = filter (fun d => should_include py keywords cats (snd d)) seen
    /\ n + List.length
             (filter (fun d => should_include py keywords cats (snd d)) seen) <= 8
    /\ (rest <> [] ->
        n + List.length
              (filter (fun d => should_include py keywords cats (snd d)) seen) = 8
        /\ exists seen' d, seen = (seen' ++ [d])%list
                           /\ should_include py keywords cats (snd d) = true).
Proof.
  induction products as [|[product_id content] products IH]; intros n Hn.
  - exists [], []. simpl. repeat split; try lia; congruence.
  - rewrite any_scan_products_cons.
    destruct (should_include py keywords cats content) eqn:Hinc.
    + destruct (8 <=? n + 1) eqn:Hcap.
      * apply Nat.leb_le in Hcap.
        exists [(product_id, content)], products.
        cbn [filter snd fst map app]. rewrite Hinc.
        split; [reflexivity|]. split; [reflexivity|]. split; [reflexivity|].
        cbn [List.length]. split; [lia|]. intros _. split; [lia|].
        exists [], (product_id, content). split; [reflexivity | exact Hinc].
      * apply Nat.leb_gt in Hcap.
        destruct (IH (n + 1)) as (seen & rest & E & Hv & Hd & Hle & Hrest); [lia|].
        destruct (scan_products py keywords cats (n + 1) products) as [es vs].
        exists ((product_id, content) :: seen), rest.
        cbn [filter snd fst map app] in *. rewrite Hinc. cbn [List.length].
        split; [congruence|]. split; [cbn; f_equal; exact Hv|].
        split; [unfold docs_of in *; cbn; f_equal; exact Hd|].
        split; [lia|]. intros Hr. destruct (Hrest Hr) as (Hc & seen' & d & -> & Hd').
        split; [lia|].
        exists ((product_id, content) :: seen'), d. split; [reflexivity | exact Hd'].
    + destruct (IH n Hn) as (seen & rest & E & Hv & Hd & Hle & Hrest).
      destruct (scan_products py keywords cats n products) as [es vs].
      exists ((product_id, content) :: seen), rest.
      cbn [filter snd fst map app] in *. rewrite Hinc.
      split; [congruence|]. split; [cbn; f_equal; exact Hv|].
      split; [exact Hd|].
      split; [lia|]. intros Hr. destruct (Hrest Hr) as (Hc & seen' & d & -> & Hd').
      split; [lia|].
      exists ((product_id, content) :: seen'), d. split; [reflexivity | exact Hd'].
Qed.

(** Every trigger keyword passes the filter of line 150. *)
Lemma triggers_are_keywords :
  forallb (fun t => negb (mem t common_words) && (2 <? len t))
          trigger_keywords = true.
Proof. vm_compute. reflexivity. Qed.

Lemma any_trigger_token_requests query token :
  In token (tokens py query) -> In token trigger_keywords ->
  In token (keywords_of py query) /\ requested_categories py query <> [].
Proof.
  intros Htok Htrig.
  assert (Hk : In token (keywords_of py query)).
  { unfold keywords_of, extract_keywords. apply filter_In. split; [exact Htok|].
    pose proof triggers_are_keywords as H.
    rewrite forallb_forall in H. apply (H _ Htrig). }
  split; [exact Hk|].
  unfold trigger_keywords in Htrig. apply in_flat_map in Htrig.
  destruct Htrig as [[category kws] [Hc Hin]]. simpl in Hin.
  assert (Hr : In category (requested_categories py query)).
  { unfold requested_categories, relevant_categories_of.
    apply in_map_iff. exists (category, kws). split; [reflexivity|].
    apply filter_In. split; [exact Hc|].
    apply existsb_exists. exists token. split; [exact Hin|].
    apply mem_In. exact Hk. }
  intros E. rewrite E in Hr. destruct Hr.
Qed.

Lemma any_should_include_category_mode keywords cats content :
  cats <> [] ->
  should_include py keywords cats content = doc_hit py cats (EmptyString, content).
Proof. intros H. destruct cats; [congruence | reflexivity]. Qed.

(** The product part of a search that reaches the product loop. *)
Lemma any_product_scan_of_search self query :
  is_empty query = false ->
  is_greeting py (query_lower_of py query) = false ->
  keywords_of py query <> [] ->
  let keep := fun d : string * string =>
                should_include py (keywords_of py query)
                               (requested_categories py query) (snd d) in
  exists seen rest,
    _product_data self = (seen ++ rest)%list
    /\ visited_products (scanned py self query) = map fst seen
    /\ product_docs (fst (search py self query)) = filter keep seen
    /\ List.length (filter keep seen) <= 8
    /\ (rest <> [] ->
        List.length (filter keep seen) = 8
        /\ exists seen' d, seen = (seen' ++ [d])%list /\ keep d = true).
Proof.
  intros Hq Hg Hk keep.
  pose proof (any_search_results self _ Hq Hg Hk) as Hs. cbv zeta in Hs.
  destruct (any_scan_products_spec (keywords_of py query)
              (requested_categories py query) (_product_data self) 0)
    as (seen & rest & E & Hv & Hd & Hle & Hrest); [lia|].
  exists seen, rest. split; [exact E|]. split; [|split; [|split]].
  - unfold scanned. rewrite Hs. cbn [snd]. unfold visited_products.
    rewrite !flat_map_app.
    change (flat_map _ ?v) with (visited_products v).
    rewrite (proj2 (any_scan_policies_no_product _ _)).
    rewrite (proj2 (any_scan_customers_no_product _ _)).
    rewrite app_nil_r. exact Hv.
  - rewrite Hs. cbn [fst].
    change (product_docs (Results ?r)) with (docs_of r).
    rewrite !docs_of_app.
    rewrite (proj1 (any_scan_policies_no_product _ _)).
    rewrite (proj1 (any_scan_customers_no_product _ _)).
    rewrite app_nil_r. exact Hd.
  - exact Hle.
  - exact Hrest.
Qed.

(** C7. When a token of the query is a category trigger keyword, every
    product document of the result is a loaded document whose declared
    category field is present and contains a trigger keyword of a
    requested category, at most eight are returned, and - unless the
    query was answered as a greeting without any scan - the loop has
    seen a prefix of the documents in load order, returned exactly the
    documents of that prefix whose category field matches (whatever
    their body says), and left documents unseen only when the eighth
    match was the last document it saw. *)
Theorem C7_category_mode self query token :
  is_empty query = false ->
  In token (tokens py query) ->
  In token trigger_keywords ->
  let cats := requested_categories py query in
  let docs := product_docs (fst (search py self query)) in
  (forall d, In d docs ->
     In d (_product_data self)
     /\ exists cm category cat_keyword,
          category_match_of py (snd d) = Some cm /\ is_empty cm = false
          /\ In category cats
          /\ In cat_keyword (category_keywords_of category)
          /\ str_in cat_keyword cm = true)
  /\ List.length docs <= 8
  /\ ((fst (search py self query) = Greeting /\ scanned py self query = [])
      \/ exists seen rest,
           _product_data self = (seen ++ rest)%list
           /\ visited_products (scanned py self query) = map fst seen
           /\ docs = filter (doc_hit py cats) seen
           /\ (rest <> [] ->
               List.length docs = 8
               /\ exists seen' d, seen = (seen' ++ [d])%list
                                  /\ doc_hit py cats d = true)).
Proof.
  intros Hq Htok Htrig cats docs.
  destruct (any_trigger_token_requests _ _ Htok Htrig) as [Hk Hcats].
  destruct (is_greeting py (query_lower_of py query)) eqn:Hg.
  - subst docs. unfold scanned. rewrite (any_search_greeting self _ Hq Hg). simpl.
    split; [intros d []|]. split; [lia|]. left. split; reflexivity.
  - assert (Hne : keywords_of py query <> []).
    { intros E. rewrite E in Hk. destruct Hk. }
    destruct (any_product_scan_of_search self query Hq Hg Hne)
      as (seen & rest & E & Hv & Hd & Hle & Hrest).
    fold cats in Hd, Hle, Hrest. fold docs in Hd.
    assert (Hf : filter (fun d => should_include py (keywords_of py query) cats (snd d))
                        seen
                 = filter (doc_hit py cats) seen).
    { apply filter_ext. intros [i c].
      apply any_should_include_category_mode. exact Hcats. }
    rewrite Hf in *.
    split; [|split].
    + intros d Hin. rewrite Hd in Hin. apply filter_In in Hin.
      destruct Hin as [Hin Hhit]. split.
      * rewrite E. apply in_or_app. left. exact Hin.
      * apply category_hit_inv. exact Hhit.
    + rewrite Hd. exact Hle.
    + right. exists seen, rest. split; [exact E|]. split; [exact Hv|].
      split; [exact Hd|]. intros Hr. rewrite Hd.
      destruct (Hrest Hr) as (Hc & seen' & d & Hs' & Hd').
      split; [exact Hc|].
      exists seen', d. split; [exact Hs'|].
      rewrite (any_should_include_category_mode _ _ _ Hcats) in Hd'.
      destruct d; exact Hd'.
Qed.

(** **** The other paths of the search *)

Lemma any_scan_policies_fst keywords policies :
  fst (scan_policies py keywords policies) =
    if asks_policy keywords
    then map (fun p => PolicyEntry (fst p) (snd p))
             (filter (policy_hit py keywords) policies)
    else [].
Proof.
  unfold scan_policies, asks_policy.
  destruct (existsb _ policy_keywords); [|reflexivity]. cbn [fst].
  induction policies as [|[k c] policies IH]; [reflexivity|].
  cbn [flat_map filter]. rewrite IH. unfold policy_hit at 2. cbn [fst snd].
  destruct (existsb _ keywords); reflexivity.
Qed.

Lemma any_scan_customers_fst keywords customers :
  fst (scan_customers py keywords customers) =
    if asks_customer keywords
    then if 0 <? customer_match_count py keywords customers
         then [CustomerCount (customer_match_count py keywords customers)]
         else []
    else [].
Proof.
  unfold scan_customers, asks_customer, customer_match_count.
  destruct (existsb _ customer_keywords); reflexivity.
Qed.

Lemma any_scan_products_entries keywords cats : forall products n,
  n < 8 ->
  Forall (fun e => is_product e = true)
         (fst (scan_products py keywords cats n products)).
Proof.
  induction products as [|[product_id content] products IH]; intros n Hn.
  - simpl. constructor.
  - rewrite any_scan_products_cons.
    destruct (should_include py keywords cats content).
    + destruct (8 <=? n + 1) eqn:Hcap.
      * cbn [fst]. repeat constructor.
      * apply Nat.leb_gt in Hcap. assert (H1 := IH (n + 1)).
        destruct (scan_products py keywords cats (n + 1) products) as [es vs].
        cbn [fst] in *. constructor; [reflexivity | apply H1; lia].
    + assert (H1 := IH n Hn).
      destruct (scan_products py keywords cats n products) as [es vs].
      cbn [fst] in *. exact H1.
Qed.

Lemma any_should_include_free_mode keywords content :
  should_include py keywords [] content
  = free_doc_hit py keywords (EmptyString, content).
Proof. reflexivity. Qed.

(** What free-text mode asks of a document. *)
Lemma any_free_doc_hit_iff keywords d :
  free_doc_hit py keywords d = true <->
  exists kw,
    In kw keywords /\ 3 < len kw
    /\ (str_in kw (lower py (title_line (snd d))) = true
        \/ exists cm, category_match_of py (snd d) = Some cm
                      /\ is_empty cm = false /\ str_in kw cm = true).
Proof.
  unfold free_doc_hit, free_text_hit. cbv zeta. fold (title_line (snd d)).
  set (strong := filter (fun kw => 3 <? len kw) keywords).
  set (in_title := fun kw => str_in kw (lower py (title_line (snd d)))).
  set (in_category := fun kw =>
         match category_match_of py (snd d) with
         | Some cm => negb (is_empty cm) && str_in kw cm
         | None => false
         end).
  assert (Hex : existsb in_title strong || existsb in_category strong = true <->
                exists kw,
                  In kw keywords /\ 3 < len kw
                  /\ (str_in kw (lower py (title_line (snd d))) = true
                      \/ exists cm, category_match_of py (snd d) = Some cm
                                    /\ is_empty cm = false /\ str_in kw cm = true)).
  { rewrite orb_true_iff, !existsb_exists. split.
    - intros [[kw [Hin H]]|[kw [Hin H]]];
        apply filter_In in Hin; destruct Hin as [Hin Hlen];
        apply Nat.ltb_lt in Hlen; exists kw; (split; [exact Hin|]);
        (split; [exact Hlen|]).
      + left. exact H.
      + right. unfold in_category in H.
        destruct (category_match_of py (snd d)) as [cm|]; [|discriminate].
        apply andb_true_iff in H. destruct H as [H1 H2].
        apply negb_true_iff in H1. exists cm. auto.
    - intros [kw (Hin & Hlen & [H|[cm (Hc & Hne & H)]])];
        assert (Hs : In kw strong)
          by (apply filter_In; split; [exact Hin | apply Nat.ltb_lt; exact Hlen]).
      + left. exists kw. split; [exact Hs | exact H].
      + right. exists kw. split; [exact Hs|].
        unfold in_category. rewrite Hc, Hne, H. reflexivity. }
  rewrite <- Hex.
  destruct strong as [|k ks] eqn:Es; [simpl; split; discriminate|].
  rewrite !existsb_filter_length. reflexivity.
Qed.

(** X3. Free-text mode: when the query is not answered as a greeting and
    none of its keywords is a category trigger, every product returned
    is a loaded document for which some keyword of more than three
    characters occurs in the lower-cased title line (its second line) or
    in its non-empty category field; the rest of the document is not
    looked at. The documents returned are exactly those of the scanned
    prefix that pass this test, at most eight, in load order, and the
    scan stops early only on the eighth match. *)
Theorem free_text_mode self query :
  is_empty query = false ->
  is_greeting py (query_lower_of py query) = false ->
  keywords_of py query <> [] ->
  requested_categories py query = [] ->
  let docs := product_docs (fst (search py self query)) in
  (forall d, In d docs ->
     In d (_product_data self)
     /\ exists kw,
          In kw (keywords_of py query) /\ 3 < len kw
          /\ (str_in kw (lower py (title_line (snd d))) = true
              \/ exists cm, category_match_of py (snd d) = Some cm
                            /\ is_empty cm = false /\ str_in kw cm = true))
  /\ List.length docs <= 8
  /\ exists seen rest,
       _product_data self = (seen ++ rest)%list
       /\ visited_products (scanned py self query) = map fst seen
       /\ docs = filter (free_doc_hit py (keywords_of py query)) seen
       /\ (rest <> [] ->
           List.length docs = 8
           /\ exists seen' d, seen = (seen' ++ [d])%list
                              /\ free_doc_hit py (keywords_of py query) d = true).
Proof.
  intros Hq Hg Hk Hc docs.
  destruct (any_product_scan_of_search self query Hq Hg Hk)
    as (seen & rest & E & Hv & Hd & Hle & Hrest).
  rewrite Hc in *.
  assert (Hf : filter (fun d => should_include py (keywords_of py query) [] (snd d))
                      seen
               = filter (free_doc_hit py (keywords_of py query)) seen).
  { apply filter_ext. intros [i c]. reflexivity. }
  rewrite Hf in *. subst docs. rewrite Hd.
  split; [|split; [exact Hle|]].
  - intros d Hin. apply filter_In in Hin. destruct Hin as [Hin Hhit]. split.
    + rewrite E. apply in_or_app. left. exact Hin.
    + apply any_free_doc_hit_iff. exact Hhit.
  - exists seen, rest. split; [exact E|]. split; [exact Hv|].
    split; [reflexivity|]. intros Hr.
    destruct (Hrest Hr) as (H8 & seen' & d & Hs & Hd').
    split; [exact H8|]. exists seen', d. split; [exact Hs|].
    destruct d. exact Hd'.
Qed.

(** X4. Keywords of three characters match nothing in free-text mode:
    when no keyword is a category trigger and none is longer than three
    characters, every product document is looked at and none is
    returned. *)
Theorem short_keywords_match_no_product self query :
  is_empty query = false ->
  is_greeting py (query_lower_of py query) = false ->
  keywords_of py query <> [] ->
  requested_categories py query = [] ->
  (forall kw, In kw (keywords_of py query) -> len kw <= 3) ->
  product_docs (fst (search py self query)) = []
  /\ visited_products (scanned py self query) = map fst (_product_data self).
Proof.
  intros Hq Hg Hk Hc Hshort.
  destruct (any_product_scan_of_search self query Hq Hg Hk)
    as (seen & rest & E & Hv & Hd & _ & Hrest).
  rewrite Hc in *.
  assert (Hnone : filter (fun d => should_include py (keywords_of py query) []
                                                  (snd d)) seen = []).
  { apply filter_none. intros [i c] _. cbn [snd].
    rewrite any_should_include_free_mode.
    destruct (free_doc_hit py (keywords_of py query) (EmptyString, c)) eqn:Hhit;
      [|reflexivity].
    apply any_free_doc_hit_iff in Hhit. destruct Hhit as [kw (Hin & Hlen & _)].
    specialize (Hshort kw Hin). lia. }
  rewrite Hnone in *. split; [exact Hd|].
  destruct rest as [|r rest].
  - rewrite app_nil_r in E. rewrite Hv, E. reflexivity.
  - destruct Hrest as [H8 _]; [discriminate|]. discriminate.
Qed.

(** X5. The reply shows of the customer records only how many match:
    two knowledge bases that differ in their customer records alone and
    have the same number of records matching the keywords of the query
    give the same reply. *)
Theorem reply_shows_only_the_customer_count self customers query :
  customer_match_count py (keywords_of py query) customers
  = customer_match_count py (keywords_of py query) (_customer_data self) ->
  search_internal_knowledge py (with_customers self customers) query
  = search_internal_knowledge py self query.
Proof.
  intros H. unfold search_internal_knowledge.
  rewrite !any_search_outcome.
  cbn [with_customers _policies _product_data _customer_data].
  rewrite !any_scan_customers_fst, H. reflexivity.
Qed.

(** X6. Policies are returned without a cap and only to a query that
    holds a policy keyword (policy, rule, return, warranty, service,
    support): the policies of the result are then exactly the loaded
    policies whose lower-cased key or text contains some keyword of the
    query, in load order; to any other query none is returned. *)
Theorem policies_returned self query :
  is_empty query = false ->
  is_greeting py (query_lower_of py query) = false ->
  keywords_of py query <> [] ->
  policy_docs (fst (search py self query)) =
    if asks_policy (keywords_of py query)
    then filter (policy_hit py (keywords_of py query)) (_policies self)
    else [].
Proof.
  intros Hq Hg Hk.
  rewrite any_search_outcome, Hq, Hg.
  destruct (keywords_of py query) as [|k ks] eqn:Ek; [congruence|].
  rewrite !policy_docs_app.
  pose proof (any_scan_products_entries (k :: ks) (requested_categories py query)
                (_product_data self) 0) as Hp.
  rewrite (policy_docs_none (fst (scan_products _ _ _ _ _))).
  2:{ assert (Hp' := Hp ltac:(lia)). revert Hp'. apply Forall_impl.
      intros e He. destruct e; simpl in *; congruence. }
  rewrite (policy_docs_none (fst (scan_customers _ _ _))).
  2:{ rewrite any_scan_customers_fst. destruct (asks_customer (k :: ks)); [|constructor].
      destruct (0 <? _); repeat constructor. }
  rewrite app_nil_r. rewrite any_scan_policies_fst.
  destruct (asks_policy (k :: ks)); [apply policy_docs_entries | reflexivity].
Qed.

Lemma greetings_graphic greeting :
  In greeting greetings ->
  starts_graphic greeting = true /\ ends_graphic greeting = true.
Proof.
  unfold greetings. simpl.
  intros [<-|[<-|[<-|[<-|[<-|[<-|[]]]]]]]; split; reflexivity.
Qed.

(** X7. A query of at most two words in whose lower-cased text a
    greeting ("hi", "hello", "hey", "good morning", ...) occurs
    anywhere, also inside a word, is answered with the greeting and no
    knowledge record is looked at: "hiking boots" gets the greeting. *)
Theorem short_query_with_greeting_inside self query greeting :
  strip_keeps_words py ->
  is_empty query = false ->
  In greeting greetings ->
  List.length (tokens py query) <= 2 ->
  str_in greeting (lower py query) = true ->
  search_internal_knowledge py self query = greeting_text
  /\ scanned py self query = [].
Proof.
  intros Hstrip Hq Hin Hlen Hsub.
  destruct (greetings_graphic _ Hin) as [H1 H2].
  assert (Hg : is_greeting py (query_lower_of py query) = true).
  { unfold is_greeting. apply orb_true_iff. right.
    apply andb_true_iff. split.
    - apply Nat.leb_le. exact Hlen.
    - apply existsb_exists. exists greeting. split; [exact Hin|].
      apply Hstrip; assumption. }
  unfold search_internal_knowledge, scanned.
  rewrite (any_search_greeting self _ Hq Hg). split; reflexivity.
Qed.

(** **** The keyed lookups *)

(** X11. [get_product_info] returns the content of the first document,
    in load order, whose lower-cased identifier or content contains the
    lower-cased argument: a word of the body of an earlier document
    wins over the identifier of a later one. *)
Theorem get_product_info_returns_first_match self product_type pre p post :
  _product_data self = (pre ++ p :: post)%list ->
  is_empty product_type = false ->
  str_in (lower py product_type) (lower py (fst p)) = true
  \/ str_in (lower py product_type) (lower py (snd p)) = true ->
  (forall q, In q pre ->
     str_in (lower py product_type) (lower py (fst q)) = false
     /\ str_in (lower py product_type) (lower py (snd q)) = false) ->
  get_product_info py self product_type = snd p.
Proof.
  intros E Hne Hp Hpre. unfold get_product_info. rewrite Hne, E.
  rewrite (find_first (product_matches py product_type) pre p post).
  - destruct p. reflexivity.
  - unfold product_matches. apply orb_true_iff. exact Hp.
  - intros q Hq. unfold product_matches. destruct (Hpre q Hq) as [H1 H2].
    rewrite H1, H2. reflexivity.
Qed.

End AnyText.

(** C6 as stated fails: "show me the" is made of common words only, and
    the reply is the request to be more specific, not the greeting
    sentinel. *)
Lemma C6_counterexample :
  tokens ascii_only "show me the" = ["show"; "me"; "the"]
  /\ forallb is_stopword (tokens ascii_only "show me the") = true
  /\ search_internal_knowledge ascii_only demo "show me the" = be_specific_text
  /\ search_internal_knowledge ascii_only demo "show me the" <> greeting_text.
Proof.
  split; [reflexivity|]. split; [reflexivity|]. split; [reflexivity|].
  vm_compute. discriminate.
Qed.

Lemma C6_witness :
  scanned ascii_only demo "show me the" = []
  /\ search_internal_knowledge ascii_only demo "show me the" = be_specific_text.
Proof.
  apply (C6_stopword_query_scans_nothing ascii_only demo "show me the").
  intros token H. vm_compute in H.
  destruct H as [<-|[<-|[<-|[]]]]; reflexivity.
Defined.

(** Greeting words are no stopwords: with a third token the greeting
    test does not fire, "hello" is a keyword and the products are
    looked at. *)
Example greeting_word_is_a_keyword :
  scanned ascii_only demo "hello you are" = [VisitProduct "1"; VisitProduct "2"]
  /\ search_internal_knowledge ascii_only demo "hello you are"
     = not_found_text "hello you are".
Proof. split; reflexivity. Qed.

Lemma C7_witness :
  let cats := requested_categories ascii_only "what tents do you have" in
  let docs := product_docs (fst (search ascii_only demo "what tents do you have")) in
  (forall d, In d docs ->
     In d (_product_data demo)
     /\ exists cm category cat_keyword,
          category_match_of ascii_only (snd d) = Some cm /\ is_empty cm = false
          /\ In category cats
          /\ In cat_keyword (category_keywords_of category)
          /\ str_in cat_keyword cm = true)
  /\ List.length docs <= 8
  /\ ((fst (search ascii_only demo "what tents do you have") = Greeting
       /\ scanned ascii_only demo "what tents do you have" = [])
      \/ exists seen rest,
           _product_data demo = (seen ++ rest)%list
           /\ visited_products (scanned ascii_only demo "what tents do you have")
              = map fst seen
           /\ docs = filter (doc_hit ascii_only cats) seen
           /\ (rest <> [] ->
               List.length docs = 8
               /\ exists seen' d, seen = (seen' ++ [d])%list
                                  /\ doc_hit ascii_only cats d = true)).
Proof.
  apply (C7_category_mode ascii_only demo "what tents do you have" "tents").
  - reflexivity.
  - vm_compute. auto.
  - vm_compute. auto.
Defined.

(** The eighth match ends the scan: the two further tents and the
    stove are not looked at. *)
Example eighth_match_ends_the_scan :
  map fst (product_docs (fst (search ascii_only crowded "what tents do you have")))
    = ["1"; "2"; "3"; "4"; "5"; "6"; "7"; "8"]
  /\ visited_products (scanned ascii_only crowded "what tents do you have")
     = ["1"; "2"; "3"; "4"; "5"; "6"; "7"; "8"].
Proof. split; vm_compute; reflexivity. Qed.

(** A stove whose body mentions a tent is no tent. *)
Example body_mention_does_not_match :
  str_in "tent" (lower ascii_only stove_doc) = true
  /\ product_docs (fst (search ascii_only demo "what tents do you have"))
     = [("1", tent_doc)].
Proof. split; vm_compute; reflexivity. Qed.

Lemma free_text_mode_witness :
  let docs := product_docs (fst (search ascii_only demo "compactcook please")) in
  (forall d, In d docs ->
     In d (_product_data demo)
     /\ exists kw,
          In kw (keywords_of ascii_only "compactcook please") /\ 3 < len kw
          /\ (str_in kw (lower ascii_only (title_line (snd d))) = true
              \/ exists cm, category_match_of ascii_only (snd d) = Some cm
                            /\ is_empty cm = false /\ str_in kw cm = true))
  /\ List.length docs <= 8
  /\ exists seen rest,
       _product_data demo = (seen ++ rest)%list
       /\ visited_products (scanned ascii_only demo "compactcook please")
          = map fst seen
       /\ docs = filter (free_doc_hit ascii_only
                           (keywords_of ascii_only "compactcook please")) seen
       /\ (rest <> [] ->
           List.length docs = 8
           /\ exists seen' d,
                seen = (seen' ++ [d])%list
                /\ free_doc_hit ascii_only
                     (keywords_of ascii_only "compactcook please") d = true).
Proof.
  apply (free_text_mode ascii_only demo "compactcook please").
  - reflexivity.
  - reflexivity.
  - vm_compute. discriminate.
  - reflexivity.
Defined.

Example title_line_is_searched :
  product_docs (fst (search ascii_only demo "compactcook please"))
  = [("2", stove_doc)].
Proof. vm_compute. reflexivity. Qed.

Lemma short_keywords_match_no_product_witness :
  product_docs (fst (search ascii_only demo "an axe")) = []
  /\ visited_products (scanned ascii_only demo "an axe")
     = map fst (_product_data demo).
Proof.
  apply (short_keywords_match_no_product ascii_only demo "an axe").
  - reflexivity.
  - reflexivity.
  - vm_compute. discriminate.
  - reflexivity.
  - intros kw H. vm_compute in H. destruct H as [<-|[]]. vm_compute. lia.
Defined.

Lemma reply_shows_only_the_customer_count_witness :
  search_internal_knowledge ascii_only
    (with_customers demo
       [("c7", [("name", "Alan Turing"); ("last_transaction", "bought a tent")])])
    "customer tent"
  = search_internal_knowledge ascii_only demo "customer tent".
Proof.
  apply reply_shows_only_the_customer_count. vm_compute. reflexivity.
Defined.

Lemma policies_returned_witness :
  policy_docs (fst (search ascii_only demo "what is the return policy for loans")) =
    if asks_policy (keywords_of ascii_only "what is the return policy for loans")
    then filter (policy_hit ascii_only
                   (keywords_of ascii_only "what is the return policy for loans"))
                (_policies demo)
    else [].
Proof.
  apply (policies_returned ascii_only demo "what is the return policy for loans").
  - reflexivity.
  - reflexivity.
  - vm_compute. discriminate.
Defined.

Example policy_for_loans :
  map fst (policy_docs
             (fst (search ascii_only demo "what is the return policy for loans")))
  = ["loan_approval"].
Proof. vm_compute. reflexivity. Qed.

Lemma short_query_with_greeting_inside_witness :
  search_internal_knowledge ascii_only demo "Hiking boots" = greeting_text
  /\ scanned ascii_only demo "Hiking boots" = [].
Proof.
  apply (short_query_with_greeting_inside ascii_only demo "Hiking boots" "hi").
  - exact ascii_strip_keeps_words.
  - reflexivity.
  - simpl. auto.
  - vm_compute. lia.
  - vm_compute. reflexivity.
Defined.

Lemma get_product_info_returns_first_match_witness :
  get_product_info ascii_only demo "2" = tent_doc.
Proof.
  apply (get_product_info_returns_first_match ascii_only demo "2" []
           ("1", tent_doc) [("2", stove_doc)]).
  - reflexivity.
  - reflexivity.
  - right. vm_compute. reflexivity.
  - intros q [].
Defined.

End MatcherProps.

(* ================================================================== *)
(** ** Routing and composition on any text                             *)
(* ================================================================== *)

Module OrchestratorProps.

Import Str StrFacts StrMore Plugin PluginTests Lookups Main MainTests.
Import PollProps HandlerProps LookupProps Py PyFacts Matcher Orchestrator.

Section AnyText.

Variable py : StrMethods.

(** Step 1 never raises, yields nothing and calls the plugin at most
    once. *)
Lemma any_step1_spec g user_message w :
  step1 py g user_message w =
    (add_calls (search_calls py g user_message) w,
     Ok (internal_response_of py g user_message)).
Proof.
  unfold step1, search_calls, searches, internal_response_of.
  destruct (internal_plugin g) as [plugin|];
    [|rewrite add_calls_nil; reflexivity].
  destruct (kernel g); [|rewrite add_calls_nil; reflexivity].
  destruct (is_external_query py user_message); cbn [negb andb];
    [rewrite add_calls_nil; reflexivity|].
  unfold try_except, bind. rewrite call_eq.
  destruct (plugin user_message) as [internal_context|e]; [|reflexivity].
  destruct (usable py (Some internal_context)); reflexivity.
Qed.

(** Step 2 in full: its calls and the fragment it leaves. *)
Lemma any_step2_exact g user_message w :
  step2 py g user_message (internal_response_of py g user_message) w
  = (add_calls (external_calls py g user_message) w,
     Ok (agent_fragment (external_response py g user_message))).
Proof.
  unfold step2, external_calls, external_response, use_external. cbv zeta.
  destruct (agent g) as [a|]; [|rewrite add_calls_nil; reflexivity].
  destruct (ai_project_client g) as [client|]; [|rewrite add_calls_nil; reflexivity].
  destruct (needs_web_search py user_message
            || negb (truthy (internal_response_of py g user_message)));
    [|rewrite add_calls_nil; reflexivity].
  unfold delegate, try_except, bind. rewrite call_eq.
  destruct (create_thread_and_run client (agent_id a) _) as [run_result|e];
    [|reflexivity].
  rewrite log_eq, call_eq.
  destruct (messages_list client (thread_id run_result) _) as [messages|e];
    unfold ret; rewrite !add_calls_add; reflexivity.
Qed.

(** A started request in full. *)
Lemma any_handle_exact g user_message thread_id :
  started g thread_id = true ->
  handle py g user_message thread_id
  = ({| calls := (time_calls thread_id ++ search_calls py g user_message
                  ++ external_calls py g user_message)%list;
        yielded := [CompletedMessage
                      (compose (internal_response_of py g user_message)
                               (external_response py g user_message));
                    StreamEnd] |}, Ok tt).
Proof.
  intros Hs. unfold handle, stream_agent_response.
  assert (E : answer py g user_message thread_id new_world
              = (add_calls (time_calls thread_id ++ search_calls py g user_message
                            ++ external_calls py g user_message) new_world,
                 Ok (compose (internal_response_of py g user_message)
                             (external_response py g user_message)))).
  { unfold answer.
    destruct (ensure_thread_spec g thread_id new_world) as [[_ E]|[Hn _]];
      [|congruence].
    rewrite (bind_ok _ _ _ _ _ E).
    rewrite (bind_ok _ _ _ _ _ (any_step1_spec g user_message _)).
    rewrite (bind_ok _ _ _ _ _ (any_step2_exact g user_message _)).
    unfold ret. rewrite !add_calls_add. reflexivity. }
  erewrite try_ok; [reflexivity|].
  rewrite (bind_ok _ _ _ _ _ E). reflexivity.
Qed.

(** A request whose event loop fails. *)
Lemma any_handle_not_started g user_message thread_id :
  started g thread_id = false ->
  handle py g user_message thread_id
  = ({| calls := [LoopTime];
        yielded := [CompletedMessage error_message; StreamEnd] |}, Ok tt).
Proof.
  intros Hs. unfold handle, stream_agent_response.
  destruct (ensure_thread_spec g thread_id new_world) as [[Hn _]|[_ [e E]]];
    [congruence|].
  assert (Ea : answer py g user_message thread_id new_world
               = (add_calls [LoopTime] new_world, Raise e)).
  { unfold answer. apply (bind_raise _ _ _ _ _ E). }
  rewrite (try_raise _ _ _ _ _ (bind_raise _ _ _ _ _ Ea)). reflexivity.
Qed.

(** A message that asks for a web search is an external query. *)
Lemma any_needs_web_search_is_external user_message :
  needs_web_search py user_message = true ->
  is_external_query py user_message = true.
Proof.
  unfold needs_web_search, is_external_query, any_in. intros H.
  apply existsb_exists in H. destruct H as [keyword [Hin Hk]].
  apply existsb_exists. exists keyword. split; [|exact Hk].
  pose proof web_search_keywords_are_external as Hall.
  rewrite forallb_forall in Hall. apply mem_In. apply Hall. exact Hin.
Qed.

(** An internal fragment rules the external run out. *)
Lemma any_internal_hit_skips_external g user_message :
  truthy (internal_response_of py g user_message) = true ->
  use_external py g user_message (internal_response_of py g user_message) = false.
Proof.
  intros Ht. unfold use_external.
  destruct (agent g); [|reflexivity].
  destruct (ai_project_client g); [|reflexivity].
  rewrite Ht. cbn [negb]. rewrite orb_false_r.
  destruct (needs_web_search py user_message) eqn:Hw; [|reflexivity].
  apply any_needs_web_search_is_external in Hw.
  unfold internal_response_of in Ht. rewrite Hw in Ht.
  destruct (internal_plugin g); [|discriminate].
  rewrite andb_false_r in Ht. discriminate.
Qed.

Lemma any_internal_response_usable g user_message r :
  internal_response_of py g user_message = Some r -> truthy (Some r) = true.
Proof.
  unfold internal_response_of.
  destruct (internal_plugin g) as [plugin|]; [|discriminate].
  destruct (kernel g && negb (is_external_query py user_message)); [|discriminate].
  destruct (plugin user_message) as [ctx|e]; [|discriminate].
  destruct (usable py (Some ctx)) eqn:Hu; [|discriminate].
  intros H. injection H as <-. unfold usable in Hu.
  apply andb_true_iff in Hu. apply Hu.
Qed.

Lemma any_skipped_external g user_message :
  use_external py g user_message (internal_response_of py g user_message) = false ->
  external_calls py g user_message = []
  /\ external_response py g user_message = None.
Proof.
  intros Hu. unfold external_calls, external_response. cbv zeta. rewrite Hu.
  destruct (agent g); [|split; reflexivity].
  destruct (ai_project_client g); split; reflexivity.
Qed.

(** The calls of step 2: none, or one submission followed by status
    checks, sleeps and the listing of the messages. *)
Lemma any_external_calls_shape g user_message :
  external_calls py g user_message = []
  \/ exists enhanced_message tail,
       external_calls py g user_message
       = CreateThreadAndRun enhanced_message :: tail
       /\ Forall (fun c => is_plain c = true) tail.
Proof.
  unfold external_calls. cbv zeta.
  destruct (agent g) as [a|]; [|left; reflexivity].
  destruct (ai_project_client g) as [client|]; [|left; reflexivity].
  destruct (use_external py g user_message (internal_response_of py g user_message));
    [|left; reflexivity].
  right.
  destruct (create_thread_and_run client (agent_id a) _) as [run_result|e].
  - eexists _, _. split; [reflexivity|].
    apply Forall_app. split; [apply poll_calls_plain | repeat constructor].
  - eexists _, _. split; [reflexivity | constructor].
Qed.

Lemma any_external_calls_no_search g user_message :
  Forall (fun c => is_search c = false) (external_calls py g user_message).
Proof.
  destruct (any_external_calls_shape g user_message)
    as [E|(enhanced_message & tail & E & Hp)]; rewrite E.
  - constructor.
  - constructor; [reflexivity | apply plain_no_search; exact Hp].
Qed.

Lemma any_search_calls_no_submit g user_message :
  Forall (fun c => is_submit c = false) (search_calls py g user_message).
Proof.
  unfold search_calls. destruct (searches py g user_message); repeat constructor.
Qed.

(** **** C3 *)

(** C3, amended. The internal lookup, when it is made, is made before
    any submission to the external service: the calls of a request
    split into a part without submission followed by a part without
    lookup.  The lookup is made exactly when the request got started,
    the plugin and the kernel are set and the lower-cased message
    contains none of the twelve external-information keywords as a
    substring, whatever else the message contains. *)
Theorem C3_internal_lookup_comes_first g user_message thread_id :
  (In (SearchInternal user_message) (trace py g user_message thread_id)
   <-> started g thread_id = true
       /\ internal_plugin g <> None
       /\ kernel g = true
       /\ any_in external_info_keywords (lower py user_message) = false)
  /\ exists before after,
       trace py g user_message thread_id = (before ++ after)%list
       /\ Forall (fun c => is_submit c = false) before
       /\ Forall (fun c => is_search c = false) after.
Proof.
  assert (Hsearches :
    searches py g user_message = true <->
    internal_plugin g <> None /\ kernel g = true
    /\ any_in external_info_keywords (lower py user_message) = false).
  { unfold searches. fold (is_external_query py user_message).
    destruct (internal_plugin g) as [plugin|].
    - rewrite andb_true_iff, negb_true_iff. split.
      + intros [H1 H2]. repeat split; [congruence | exact H1 | exact H2].
      + intros (_ & H1 & H2). split; assumption.
    - split; [discriminate | intros (H & _); congruence]. }
  unfold trace. destruct (started g thread_id) eqn:Hs.
  - rewrite (any_handle_exact _ _ _ Hs). cbn [fst calls].
    pose proof (any_external_calls_no_search g user_message) as Hcs.
    split.
    + rewrite <- Hsearches. split.
      * intros H. split; [reflexivity|].
        apply in_app_or in H. destruct H as [H|H].
        { pose proof (plain_no_search _ (time_calls_plain thread_id)) as Hp.
          rewrite Forall_forall in Hp. specialize (Hp _ H). discriminate. }
        apply in_app_or in H. destruct H as [H|H].
        { unfold search_calls in H.
          destruct (searches py g user_message); [reflexivity | destruct H]. }
        rewrite Forall_forall in Hcs. specialize (Hcs _ H). discriminate.
      * intros [_ H]. apply in_or_app. right. apply in_or_app. left.
        unfold search_calls. rewrite H. left. reflexivity.
    + exists (time_calls thread_id ++ search_calls py g user_message)%list,
             (external_calls py g user_message).
      split; [apply app_assoc|]. split; [|exact Hcs].
      apply Forall_app. split.
      * apply plain_no_submit, time_calls_plain.
      * apply any_search_calls_no_submit.
  - rewrite (any_handle_not_started _ _ _ Hs). cbn [fst calls]. split.
    + split.
      * intros [H|[]]. discriminate.
      * intros (H & _). discriminate.
    + exists [LoopTime], []. repeat constructor.
Qed.

(** **** C2 *)

(** An internal and an external fragment are never both at hand. *)
Lemma any_never_both g user_message :
  truthy (internal_response_of py g user_message) = true ->
  external_calls py g user_message = []
  /\ external_response py g user_message = None.
Proof.
  intros Ht. apply any_skipped_external.
  apply any_internal_hit_skips_external. exact Ht.
Qed.

(** C2, amended. The reply of a started request is made of exactly one
    fragment: the external one when the external run gave a text, else
    the internal one when the lookup gave one, else the fallback.  A
    request whose internal lookup gave a fragment makes no submission
    to the external service and has no external fragment, and a request
    with an external fragment has no internal one: the two never meet
    in one reply. *)
Theorem C2_reply_is_one_fragment g user_message thread_id :
  started g thread_id = true ->
  let internal_response := internal_response_of py g user_message in
  let agent_response := external_response py g user_message in
  events py g user_message thread_id
  = [CompletedMessage
       (if truthy agent_response
        then "**AI Assistant with Bing:** " ++ text_of agent_response
        else if truthy internal_response
             then "**Internal Knowledge:** " ++ text_of internal_response
             else fallback_response);
     StreamEnd]
  /\ (truthy internal_response = true ->
      agent_response = None
      /\ Forall (fun c => is_submit c = false)
                (trace py g user_message thread_id))
  /\ (truthy agent_response = true -> internal_response = None).
Proof.
  intros Hs internal_response agent_response.
  unfold events, trace. rewrite (any_handle_exact _ _ _ Hs).
  cbn [fst yielded calls]. rewrite compose_spec.
  split; [reflexivity|]. split.
  - intros Ht. destruct (any_never_both _ _ Ht) as [Hc Hr].
    split; [exact Hr|]. rewrite Hc, app_nil_r.
    apply Forall_app. split.
    + apply plain_no_submit, time_calls_plain.
    + apply any_search_calls_no_submit.
  - intros Ha. destruct internal_response as [r|] eqn:Ei; [|reflexivity].
    pose proof (any_internal_response_usable _ _ _ Ei) as Ht.
    unfold internal_response in Ei.
    rewrite <- Ei in Ht. destruct (any_never_both _ _ Ht) as [_ Hr].
    unfold agent_response in Ha. rewrite Hr in Ha. discriminate.
Qed.

(** **** The keyed lookups *)

Lemma any_unusable_when_not_found t :
  lower_keeps_plain_text py ->
  str_in "not found" t = true -> usable py (Some t) = false.
Proof.
  intros Hlow H. unfold usable.
  rewrite (Hlow "not found" t eq_refl H). apply andb_false_r.
Qed.

(** X9. A miss of each of the three keyed lookups is reported with a
    text that says "not found", which the test of step 1 in
    [main_sk.py] (lines 185 and 203) takes as no usable result. *)
Theorem lookup_misses_say_not_found self key :
  lower_keeps_plain_text py ->
  is_empty key = false ->
  (lookup key (_customer_data self) = None ->
   get_customer_info self key = customer_missing key
   /\ usable py (Some (get_customer_info self key)) = false)
  /\ (existsb (product_matches py key) (_product_data self) = false ->
      get_product_info py self key = product_missing self key
      /\ usable py (Some (get_product_info py self key)) = false)
  /\ (existsb (policy_matches py key) (_policies self) = false ->
      get_banking_policy py self key = policy_missing self key
      /\ usable py (Some (get_banking_policy py self key)) = false).
Proof.
  intros Hlow Hk. split; [|split]; intros H.
  - unfold get_customer_info. rewrite Hk, H. split; [reflexivity|].
    apply any_unusable_when_not_found; [exact Hlow|]. unfold customer_missing.
    apply str_in_app_r. apply str_in_app_r. reflexivity.
  - unfold get_product_info. rewrite Hk, (find_nothing _ _ H).
    split; [reflexivity|].
    apply any_unusable_when_not_found; [exact Hlow|]. unfold product_missing.
    apply str_in_app_r. apply str_in_app_r.
    apply str_in_app_l. reflexivity.
  - unfold get_banking_policy. rewrite Hk, (find_nothing _ _ H).
    split; [reflexivity|].
    apply any_unusable_when_not_found; [exact Hlow|]. unfold policy_missing.
    apply str_in_app_r. apply str_in_app_r.
    apply str_in_app_l. reflexivity.
Qed.

End AnyText.

(** With the methods of [Str], this handler is the one of [Main]. *)
Lemma ascii_handler_is_main g user_message thread_id :
  handle ascii_only g user_message thread_id
  = Main.handle g user_message thread_id.
Proof. reflexivity. Qed.

(** C3 as stated fails: "current tent models" holds the keywords "tent"
    and "models", which are no real-time trigger words, and the plugin
    and the kernel are set, yet the plugin is never called: the word
    "current" alone makes step 1 skip the internal lookup. *)
Lemma C3_counterexample :
  Matcher.tokens ascii_only "current tent models" = ["current"; "tent"; "models"]
  /\ mem "tent" external_info_keywords = false
  /\ mem "models" external_info_keywords = false
  /\ searches ascii_only (wired quick) "current tent models" = false
  /\ trace ascii_only (wired quick) "current tent models" None
     = [LoopTime;
        CreateThreadAndRun
          (enhanced_message_of ascii_only "current tent models" None);
        RunsGet 0; Sleep 2%Z; RunsGet 1; Sleep 2%Z; RunsGet 2; MessagesList].
Proof. repeat split; vm_compute; reflexivity. Qed.

(** C2 as stated fails: no request has both fragments - whenever the
    lookup leaves an internal fragment, no run is submitted and there
    is no external fragment.  "what tents do you have" is answered by
    the lookup; with the external service wired up and ready to answer,
    the request still makes no submission and its reply is the internal
    fragment alone. *)
Lemma C2_counterexample :
  (forall py g user_message,
     truthy (internal_response_of py g user_message) = true ->
     truthy (external_response py g user_message) = true -> False)
  /\ internal_response_of ascii_only (wired quick) "what tents do you have"
     = Some (search_internal_knowledge ascii_only demo "what tents do you have")
  /\ trace ascii_only (wired quick) "what tents do you have" None
     = [LoopTime; SearchInternal "what tents do you have"]
  /\ events ascii_only (wired quick) "what tents do you have" None
     = [CompletedMessage
          ("**Internal Knowledge:** "
           ++ search_internal_knowledge ascii_only demo "what tents do you have");
        StreamEnd].
Proof.
  split; [|repeat split; vm_compute; reflexivity].
  intros py g user_message Hi He.
  destruct (any_never_both py g user_message Hi) as [_ Hr].
  rewrite Hr in He. discriminate.
Qed.

Lemma C2_witness :
  events ascii_only (wired quick) "what tents do you have" None
  = [CompletedMessage
       ("**Internal Knowledge:** "
        ++ search_internal_knowledge ascii_only demo "what tents do you have");
     StreamEnd]
  /\ external_response ascii_only (wired quick) "what tents do you have" = None
  /\ Forall (fun c => is_submit c = false)
            (trace ascii_only (wired quick) "what tents do you have" None).
Proof.
  destruct (C2_reply_is_one_fragment ascii_only (wired quick)
              "what tents do you have" None eq_refl) as (H1 & H2 & _).
  split; [exact H1|]. apply H2. vm_compute. reflexivity.
Defined.

(** With a real-time keyword the same service is asked and the reply
    is its fragment alone. *)
Example external_fragment_alone :
  internal_response_of ascii_only (wired quick) "latest tent news" = None
  /\ events ascii_only (wired quick) "latest tent news" None
     = [CompletedMessage "**AI Assistant with Bing:** Sunny, 21 C."; StreamEnd].
Proof. split; vm_compute; reflexivity. Qed.

Lemma lookup_misses_say_not_found_witness :
  usable ascii_only (Some (get_customer_info demo "c9")) = false
  /\ usable ascii_only (Some (get_product_info ascii_only demo "kayak")) = false
  /\ usable ascii_only (Some (get_banking_policy ascii_only demo "refund")) = false.
Proof.
  destruct (lookup_misses_say_not_found ascii_only demo "c9"
              ascii_lower_keeps_plain_text eq_refl) as (H1 & _ & _).
  destruct (lookup_misses_say_not_found ascii_only demo "kayak"
              ascii_lower_keeps_plain_text eq_refl) as (_ & H2 & _).
  destruct (lookup_misses_say_not_found ascii_only demo "refund"
              ascii_lower_keeps_plain_text eq_refl) as (_ & _ & H3).
  split; [apply H1; reflexivity|].
  split; [apply H2; vm_compute; reflexivity | apply H3; vm_compute; reflexivity].
Defined.

End OrchestratorProps.
